(** * pescea: the Escea fireplace controller and its discovery service

    A shallow embedding of [pescea/controller.py] and [pescea/discovery.py].
    Coroutines are run to completion one after the other; what the network
    answers and what the clock shows is read from a [World], and everything a
    call does to the outside (datagrams, callbacks, log records, tasks) is
    returned as a list of [effect]s next to the new object state. *)

From Stdlib Require Import ZArith QArith Qround Qabs Bool List String Lia Lqa.
From stdpp Require Import base gmap strings list fin_maps.

Local Open Scope Z_scope.

(** ** Enumerations of controller.py *)

Inductive ControllerState := BUSY | READY | NON_RESPONSIVE | DISCONNECTED.

Inductive Fan := FLAME_EFFECT | AUTO | FAN_BOOST.

Inductive DictEntries :=
  | IP_ADDRESS | DEVICE_UID | CONTROLLER_STATE | HAS_NEW_TIMERS
  | FIRE_IS_ON | FAN_MODE | DESIRED_TEMP | CURRENT_TEMP.

#[global] Instance ControllerState_eq_dec : EqDecision ControllerState.
Proof. solve_decision. Defined.

#[global] Instance Fan_eq_dec : EqDecision Fan.
Proof. solve_decision. Defined.

#[global] Instance DictEntries_eq_dec : EqDecision DictEntries.
Proof. solve_decision. Defined.

Definition DictEntries_index (e : DictEntries) : nat :=
  match e with
  | IP_ADDRESS => 0 | DEVICE_UID => 1 | CONTROLLER_STATE => 2
  | HAS_NEW_TIMERS => 3 | FIRE_IS_ON => 4 | FAN_MODE => 5
  | DESIRED_TEMP => 6 | CURRENT_TEMP => 7
  end%nat.

Definition DictEntries_of_index (n : nat) : DictEntries :=
  match n with
  | 0 => IP_ADDRESS | 1 => DEVICE_UID | 2 => CONTROLLER_STATE
  | 3 => HAS_NEW_TIMERS | 4 => FIRE_IS_ON | 5 => FAN_MODE
  | 6 => DESIRED_TEMP | _ => CURRENT_TEMP
  end%nat.

#[global] Instance DictEntries_countable : Countable DictEntries.
Proof.
  refine (inj_countable' DictEntries_index DictEntries_of_index _).
  by intros [].
Defined.

(** [Controller.DictValue = Union[str, int, float, bool, Fan]].  A float is a
    rational here: every finite binary64 value is one; nan and the
    infinities are left out. *)
Inductive DictValue :=
  | VStr (s : string)
  | VInt (z : Z)
  | VFloat (q : Q)
  | VBool (b : bool)
  | VFan (f : Fan).

(** The number a value compares as: [True == 1] and [1 == 1.0] in Python. *)
Definition py_number (v : DictValue) : option Q :=
  match v with
  | VInt z => Some (inject_Z z)
  | VFloat q => Some q
  | VBool b => Some (inject_Z (Z.b2z b))
  | VStr _ | VFan _ => None
  end.

(** Python's [==] on these values. *)
Definition py_eqb (a b : DictValue) : bool :=
  match py_number a, py_number b with
  | Some x, Some y => Qeq_bool x y
  | _, _ =>
      match a, b with
      | VStr s, VStr u => String.eqb s u
      | VFan f, VFan g => bool_decide (f = g)
      | _, _ => false
      end
  end.

(** Truth value of a value in [if value:]. *)
Definition py_truth (v : DictValue) : bool :=
  match v with
  | VStr s => negb (String.eqb s "")
  | VFan _ => true
  | VInt z => negb (z =? 0)
  | VFloat q => negb (Qeq_bool q 0)
  | VBool b => b
  end.

Definition Qltb (a b : Q) : bool := negb (Qle_bool b a).

(** [round(x)] on a float: the nearest integer, a tie going to the even one. *)
Definition py_round (x : Q) : Z :=
  let f := Qfloor x in
  match Qcompare (x - inject_Z f) (1 # 2) with
  | Lt => f
  | Gt => f + 1
  | Eq => if Z.even f then f else f + 1
  end.

(** Constants of controller.py, in seconds. *)
Definition REQUEST_TIMEOUT : Q := 5.
Definition REFRESH_INTERVAL : Q := 30.
Definition NOTIFY_REFRESH_INTERVAL : Q := 5 * 60.
Definition RETRY_INTERVAL : Q := 10.
Definition RETRY_TIMEOUT : Q := 60.
Definition DISCONNECTED_INTERVAL : Q := 5 * 60.
Definition ON_OFF_BUSY_WAIT_TIME : Q := 66.

(** Constants of discovery.py. *)
Definition DISCOVERY_SLEEP : Q := 60.
Definition DISCOVERY_RESCAN : Q := 5.
Definition BROADCAST_IP_ADDR : string := "255.255.255.255".

(** ** What controller.py and discovery.py import from pescea.message *)

(** Modelled from the spec: pescea/message.py is not among the sources; the
    commands are the ones the spec lists and the two modules name. *)
Inductive CommandID :=
  | SEARCH_FOR_FIRES | STATUS_PLEASE | POWER_ON | POWER_OFF
  | FAN_BOOST_ON | FAN_BOOST_OFF | FLAME_EFFECT_ON | FLAME_EFFECT_OFF
  | NEW_SET_TEMP.

(** Modelled from the spec: the reply kinds of message.py, "I_AM_A_FIRE,
    STATUS, and per-command acknowledgements". *)
Inductive ResponseID :=
  | I_AM_A_FIRE
  | STATUS
  | ACK (cmd : CommandID).

#[global] Instance CommandID_eq_dec : EqDecision CommandID.
Proof. solve_decision. Defined.

#[global] Instance ResponseID_eq_dec : EqDecision ResponseID.
Proof. solve_decision. Defined.

(** Modelled from the spec: a decoded reply, with the fields the two modules
    read from a FireplaceMessage. *)
Record FireplaceMessage := {
  response_id : ResponseID;
  serial_number : string;
  has_new_timers : bool;
  fire_is_on : bool;
  fan_boost_is_on : bool;
  flame_effect : bool;
  desired_temp : Z;
  current_temp : Z
}.

(** The rest of message.py that controller.py uses: the table of expected
    responses and the two temperature bounds.  Their values are not in the
    sources, so they are parameters of the development. *)
Record MessageModule := {
  expected_response : CommandID -> ResponseID;
  MIN_SET_TEMP : Z;
  MAX_SET_TEMP : Z
}.

(** ** Exceptions and results *)

Inductive exn :=
  | KeyError (key : DictEntries)          (* a settings entry is missing *)
  | KeyError_member (uid : DictValue)     (* set.remove of an absent member *)
  | AttributeError (name : string)        (* the object has no such attribute *)
  | TypeError_raise (state : DictEntries) (* [raise(AttributeError, msg)]: a tuple is no exception *)
  | TypeError
  | ValueError
  | ConnectionError
  | TimeoutError
  | OtherError (name : string).

Inductive result (A : Type) :=
  | Ok (a : A)
  | Raise (e : exn).
Arguments Ok {A} a.
Arguments Raise {A} e.

(** ** The outside world *)

(** The key of a reply in the mapping the datagram layer returns.  The tests
    index the mapping by the IP string; [_discovery_received] unpacks the key
    as a pair. *)
Inductive Addr :=
  | AddrStr (ip : string)
  | AddrPair (ip : string) (port : Z).

(** How a call of the datagram layer can fail.  test_datagram.py expects
    ConnectionError when nothing answers; [_send_broadcast] is written for
    asyncio.TimeoutError. *)
Inductive datagram_failure :=
  | connection_error
  | timeout_error
  | other_error (name : string).

Definition exn_of_failure (f : datagram_failure) : exn :=
  match f with
  | connection_error => ConnectionError
  | timeout_error => TimeoutError
  | other_error name => OtherError name
  end.

(** What one call of the datagram layer comes back with: the mapping of the
    replies, in arrival order, or a failure. *)
Inductive send_outcome :=
  | Responses (replies : list (Addr * FireplaceMessage))
  | Fails (f : datagram_failure).

(** The world answers the n-th datagram call and the n-th reading of the
    clock; [float_of_str] is what the builtin [float] makes of a string. *)
Record World := {
  net : nat -> CommandID -> send_outcome;
  clock : nat -> Q;
  float_of_str : string -> option Q
}.

Record Cursor := { sends : nat; reads : nat }.

Inductive LogLevel := DEBUG | INFO | WARNING | ERROR | EXCEPTION.

(** discovery.py, class Listener: an observer is known by a number, and
    its four methods are the four calls it can receive.  A controller calls
    the methods of the same names on its discovery service. *)
Module Listener.
Definition t := nat.

Inductive method :=
  | controller_discovered
  | controller_disconnected
  | controller_reconnected
  | controller_update.
End Listener.

Inductive Task :=
  | poll_loop_task
  | signal_loop_task
  | rescan_task
  | scan_loop_task
  | replay_discovered_task (l : Listener.t)
  | initialize_controller_task (device_uid device_ip : string).

Inductive effect :=
  | Send (cmd : CommandID) (payload : option DictValue)   (* a call of the datagram layer *)
  | Call_discovery (cb : Listener.method)                  (* controller to its discovery *)
  | Call_listener (l : Listener.t) (cb : Listener.method) (uid : option DictValue)
  | Log (level : LogLevel)
  | Create_task (t : Task)
  | Set_ip (address : DictValue)                           (* datagram.set_ip *)
  | Sleep (seconds : Q)
  | Wait_tasks (ts : list Task).

#[global] Instance Listener_method_eq_dec : EqDecision Listener.method.
Proof. solve_decision. Defined.

#[global] Instance Task_eq_dec : EqDecision Task.
Proof. solve_decision. Defined.

(** The commands put on the wire, the callbacks into discovery and the tasks
    started, in the order they happen. *)
Definition wire (out : list effect) : list CommandID :=
  omap (fun e => match e with Send c _ => Some c | _ => None end) out.

Definition callbacks (out : list effect) : list Listener.method :=
  omap (fun e => match e with Call_discovery cb => Some cb | _ => None end) out.

Definition listener_calls (out : list effect) : list (Listener.t * Listener.method) :=
  omap (fun e => match e with Call_listener l cb _ => Some (l, cb) | _ => None end) out.

Definition tasks_created (out : list effect) : list Task :=
  omap (fun e => match e with Create_task t => Some t | _ => None end) out.

Definition logged (out : list effect) : list LogLevel :=
  omap (fun e => match e with Log lvl => Some lvl | _ => None end) out.

(** ** A state, exception and output monad *)

Definition M (S A : Type) : Type :=
  S * Cursor -> result A * (S * Cursor) * list effect.

Section Monad.
Context {S : Type}.

Definition ret {A} (a : A) : M S A := fun s => (Ok a, s, []).

Definition raise {A} (e : exn) : M S A := fun s => (Raise e, s, []).

Definition bind {A B} (m : M S A) (f : A -> M S B) : M S B := fun s =>
  match m s with
  | (Ok a, s1, o1) =>
      match f a s1 with
      | (r, s2, o2) => (r, s2, o1 ++ o2)
      end
  | (Raise e, s1, o1) => (Raise e, s1, o1)
  end.

(** [try: m  except E: h] for the exceptions [handles] accepts. *)
Definition try_except {A} (m : M S A) (handles : exn -> bool) (h : M S A) : M S A :=
  fun s =>
    match m s with
    | (Ok a, s1, o1) => (Ok a, s1, o1)
    | (Raise e, s1, o1) =>
        if handles e
        then match h s1 with (r, s2, o2) => (r, s2, o1 ++ o2) end
        else (Raise e, s1, o1)
    end.

Definition emit (e : effect) : M S unit := fun s => (Ok tt, s, [e]).

Definition get : M S S := fun s => (Ok (fst s), s, []).

Definition modify (f : S -> S) : M S unit :=
  fun s => (Ok tt, (f (fst s), snd s), []).

Definition of_result {A} (r : result A) : M S A := fun s => (r, s, []).

(** [time()] *)
Definition time (w : World) : M S Q := fun s =>
  let k := snd s in
  (Ok (clock w (reads k)), (fst s, {| sends := sends k; reads := Datatypes.S (reads k) |}), []).

(** One call of the datagram layer. *)
Definition datagram_send (w : World) (cmd : CommandID) (payload : option DictValue)
  : M S (list (Addr * FireplaceMessage)) := fun s =>
  let k := snd s in
  let s' := (fst s, {| sends := Datatypes.S (sends k); reads := reads k |}) in
  match net w (sends k) cmd with
  | Responses l => (Ok l, s', [Send cmd payload])
  | Fails f => (Raise (exn_of_failure f), s', [Send cmd payload])
  end.
End Monad.

Notation "'let*' x ':=' m 'in' f" := (bind m (fun x => f))
  (at level 10, x name, f at level 200, format "'[v' 'let*'  x  ':='  m  'in' '/' f ']'").
Notation "m ;;; f" := (bind m (fun _ => f))
  (at level 100, f at level 200, right associativity).

Definition is_ConnectionError (e : exn) : bool :=
  match e with ConnectionError => true | _ => false end.

Definition is_TimeoutError (e : exn) : bool :=
  match e with TimeoutError => true | _ => false end.

(** [responses[next(iter(responses))]] once [len(responses) > 0]. *)
Definition first_response (responses : list (Addr * FireplaceMessage)) : option FireplaceMessage :=
  match responses with
  | [] => None
  | (_, m) :: _ => Some m
  end.

(** [len(responses) > 0 and first.response_id == expected_response(command)] *)
Definition valid_response (msg : MessageModule) (command : CommandID)
    (responses : list (Addr * FireplaceMessage)) : bool :=
  match first_response responses with
  | Some m => bool_decide (response_id m = expected_response msg command)
  | None => false
  end.

(** [float(v)] *)
Definition py_float (w : World) (v : DictValue) : result Q :=
  match v with
  | VInt z => Ok (inject_Z z)
  | VFloat q => Ok q
  | VBool b => Ok (inject_Z (Z.b2z b))
  | VStr s => match float_of_str w s with Some q => Ok q | None => Raise ValueError end
  | VFan _ => Raise TypeError
  end.

(** [getattr(obj, name)] for an object known by the names it binds. *)
Definition has_attr (names : list string) (name : string) : bool :=
  existsb (String.eqb name) names.

(** ** controller.py: class Controller *)

Module Controller.

(** The attributes of a Controller that its methods read and write.  The
    five that [initialize] assigns do not exist on a new object: reading
    one before raises AttributeError. *)
Record t := {
  _system_settings : gmap DictEntries DictValue;
  _prior_settings : gmap DictEntries DictValue;
  _initialised : bool;
  _state : option ControllerState;
  _last_response : option Q;
  _busy_end_time : option Q;
  _last_update : option Q;
  _closed : option bool
}.

Definition set_system_settings (m : gmap DictEntries DictValue) (c : t) : t :=
  {| _system_settings := m; _prior_settings := _prior_settings c;
     _initialised := _initialised c; _state := _state c;
     _last_response := _last_response c; _busy_end_time := _busy_end_time c;
     _last_update := _last_update c; _closed := _closed c |}.

Definition set_prior_settings (m : gmap DictEntries DictValue) (c : t) : t :=
  {| _system_settings := _system_settings c; _prior_settings := m;
     _initialised := _initialised c; _state := _state c;
     _last_response := _last_response c; _busy_end_time := _busy_end_time c;
     _last_update := _last_update c; _closed := _closed c |}.

Definition set_initialised (b : bool) (c : t) : t :=
  {| _system_settings := _system_settings c; _prior_settings := _prior_settings c;
     _initialised := b; _state := _state c;
     _last_response := _last_response c; _busy_end_time := _busy_end_time c;
     _last_update := _last_update c; _closed := _closed c |}.

Definition set_state (s : ControllerState) (c : t) : t :=
  {| _system_settings := _system_settings c; _prior_settings := _prior_settings c;
     _initialised := _initialised c; _state := Some s;
     _last_response := _last_response c; _busy_end_time := _busy_end_time c;
     _last_update := _last_update c; _closed := _closed c |}.

Definition set_last_response (x : Q) (c : t) : t :=
  {| _system_settings := _system_settings c; _prior_settings := _prior_settings c;
     _initialised := _initialised c; _state := _state c;
     _last_response := Some x; _busy_end_time := _busy_end_time c;
     _last_update := _last_update c; _closed := _closed c |}.

Definition set_busy_end_time (x : Q) (c : t) : t :=
  {| _system_settings := _system_settings c; _prior_settings := _prior_settings c;
     _initialised := _initialised c; _state := _state c;
     _last_response := _last_response c; _busy_end_time := Some x;
     _last_update := _last_update c; _closed := _closed c |}.

Definition set_last_update (x : Q) (c : t) : t :=
  {| _system_settings := _system_settings c; _prior_settings := _prior_settings c;
     _initialised := _initialised c; _state := _state c;
     _last_response := _last_response c; _busy_end_time := _busy_end_time c;
     _last_update := Some x; _closed := _closed c |}.

Definition set_closed (b : bool) (c : t) : t :=
  {| _system_settings := _system_settings c; _prior_settings := _prior_settings c;
     _initialised := _initialised c; _state := _state c;
     _last_response := _last_response c; _busy_end_time := _busy_end_time c;
     _last_update := _last_update c; _closed := Some b |}.

(** [Controller(discovery, device_uid, device_ip)].  Of the discovery
    object only the names it binds matter: line 114 reads its [loop] and
    its [sending_lock]. *)
Definition __init__ (discovery_names : list string) (device_uid device_ip : string)
  : result t :=
  if negb (has_attr discovery_names "loop") then Raise (AttributeError "loop")
  else if negb (has_attr discovery_names "sending_lock")
  then Raise (AttributeError "sending_lock")
  else Ok {| _system_settings :=
               <[DEVICE_UID := VStr device_uid]> (<[IP_ADDRESS := VStr device_ip]> ∅);
             _prior_settings := ∅;
             _initialised := false;
             _state := None; _last_response := None; _busy_end_time := None;
             _last_update := None; _closed := None |}.

(** [self.<name>] for one of the attributes [initialize] creates. *)
Definition attr {A} (name : string) (field : t -> option A) : M t A :=
  let* c := get in
  match field c with
  | Some a => ret a
  | None => raise (AttributeError name)
  end.

(** [self._system_settings[key]] *)
Definition setting (key : DictEntries) : M t DictValue :=
  let* c := get in
  match _system_settings c !! key with
  | Some v => ret v
  | None => raise (KeyError key)
  end.

(** [self._system_settings[key] = v] *)
Definition store (key : DictEntries) (v : DictValue) : M t unit :=
  modify (fun c => set_system_settings (<[key := v]> (_system_settings c)) c).

(** Lines 416-449 of [_set_system_state]: the command of the first step. *)
Definition first_command (state : DictEntries) (value : DictValue)
  : result (option CommandID) :=
  match state with
  | FIRE_IS_ON => Ok (Some (if py_truth value then POWER_ON else POWER_OFF))
  | DESIRED_TEMP => Ok (Some NEW_SET_TEMP)
  | FAN_MODE =>
      Ok (if py_eqb value (VFan AUTO) then Some FAN_BOOST_OFF
          else if py_eqb value (VFan FAN_BOOST) then Some FLAME_EFFECT_OFF
          else if py_eqb value (VFan FLAME_EFFECT) then Some FAN_BOOST_OFF
          else None)
  | _ => Raise (TypeError_raise state)
  end.

(** Lines 477-488: the command of the second step of a fan change. *)
Definition second_command (value : DictValue) : CommandID :=
  if py_eqb value (VFan AUTO) then FLAME_EFFECT_OFF
  else if py_eqb value (VFan FAN_BOOST) then FAN_BOOST_ON
  else FLAME_EFFECT_ON.

(** Lines 304-313 and 325-330: the fan mode a STATUS reply shows. *)
Definition response_fan (r : FireplaceMessage) : Fan :=
  if fan_boost_is_on r then FAN_BOOST
  else if flame_effect r then FLAME_EFFECT
  else AUTO.

(** Lines 343-348: is some live entry missing from, or different in, the
    prior settings. *)
Definition changes_found (live prior : gmap DictEntries DictValue) : bool :=
  existsb
    (fun kv => match prior !! fst kv with
               | None => true
               | Some p => negb (py_eqb p (snd kv))
               end)
    (map_to_list live).

Section Methods.
Variable msg : MessageModule.
Variable w : World.

Definition _request_status : M t (option FireplaceMessage) :=
  let* found :=
    try_except
      (let* responses := datagram_send w STATUS_PLEASE None in
       match first_response responses with
       | Some this_response =>
           if bool_decide (response_id this_response
                           = expected_response msg STATUS_PLEASE)
           then let* now := time w in
                modify (set_last_response now) ;;;
                ret (Some this_response)
           else ret None
       | None => ret None
       end)
      is_ConnectionError
      (ret None) in
  match found with
  | Some r => ret (Some r)
  | None =>
      let* st := attr "_state" _state in
      (if bool_decide (st <> DISCONNECTED)
       then modify (set_state NON_RESPONSIVE) else ret tt) ;;;
      ret None
  end.

(** Lines 452-468, and again 490-505: send one command, tell whether the
    reply is the expected one, and note the time of a valid reply. *)
Definition send_checked (command : CommandID) (value : DictValue) : M t bool :=
  let* valid :=
    try_except
      (let* responses := datagram_send w command (Some value) in
       if valid_response msg command responses
       then let* _ := setting DEVICE_UID in
            emit (Log DEBUG) ;;;
            ret true
       else ret false)
      is_ConnectionError
      (ret false) in
  if valid : bool
  then let* now := time w in
       modify (set_last_response now) ;;;
       ret true
  else ret false.

(** [_set_system_state], with the call [self._refresh_system()] of line
    509 as a parameter. *)
Definition _set_system_state_with (refresh : M t unit)
    (state : DictEntries) (value : DictValue) (sync : bool) : M t unit :=
  let* same :=
    (if negb sync
     then let* cur := setting state in ret (py_eqb cur value)
     else ret false) in
  if same : bool then ret tt else
  let* _ := setting DEVICE_UID in
  let* _ := setting state in
  emit (Log DEBUG) ;;;
  store state value ;;;
  let* buffered :=
    (if negb sync
     then let* st := attr "_state" _state in ret (bool_decide (st <> READY))
     else ret false) in
  if buffered : bool then ret tt else
  let* command := of_result (first_command state value) in
  let* ok1 :=
    match command with
    | Some c => send_checked c value
    | None => ret true
    end in
  if negb ok1 then ret tt else
  let* ok2 :=
    (if bool_decide (state = FAN_MODE)
     then send_checked (second_command value) value
     else ret true) in
  if negb ok2 then ret tt else
  (if negb sync then refresh else ret tt) ;;;
  if bool_decide (state = FIRE_IS_ON)
  then modify (set_state BUSY) ;;;
       let* now := time w in
       modify (set_busy_end_time (now + ON_OFF_BUSY_WAIT_TIME)%Q)
  else ret tt.

(** Lines 355-361: no reply, or not a STATUS. *)
Definition no_status (prior_state : ControllerState) : M t unit :=
  let* now := time w in
  let* last := attr "_last_response" _last_response in
  if Qltb (now - last)%Q RETRY_TIMEOUT
  then modify (set_state NON_RESPONSIVE)
  else modify (set_state DISCONNECTED) ;;;
       if bool_decide (prior_state <> DISCONNECTED)
       then emit (Call_discovery Listener.controller_disconnected)
       else ret tt.

(** Lines 322-340: back in READY from another state, push the buffered
    settings to the fireplace.  [set_sync state value] is the call
    [self._set_system_state(state, value, sync=True)]. *)
Definition reconcile (set_sync : DictEntries -> DictValue -> M t unit)
    (prior_state : ControllerState) (response : FireplaceMessage) : M t unit :=
  let* cur_temp := setting DESIRED_TEMP in
  (if negb (py_eqb (VInt (desired_temp response)) cur_temp)
   then let* v := setting DESIRED_TEMP in set_sync DESIRED_TEMP v
   else ret tt) ;;;
  let* cur_fan := setting FAN_MODE in
  (if negb (py_eqb (VFan (response_fan response)) cur_fan)
   then let* v := setting FAN_MODE in set_sync FAN_MODE v
   else ret tt) ;;;
  let* cur_on := setting FIRE_IS_ON in
  (if negb (py_eqb (VBool (fire_is_on response)) cur_on)
   then let* v := setting FIRE_IS_ON in set_sync FIRE_IS_ON v
   else ret tt) ;;;
  if bool_decide (prior_state = DISCONNECTED)
  then emit (Call_discovery Listener.controller_reconnected)
  else ret tt.

(** Lines 342-353: tell discovery about a change, or after
    NOTIFY_REFRESH_INTERVAL without one. *)
Definition notify_update : M t unit :=
  let* c := get in
  let* due :=
    (if changes_found (_system_settings c) (_prior_settings c)
     then ret true
     else let* now := time w in
          let* last := attr "_last_update" _last_update in
          ret (Qltb NOTIFY_REFRESH_INTERVAL (now - last)%Q)) in
  if due : bool
  then let* now := time w in
       modify (set_last_update now) ;;;
       modify (fun c => set_prior_settings (_system_settings c) c) ;;;
       emit (Call_discovery Listener.controller_update)
  else ret tt.

(** [_refresh_system], with [self._set_system_state(.., sync=True)] as a
    parameter. *)
Definition _refresh_system_with (set_sync : DictEntries -> DictValue -> M t unit)
    (notify : bool) : M t unit :=
  let* st := attr "_state" _state in
  let* busy :=
    (if bool_decide (st = BUSY)
     then let* now := time w in
          let* busy_end := attr "_busy_end_time" _busy_end_time in
          ret (Qltb now busy_end)
     else ret false) in
  if busy : bool then ret tt else
  let prior_state := st in
  let* response := _request_status in
  match response with
  | Some r =>
      if bool_decide (response_id r = STATUS)
      then
        modify (set_state READY) ;;;
        store HAS_NEW_TIMERS (VBool (has_new_timers r)) ;;;
        store CURRENT_TEMP (VInt (current_temp r)) ;;;
        (if bool_decide (prior_state = READY)
         then store DESIRED_TEMP (VInt (desired_temp r)) ;;;
              store FAN_MODE (VFan (response_fan r)) ;;;
              store FIRE_IS_ON (VBool (fire_is_on r))
         else reconcile set_sync prior_state r) ;;;
        if notify then notify_update else ret tt
      else no_status prior_state
  | None => no_status prior_state
  end.

(** The two methods call each other, but a call with [sync=True] never
    reaches line 509, so the recursion is two calls deep at most. *)
Definition _set_system_state_sync (state : DictEntries) (value : DictValue)
  : M t unit :=
  _set_system_state_with (ret tt) state value true.

Definition _refresh_system (notify : bool) : M t unit :=
  _refresh_system_with _set_system_state_sync notify.

Definition _set_system_state (state : DictEntries) (value : DictValue)
    (sync : bool) : M t unit :=
  _set_system_state_with (_refresh_system true) state value sync.

Definition initialize : M t unit :=
  modify (set_state READY) ;;;
  modify (set_last_response 0%Q) ;;;
  modify (set_busy_end_time 0%Q) ;;;
  modify (set_last_update 0%Q) ;;;
  modify (set_closed false) ;;;
  _refresh_system false ;;;
  modify (set_initialised true) ;;;
  emit (Create_task poll_loop_task).

Definition close : M t unit :=
  modify (set_closed true).

(** One pass through the [while] of [_poll_loop]: [None] when the loop
    is left, else the time slept. *)
Definition _poll_loop_pass : M t (option Q) :=
  let* closed := attr "_closed" _closed in
  if closed : bool then ret None else
  let* refreshed :=
    try_except
      (_refresh_system true ;;; ret true)
      (fun _ => true)
      (emit (Log EXCEPTION) ;;; modify (set_closed true) ;;; ret false) in
  if negb refreshed then ret None else
  let* _ := setting DEVICE_UID in
  let* _ := setting IP_ADDRESS in
  let* st := attr "_state" _state in
  emit (Log DEBUG) ;;;
  let* sleep_time :=
    match st with
    | READY => ret REFRESH_INTERVAL
    | NON_RESPONSIVE => ret RETRY_INTERVAL
    | DISCONNECTED => ret DISCONNECTED_INTERVAL
    | BUSY =>
        let* busy_end := attr "_busy_end_time" _busy_end_time in
        let* now := time w in
        let left := (busy_end - now)%Q in
        ret (if Qltb left 0 then 0%Q else left)
    end in
  emit (Sleep sleep_time) ;;;
  ret (Some sleep_time).

(** [_poll_loop] for at most [fuel] passes: [true] when the loop ended. *)
Fixpoint _poll_loop (fuel : nat) : M t bool :=
  match fuel with
  | O => ret false
  | Datatypes.S n =>
      let* pass := _poll_loop_pass in
      match pass with
      | None => ret true
      | Some _ => _poll_loop n
      end
  end.

Definition refresh_address (address : DictValue) : M t unit :=
  let* cur := setting IP_ADDRESS in
  if py_eqb cur address then ret tt else
  emit (Set_ip address) ;;;
  store IP_ADDRESS address ;;;
  emit (Create_task signal_loop_task).

Definition _get_system_state (state : DictEntries) : M t DictValue :=
  setting state.

Definition set_on (value : bool) : M t unit :=
  _set_system_state FIRE_IS_ON (VBool value) false.

Definition set_fan (value : Fan) : M t unit :=
  _set_system_state FAN_MODE (VFan value) false.

Definition set_desired_temp (value : Q) : M t unit :=
  let degrees := py_round value in
  if (degrees <? MIN_SET_TEMP msg) || (degrees >? MAX_SET_TEMP msg)
  then emit (Log ERROR)
  else _set_system_state DESIRED_TEMP (VInt degrees) false.

(** The read-only properties. *)
Definition device_ip : M t DictValue := setting IP_ADDRESS.
Definition device_uid : M t DictValue := setting DEVICE_UID.
Definition state : M t ControllerState := attr "_state" _state.
Definition is_on : M t DictValue := _get_system_state FIRE_IS_ON.
Definition fan : M t DictValue := _get_system_state FAN_MODE.
Definition min_temp : Q := inject_Z (MIN_SET_TEMP msg).
Definition max_temp : Q := inject_Z (MAX_SET_TEMP msg).

Definition desired_temp : M t Q :=
  let* v := _get_system_state DESIRED_TEMP in of_result (py_float w v).

Definition current_temp : M t Q :=
  let* v := _get_system_state CURRENT_TEMP in of_result (py_float w v).
End Methods.

(** The names class Controller binds: its methods and properties, and the
    attributes its methods assign. *)
Definition names : list string :=
  [ "__init__"; "initialize"; "close"; "_poll_loop"; "device_ip"; "device_uid";
    "discovery"; "state"; "is_on"; "set_on"; "fan"; "set_fan"; "desired_temp";
    "set_desired_temp"; "current_temp"; "min_temp"; "max_temp";
    "_refresh_system"; "_request_status"; "refresh_address";
    "_get_system_state"; "_set_system_state"; "DictValue"; "ControllerData";
    "_discovery"; "_system_settings"; "_prior_settings"; "_datagram";
    "_loop_interrupt_condition"; "_initialised"; "_state"; "_last_response";
    "_busy_end_time"; "_last_update"; "_closed" ]%string.

End Controller.

(** ** discovery.py: class DiscoveryService *)

Module DiscoveryService.

Record t := {
  _controllers : gmap string Controller.t;
  _disconnected : list DictValue;      (* a set: no member twice *)
  _listeners : list Listener.t;
  _close_task : option Task;
  _broadcast_ip : string;
  _tasks : list Task
}.

(** [DiscoveryService(loop, ip_addr)] *)
Definition __init__ (ip_addr : string) : t :=
  {| _controllers := ∅; _disconnected := []; _listeners := [];
     _close_task := None; _broadcast_ip := ip_addr; _tasks := [] |}.

(** The names a DiscoveryService binds: the attributes [__init__] assigns
    and the methods of the class and of its bases. *)
Definition names : list string :=
  [ "_controllers"; "_disconnected"; "_listeners"; "_close_task"; "loop";
    "_broadcast_ip"; "_datagram"; "_scan_condition"; "_tasks";
    "__init__"; "__aenter__"; "__aexit__"; "_task_done_callback";
    "create_task"; "add_listener"; "remove_listener";
    "controller_discovered"; "controller_disconnected";
    "controller_reconnected"; "controller_update"; "controllers";
    "start_discovery"; "_scan_loop"; "_send_broadcast"; "rescan"; "_rescan";
    "close"; "error_received"; "_find_by_addr"; "_wrap_update";
    "_discovery_received"; "_create_controller"; "dump"; "is_closed" ]%string.

Definition set_controllers (m : gmap string Controller.t) (d : t) : t :=
  {| _controllers := m; _disconnected := _disconnected d;
     _listeners := _listeners d; _close_task := _close_task d;
     _broadcast_ip := _broadcast_ip d; _tasks := _tasks d |}.

Definition set_disconnected (s : list DictValue) (d : t) : t :=
  {| _controllers := _controllers d; _disconnected := s;
     _listeners := _listeners d; _close_task := _close_task d;
     _broadcast_ip := _broadcast_ip d; _tasks := _tasks d |}.

Definition set_listeners (ls : list Listener.t) (d : t) : t :=
  {| _controllers := _controllers d; _disconnected := _disconnected d;
     _listeners := ls; _close_task := _close_task d;
     _broadcast_ip := _broadcast_ip d; _tasks := _tasks d |}.

Definition set_tasks (ts : list Task) (d : t) : t :=
  {| _controllers := _controllers d; _disconnected := _disconnected d;
     _listeners := _listeners d; _close_task := _close_task d;
     _broadcast_ip := _broadcast_ip d; _tasks := ts |}.

Definition member (v : DictValue) (s : list DictValue) : bool :=
  existsb (py_eqb v) s.

(** [for x in xs: body(x)] *)
Fixpoint for_each {A} (xs : list A) (body : A -> M t unit) : M t unit :=
  match xs with
  | [] => ret tt
  | x :: rest => body x ;;; for_each rest body
  end.

(** [ctrl.device_uid], [ctrl.device_ip]: a property of the controller. *)
Definition ctrl_setting (ctrl : Controller.t) (key : DictEntries) : M t DictValue :=
  match Controller._system_settings ctrl !! key with
  | Some v => ret v
  | None => raise (KeyError key)
  end.

(** [for listener in self._listeners: with LogExceptions(..): listener.cb(ctrl)];
    what a listener raises is logged and dropped. *)
Definition call_listeners (cb : Listener.method) (ctrl : Controller.t) : M t unit :=
  let* d := get in
  for_each (_listeners d)
    (fun l => emit (Call_listener l cb (Controller._system_settings ctrl !! DEVICE_UID))).

(** [self.create_task(coro)] *)
Definition create_task (task : Task) : M t unit :=
  emit (Create_task task) ;;;
  modify (fun d => set_tasks (_tasks d ++ [task]) d).

Definition add_listener (listener : Listener.t) : M t unit :=
  modify (fun d => set_listeners (_listeners d ++ [listener]) d) ;;;
  emit (Create_task (replay_discovered_task listener)).

(** [ls.remove(x)]: the list without its first [x]; [None] when there is
    no [x], where Python raises ValueError. *)
Fixpoint list_remove (x : Listener.t) (ls : list Listener.t) : option (list Listener.t) :=
  match ls with
  | [] => None
  | y :: rest =>
      if bool_decide (y = x) then Some rest
      else match list_remove x rest with
           | Some rest' => Some (y :: rest')
           | None => None
           end
  end.

Definition remove_listener (listener : Listener.t) : M t unit :=
  let* d := get in
  match list_remove listener (_listeners d) with
  | Some ls => modify (set_listeners ls)
  | None => raise ValueError
  end.

Definition controller_discovered (ctrl : Controller.t) : M t unit :=
  let* _ := ctrl_setting ctrl DEVICE_UID in
  let* _ := ctrl_setting ctrl IP_ADDRESS in
  emit (Log INFO) ;;;
  call_listeners Listener.controller_discovered ctrl.

Definition controller_disconnected (ctrl : Controller.t) : M t unit :=
  let* _ := ctrl_setting ctrl DEVICE_UID in
  let* _ := ctrl_setting ctrl IP_ADDRESS in
  emit (Log WARNING) ;;;
  let* uid := ctrl_setting ctrl DEVICE_UID in
  modify (fun d => if member uid (_disconnected d) then d
                   else set_disconnected (_disconnected d ++ [uid]) d) ;;;
  emit (Create_task rescan_task) ;;;
  call_listeners Listener.controller_disconnected ctrl.

Definition controller_reconnected (ctrl : Controller.t) : M t unit :=
  let* _ := ctrl_setting ctrl DEVICE_UID in
  let* _ := ctrl_setting ctrl IP_ADDRESS in
  emit (Log WARNING) ;;;
  let* uid := ctrl_setting ctrl DEVICE_UID in
  let* d := get in
  (if member uid (_disconnected d)
   then modify (set_disconnected
                  (List.filter (fun v => negb (py_eqb uid v)) (_disconnected d)))
   else raise (KeyError_member uid)) ;;;
  call_listeners Listener.controller_reconnected ctrl.

Definition controller_update (ctrl : Controller.t) : M t unit :=
  call_listeners Listener.controller_update ctrl.

(** [device_ip, _ = addr] *)
Definition unpack_addr (addr : Addr) : result string :=
  match addr with
  | AddrPair ip _ => Ok ip
  | AddrStr (String a (String _ EmptyString)) => Ok (String a EmptyString)
  | AddrStr _ => Raise ValueError
  end.

Definition _create_controller (device_uid device_ip : string) : M t Controller.t :=
  of_result (Controller.__init__ names device_uid device_ip).

Section Methods.
Variable w : World.

(** What a call [controller.<name>(args)] does when class Controller
    binds [name].  No call in discovery.py names a method the class
    has, so the development never looks into it. *)
Variable bound_method :
  string -> list DictValue -> Controller.t -> M t Controller.t.

(** [controller.<name>(args)] *)
Definition call_method (name : string) (args : list DictValue)
    (controller : Controller.t) : M t Controller.t :=
  if has_attr Controller.names name
  then bound_method name args controller
  else raise (AttributeError name).

(** The coroutine [initialize_controller] that [_discovery_received]
    defines and hands to [create_task]. *)
Definition initialize_controller (controller : Controller.t)
    (device_uid device_ip : string) : M t unit :=
  let* initialised :=
    try_except
      (let* c := call_method "_initialize" [] controller in ret (Some c))
      is_ConnectionError
      (emit (Log WARNING) ;;; ret None) in
  match initialised with
  | None => ret tt
  | Some controller =>
      modify (fun d => set_controllers (<[device_uid := controller]> (_controllers d)) d) ;;;
      controller_discovered controller
  end.

Definition _discovery_received (data : FireplaceMessage) (addr : Addr) : M t unit :=
  let* device_ip := of_result (unpack_addr addr) in
  let device_uid := serial_number data in
  let* d := get in
  match _controllers d !! device_uid with
  | None =>
      let* controller := _create_controller device_uid device_ip in
      create_task (initialize_controller_task device_uid device_ip)
  | Some controller =>
      let* c := call_method "_refresh_address" [VStr device_ip] controller in
      modify (fun d => set_controllers (<[device_uid := c]> (_controllers d)) d)
  end.

Definition _send_broadcast : M t unit :=
  emit (Log DEBUG) ;;;
  try_except
    (let* responses := datagram_send w SEARCH_FOR_FIRES None in
     for_each responses (fun reply => _discovery_received (snd reply) (fst reply)))
    is_TimeoutError
    (raise ConnectionError).

Definition start_discovery : M t unit :=
  _send_broadcast.

(** One pass through the [while True] of [_scan_loop]: [true] when the
    loop returns. *)
Definition _scan_loop_pass : M t bool :=
  _send_broadcast ;;;
  let* d := get in
  emit (Sleep (match _disconnected d with
               | [] => DISCOVERY_SLEEP
               | _ :: _ => DISCOVERY_RESCAN
               end)) ;;;
  let* d := get in
  ret (match _close_task d with Some _ => true | None => false end).

(** [_scan_loop] for at most [fuel] passes: [true] when it returned. *)
Fixpoint _scan_loop (fuel : nat) : M t bool :=
  match fuel with
  | O => ret false
  | Datatypes.S n =>
      let* stop := _scan_loop_pass in
      if stop : bool then ret true else _scan_loop n
  end.

Definition _rescan : M t unit := ret tt.

(** [close]: [asyncio.wait] refuses an empty collection. *)
Definition close : M t unit :=
  emit (Log INFO) ;;;
  let* d := get in
  match _tasks d with
  | [] => raise ValueError
  | ts => emit (Wait_tasks ts)
  end.
End Methods.

End DiscoveryService.

(** The call [self._discovery.<cb>(self)] that a controller makes, as the
    discovery service runs it. *)
Definition deliver (ctrl : Controller.t) (cb : Listener.method)
  : M DiscoveryService.t unit :=
  match cb with
  | Listener.controller_discovered => DiscoveryService.controller_discovered ctrl
  | Listener.controller_disconnected => DiscoveryService.controller_disconnected ctrl
  | Listener.controller_reconnected => DiscoveryService.controller_reconnected ctrl
  | Listener.controller_update => DiscoveryService.controller_update ctrl
  end.

(** ** Reading the outcome of a call *)

Definition result_of {S A} (x : result A * (S * Cursor) * list effect) : result A :=
  fst (fst x).

Definition state_of {S A} (x : result A * (S * Cursor) * list effect) : S * Cursor :=
  snd (fst x).

Definition object_of {S A} (x : result A * (S * Cursor) * list effect) : S :=
  fst (snd (fst x)).

Definition output_of {S A} (x : result A * (S * Cursor) * list effect) : list effect :=
  snd x.

Definition sent (k : Cursor) : Cursor :=
  {| sends := Datatypes.S (sends k); reads := reads k |}.

Definition read (k : Cursor) : Cursor :=
  {| sends := sends k; reads := Datatypes.S (reads k) |}.

(** The n-th datagram call, made with [command], gets the expected reply. *)
Definition reply_valid (msg : MessageModule) (w : World) (n : nat)
    (command : CommandID) : bool :=
  match net w n command with
  | Responses l => valid_response msg command l
  | Fails _ => false
  end.

(** The n-th datagram call, a status request, ends with an exception that
    [_request_status] does not catch. *)
Definition reply_breaks (w : World) (n : nat) (command : CommandID) : option exn :=
  match net w n command with
  | Fails connection_error => None
  | Fails f => Some (exn_of_failure f)
  | Responses _ => None
  end.

(** The STATUS message the n-th datagram call, a status request, brings:
    the first reply, when it is the expected one and a STATUS. *)
Definition status_received (msg : MessageModule) (w : World) (n : nat)
    : option FireplaceMessage :=
  match net w n STATUS_PLEASE with
  | Responses l =>
      match first_response l with
      | Some m =>
          if bool_decide (response_id m = expected_response msg STATUS_PLEASE)
             && bool_decide (response_id m = STATUS)
          then Some m else None
      | None => None
      end
  | Fails _ => None
  end.

(** What a failed status request does to the state: lines 375-376. *)
Definition unanswered (st : ControllerState) (c : Controller.t) : Controller.t :=
  if bool_decide (st <> DISCONNECTED) then Controller.set_state NON_RESPONSIVE c else c.

(** The live settings once a STATUS has been copied in: lines 301-314. *)
Definition status_settings (r : FireplaceMessage) (m : gmap DictEntries DictValue)
  : gmap DictEntries DictValue :=
  <[FIRE_IS_ON := VBool (fire_is_on r)]>
    (<[FAN_MODE := VFan (Controller.response_fan r)]>
      (<[DESIRED_TEMP := VInt (desired_temp r)]>
        (<[CURRENT_TEMP := VInt (current_temp r)]>
          (<[HAS_NEW_TIMERS := VBool (has_new_timers r)]> m)))).

(** A computation that never ends in the exception of line 449. *)
Definition never_unknown {S A} (m : M S A) : Prop :=
  forall s state, result_of (m s) <> Raise (TypeError_raise state).

(** Two computations that do the same from every state. *)
Definition same {S A} (m m' : M S A) : Prop :=
  forall s, m s = m' s.

(** ** Connection and disconnection *)

(** The two callbacks that tell of the link to the fireplace. *)
Definition is_link (cb : Listener.method) : bool :=
  match cb with
  | Listener.controller_disconnected | Listener.controller_reconnected => true
  | _ => false
  end.

(** The calls of [controller_disconnected] and [controller_reconnected] in
    an output, in order. *)
Definition link_events (out : list effect) : list Listener.method :=
  List.filter is_link (callbacks out).

(** The settings that a STATUS taken in READY defines are all there. *)
Definition populated (c : Controller.t) : Prop :=
  is_Some (Controller._system_settings c !! DEVICE_UID)
  /\ is_Some (Controller._system_settings c !! IP_ADDRESS)
  /\ is_Some (Controller._system_settings c !! DESIRED_TEMP)
  /\ is_Some (Controller._system_settings c !! FAN_MODE)
  /\ is_Some (Controller._system_settings c !! FIRE_IS_ON).

(** The attributes that [initialize] assigns are all there. *)
Definition started (c : Controller.t) : Prop :=
  is_Some (Controller._state c) /\ is_Some (Controller._last_response c)
  /\ is_Some (Controller._busy_end_time c) /\ is_Some (Controller._last_update c)
  /\ is_Some (Controller._closed c).

(** The datagram layer fails with ConnectionError only. *)
Definition quiet_failures (w : World) : Prop :=
  forall n cmd f, net w n cmd = Fails f -> f = connection_error.

(** The clock does not go back. *)
Definition monotone (w : World) : Prop :=
  forall n m, (n <= m)%nat -> (clock w n <= clock w m)%Q.

(** A result that is a value, or inside a [try] the ConnectionError it
    catches. *)
Definition ends_well {A} (inside_try : bool) (r : result A) : Prop :=
  (exists a, r = Ok a) \/ (inside_try = true /\ r = Raise ConnectionError).

(** A computation that, on a populated and started controller, ends well,
    keeps the controller populated and started, calls exactly [events] of the
    two link callbacks, does not enter DISCONNECTED and does not turn the
    clock back. *)
Definition produces {A} (events : list Listener.method) (inside_try : bool)
    (m : M Controller.t A) : Prop :=
  forall c k, populated c -> started c ->
    ends_well inside_try (result_of (m (c, k)))
    /\ populated (object_of (m (c, k))) /\ started (object_of (m (c, k)))
    /\ link_events (output_of (m (c, k))) = events
    /\ (Controller._state (object_of (m (c, k))) = Some DISCONNECTED ->
        Controller._state c = Some DISCONNECTED)
    /\ (reads k <= reads (snd (state_of (m (c, k)))))%nat.

Abbreviation steady := (produces []).

(** The link callbacks a change of state asks for. *)
Definition is_disconnected (s : option ControllerState) : bool :=
  match s with Some DISCONNECTED => true | _ => false end.

Definition transition (prior new : option ControllerState) : list Listener.method :=
  match is_disconnected prior, is_disconnected new with
  | false, true => [Listener.controller_disconnected]
  | true, false => [Listener.controller_reconnected]
  | _, _ => []
  end.

(** In DISCONNECTED the last valid reply is RETRY_TIMEOUT or more behind
    every reading of the clock still to come. *)
Definition in_silence (w : World) (c : Controller.t) (k : Cursor) : Prop :=
  Controller._state c = Some DISCONNECTED ->
  exists last,
    Controller._last_response c = Some last
    /\ forall n, (reads k <= n)%nat -> (RETRY_TIMEOUT <= clock w n - last)%Q.

(** What one refresh does: it returns, and calls the link callback of the
    change of state it makes, if any. *)
Definition step_ok (w : World) (c : Controller.t) (k : Cursor)
    (run : result unit * (Controller.t * Cursor) * list effect) : Prop :=
  result_of run = Ok tt
  /\ populated (object_of run) /\ started (object_of run)
  /\ in_silence w (object_of run) (snd (state_of run))
  /\ link_events (output_of run)
     = transition (Controller._state c) (Controller._state (object_of run))
  /\ (reads k <= reads (snd (state_of run)))%nat.

(** The same for one pass of the poll loop. *)
Definition pass_ok (w : World) (c : Controller.t) (k : Cursor)
    (run : result (option Q) * (Controller.t * Cursor) * list effect) : Prop :=
  (exists slept, result_of run = Ok slept)
  /\ populated (object_of run) /\ started (object_of run)
  /\ in_silence w (object_of run) (snd (state_of run))
  /\ link_events (output_of run)
     = transition (Controller._state c) (Controller._state (object_of run)).

(** A list of link callbacks that alternates, from [expected] on. *)
Definition opposite (cb : Listener.method) : Listener.method :=
  match cb with
  | Listener.controller_disconnected => Listener.controller_reconnected
  | _ => Listener.controller_disconnected
  end.

Fixpoint alternate (expected : Listener.method) (events : list Listener.method) : Prop :=
  match events with
  | [] => True
  | e :: rest => e = expected /\ alternate (opposite expected) rest
  end.

Definition next_link (s : option ControllerState) : Listener.method :=
  if is_disconnected s then Listener.controller_reconnected
  else Listener.controller_disconnected.

(** ** What a call leaves as it was, and what it does to the outside *)

(** [m] takes a controller to one that [R] relates it to, however it ends. *)
Definition preserves {A} (R : relation Controller.t) (m : M Controller.t A) : Prop :=
  forall c k, R c (object_of (m (c, k))).

(** A relation that the bookkeeping of a controller respects: it is a
    preorder, and writing the state, one of the three times or the prior
    settings keeps a controller related to what it was. *)
Class Bookkeeping (R : relation Controller.t) : Prop := {
  bookkeeping_preorder :: PreOrder R;
  bookkeeping_state s c : R c (Controller.set_state s c);
  bookkeeping_last_response x c : R c (Controller.set_last_response x c);
  bookkeeping_busy_end_time x c : R c (Controller.set_busy_end_time x c);
  bookkeeping_last_update x c : R c (Controller.set_last_update x c);
  bookkeeping_prior m c : R c (Controller.set_prior_settings m c)
}.

(** A relation that writing a live setting other than the serial and the
    address respects. *)
Class Storable (R : relation Controller.t) : Prop :=
  storable key v c : key <> DEVICE_UID -> key <> IP_ADDRESS ->
    R c (Controller.set_system_settings (<[key := v]> (Controller._system_settings c)) c).

(** The serial and the address are the same, and no live setting is gone. *)
Definition same_identity (c c' : Controller.t) : Prop :=
  Controller._system_settings c' !! DEVICE_UID = Controller._system_settings c !! DEVICE_UID
  /\ Controller._system_settings c' !! IP_ADDRESS = Controller._system_settings c !! IP_ADDRESS
  /\ forall key, is_Some (Controller._system_settings c !! key) ->
                 is_Some (Controller._system_settings c' !! key).

(** The attributes of [initialize] are still there, and [_closed] and
    [_initialised] are as they were. *)
Definition same_lifecycle (c c' : Controller.t) : Prop :=
  (started c -> started c')
  /\ Controller._closed c' = Controller._closed c
  /\ Controller._initialised c' = Controller._initialised c.

Definition same_live (c c' : Controller.t) : Prop :=
  Controller._system_settings c' = Controller._system_settings c.

(** The live settings are the same but for the two that only the fireplace
    sets. *)
Definition same_user_settings (c c' : Controller.t) : Prop :=
  forall key, key <> HAS_NEW_TIMERS -> key <> CURRENT_TEMP ->
    Controller._system_settings c' !! key = Controller._system_settings c !! key.

(** Everything [m] does to the outside satisfies [P]. *)
Definition emits_only {S A} (P : effect -> Prop) (m : M S A) : Prop :=
  forall s, Forall P (output_of (m s)).

(** What a controller does to the outside between [initialize] and
    [close]: it sends commands, never the discovery probe, the status request
    without a payload and every other command with one; it calls discovery
    with anything but [controller_discovered]; it logs; it sleeps, never a
    negative time.  It starts no task, calls no listener itself and does not
    move the datagram layer to another address. *)
Definition controller_effect (e : effect) : Prop :=
  match e with
  | Send cmd payload =>
      cmd <> SEARCH_FOR_FIRES /\ (payload = None <-> cmd = STATUS_PLEASE)
  | Call_discovery cb => cb <> Listener.controller_discovered
  | Log _ => True
  | Sleep seconds => (0 <= seconds)%Q
  | Call_listener _ _ _ | Create_task _ | Set_ip _ | Wait_tasks _ => False
  end.

(** The datagram calls in an output, each with its payload. *)
Definition sent_with (out : list effect) : list (CommandID * option DictValue) :=
  omap (fun e => match e with Send c p => Some (c, p) | _ => None end) out.

(** A fireplace that gives every command but the status request the
    expected reply. *)
Definition acknowledging (msg : MessageModule) (w : World) : Prop :=
  forall n cmd, cmd <> STATUS_PLEASE -> reply_valid msg w n cmd = true.

(** ** The statements of the specification *)

(** The table of section 4.2 for a change of fan mode: step 1, step 2. *)
Definition fan_pair (target : Fan) : CommandID * CommandID :=
  match target with
  | AUTO => (FAN_BOOST_OFF, FLAME_EFFECT_OFF)
  | FAN_BOOST => (FLAME_EFFECT_OFF, FAN_BOOST_ON)
  | FLAME_EFFECT => (FAN_BOOST_OFF, FLAME_EFFECT_ON)
  end.

(** The settings the setters and the reconciliation are about. *)
Definition settable (state : DictEntries) : Prop :=
  state = FIRE_IS_ON \/ state = DESIRED_TEMP \/ state = FAN_MODE.

(** The live value under [key] equals [v], as Python compares. *)
Definition live_equals (c : Controller.t) (key : DictEntries) (v : DictValue) : Prop :=
  exists cur, Controller._system_settings c !! key = Some cur /\ py_eqb cur v = true.

(** "the rounded value lies outside [MIN_SET_TEMP, MAX_SET_TEMP]" *)
Definition out_of_range (msg : MessageModule) (degrees : Z) : bool :=
  (degrees <? MIN_SET_TEMP msg) || (degrees >? MAX_SET_TEMP msg).

(** The sentence of the spec on [set_desired_temp], read at the return of
    the setter: an input out of range changes nothing, any other input
    leaves the rounded value as the live desired temperature. *)
Definition desired_temp_sentence (msg : MessageModule) : Prop :=
  forall (w : World) (c : Controller.t) (k : Cursor) (value : Q),
    let degrees := py_round value in
    let run := Controller.set_desired_temp msg w value (c, k) in
    if out_of_range msg degrees
    then logged (output_of run) = [ERROR] /\ state_of run = (c, k)
         /\ wire (output_of run) = []
    else live_equals (object_of run) DESIRED_TEMP (VInt degrees)
         /\ MIN_SET_TEMP msg <= degrees <= MAX_SET_TEMP msg.


(** ** A fireplace for the examples *)

(** A table of expected responses and two bounds to run the examples
    with. *)
Definition example_message : MessageModule :=
  {| expected_response := fun c =>
       match c with
       | SEARCH_FOR_FIRES => I_AM_A_FIRE
       | STATUS_PLEASE => STATUS
       | c => ACK c
       end;
     MIN_SET_TEMP := 3;
     MAX_SET_TEMP := 31 |}.

(** The world that answers the datagram calls and the clock readings from
    two lists; past their ends nothing answers and the clock stands. *)
Definition scripted (replies : list send_outcome) (times : list Q) : World :=
  {| net := fun n _ => nth n replies (Responses []);
     clock := fun n => nth n times (List.last times 0%Q);
     float_of_str := fun _ => None |}.

Definition example_ip : string := "192.168.0.111".
Definition example_uid : string := "17".

Definition status_reply (on boost flame : bool) (want room : Z) : send_outcome :=
  Responses [(AddrStr example_ip,
              {| response_id := STATUS; serial_number := example_uid;
                 has_new_timers := false; fire_is_on := on;
                 fan_boost_is_on := boost; flame_effect := flame;
                 desired_temp := want; current_temp := room |})].

Definition ack (command : CommandID) : send_outcome :=
  Responses [(AddrStr example_ip,
              {| response_id := ACK command; serial_number := example_uid;
                 has_new_timers := false; fire_is_on := false;
                 fan_boost_is_on := false; flame_effect := false;
                 desired_temp := 0; current_temp := 0 |})].

Definition i_am_a_fire : FireplaceMessage :=
  {| response_id := I_AM_A_FIRE; serial_number := example_uid;
     has_new_timers := false; fire_is_on := false;
     fan_boost_is_on := false; flame_effect := false;
     desired_temp := 0; current_temp := 0 |}.

Definition start : Cursor := {| sends := 0; reads := 0 |}.

(** The controller [Controller(discovery, "17", "192.168.0.111")] makes of
    a discovery object that has a loop and a sending lock. *)
Definition new_controller : Controller.t :=
  {| Controller._system_settings :=
       <[DEVICE_UID := VStr example_uid]> (<[IP_ADDRESS := VStr example_ip]> ∅);
     Controller._prior_settings := ∅;
     Controller._initialised := false;
     Controller._state := None; Controller._last_response := None;
     Controller._busy_end_time := None; Controller._last_update := None;
     Controller._closed := None |}.

(** A controller in READY: [new_controller] after [initialize] got a STATUS
    (fire off, fan boost on, 20 degrees wanted, 18 in the room) at time 1000. *)
Definition ready_controller : Controller.t :=
  object_of (Controller.initialize example_message
               (scripted [status_reply false true false 20 18] [1000%Q])
               (new_controller, start)).

(** A fireplace that is silent when the controller is initialised and
    answers the next status request: fire on, fan in auto, 21 degrees wanted,
    19 in the room.  The clock shows 1000. *)
Definition silent_then_answering : World :=
  scripted [Responses []; status_reply true false false 21 19] [1000%Q].

(** A controller in its busy window: [ready_controller] after [set_on(True)]
    was acknowledged at time 1000; the window ends at 1066. *)
Definition busy_controller : Controller.t :=
  object_of (Controller.set_on example_message
               (scripted [ack POWER_ON; status_reply true true false 20 18] [1000%Q])
               true (ready_controller, start)).

(** A discovery service with two listeners and no controller yet. *)
Definition example_discovery : DiscoveryService.t :=
  {| DiscoveryService._controllers := ∅;
     DiscoveryService._disconnected := [];
     DiscoveryService._listeners := [1%nat; 2%nat];
     DiscoveryService._close_task := None;
     DiscoveryService._broadcast_ip := BROADCAST_IP_ADDR;
     DiscoveryService._tasks := [] |}.

(** The same service once fireplace 17 is in its map. *)
Definition known_discovery : DiscoveryService.t :=
  DiscoveryService.set_controllers (<[example_uid := ready_controller]> ∅)
    example_discovery.

(** A fireplace that acknowledges every command and answers every status
    request with [status]; the clock stands at [now]. *)
Definition obliging (status : send_outcome) (now : Q) : World :=
  {| net := fun _ cmd =>
       match cmd with
       | STATUS_PLEASE => status
       | SEARCH_FOR_FIRES => Responses [(AddrStr example_ip, i_am_a_fire)]
       | c => ack c
       end;
     clock := fun _ => now;
     float_of_str := fun _ => None |}.

(** Something for [bound_method] in the examples: a call that does nothing. *)
Definition no_method : string -> list DictValue -> Controller.t
    -> M DiscoveryService.t Controller.t :=
  fun _ _ c => ret c.

(** * Properties *)

(** ** Running the monad *)

Lemma Qltb_lt (a b : Q) : Qltb a b = true <-> (a < b)%Q.
Proof.
  unfold Qltb. rewrite negb_true_iff. split.
  - intros H. apply Qnot_le_lt. intros Hle. apply Qle_bool_iff in Hle. congruence.
  - intros H. destruct (Qle_bool b a) eqn:E; [|reflexivity].
    apply Qle_bool_iff in E. exfalso. exact (Qlt_not_le _ _ H E).
Qed.

Section Run.
Context {S : Type}.
Implicit Types s : S * Cursor.

Lemma run_bind {A B} (m : M S A) (f : A -> M S B) s :
  bind m f s =
  match m s with
  | (Ok a, s1, o1) => match f a s1 with (r, s2, o2) => (r, s2, o1 ++ o2) end
  | (Raise e, s1, o1) => (Raise e, s1, o1)
  end.
Proof. reflexivity. Qed.

Lemma run_try {A} (m : M S A) handles (h : M S A) s :
  try_except m handles h s =
  match m s with
  | (Ok a, s1, o1) => (Ok a, s1, o1)
  | (Raise e, s1, o1) =>
      if handles e
      then match h s1 with (r, s2, o2) => (r, s2, o1 ++ o2) end
      else (Raise e, s1, o1)
  end.
Proof. reflexivity. Qed.

Lemma run_ret {A} (a : A) s : ret a s = (Ok a, s, []).
Proof. reflexivity. Qed.

Lemma run_raise {A} e s : raise (A:=A) e s = (Raise e, s, []).
Proof. reflexivity. Qed.

Lemma run_emit e s : emit e s = (Ok tt, s, [e]).
Proof. reflexivity. Qed.

Lemma run_get (x : S) k : get (x, k) = (Ok x, (x, k), []).
Proof. reflexivity. Qed.

Lemma run_modify (f : S -> S) x k : modify f (x, k) = (Ok tt, (f x, k), []).
Proof. reflexivity. Qed.

Lemma run_of_result {A} (r : result A) s : of_result r s = (r, s, []).
Proof. reflexivity. Qed.

Lemma run_time w (x : S) k : time w (x, k) = (Ok (clock w (reads k)), (x, read k), []).
Proof. reflexivity. Qed.

Lemma run_send w cmd payload (x : S) k :
  datagram_send w cmd payload (x, k) =
  match net w (sends k) cmd with
  | Responses l => (Ok l, (x, sent k), [Send cmd payload])
  | Fails f => (Raise (exn_of_failure f), (x, sent k), [Send cmd payload])
  end.
Proof. reflexivity. Qed.

Lemma run_if {A} (b : bool) (m1 m2 : M S A) s :
  (if b then m1 else m2) s = if b then m1 s else m2 s.
Proof. by destruct b. Qed.
End Run.

Lemma run_attr {A} name (field : Controller.t -> option A) c k :
  Controller.attr name field (c, k) =
  match field c with
  | Some a => (Ok a, (c, k), [])
  | None => (Raise (AttributeError name), (c, k), [])
  end.
Proof. unfold Controller.attr. rewrite run_bind, run_get. by destruct (field c). Qed.

Lemma run_setting key c k :
  Controller.setting key (c, k) =
  match Controller._system_settings c !! key with
  | Some v => (Ok v, (c, k), [])
  | None => (Raise (KeyError key), (c, k), [])
  end.
Proof.
  unfold Controller.setting. rewrite run_bind, run_get.
  by destruct (Controller._system_settings c !! key).
Qed.

Lemma run_store key v c k :
  Controller.store key v (c, k) =
  (Ok tt, (Controller.set_system_settings (<[key := v]> (Controller._system_settings c)) c, k), []).
Proof. reflexivity. Qed.

Lemma wire_app a b : wire (a ++ b) = wire a ++ wire b.
Proof. apply omap_app. Qed.

Lemma callbacks_app a b : callbacks (a ++ b) = callbacks a ++ callbacks b.
Proof. apply omap_app. Qed.

Lemma tasks_created_app a b : tasks_created (a ++ b) = tasks_created a ++ tasks_created b.
Proof. apply omap_app. Qed.

Lemma logged_app a b : logged (a ++ b) = logged a ++ logged b.
Proof. apply omap_app. Qed.

Lemma listener_calls_app a b :
  listener_calls (a ++ b) = listener_calls a ++ listener_calls b.
Proof. apply omap_app. Qed.

Lemma wire_cons e o :
  wire (e :: o) = match e with Send c _ => c :: wire o | _ => wire o end.
Proof. by destruct e. Qed.

Lemma callbacks_cons e o :
  callbacks (e :: o)
  = match e with Call_discovery cb => cb :: callbacks o | _ => callbacks o end.
Proof. by destruct e. Qed.

Lemma logged_cons e o :
  logged (e :: o) = match e with Log lvl => lvl :: logged o | _ => logged o end.
Proof. by destruct e. Qed.

Lemma tasks_created_cons e o :
  tasks_created (e :: o)
  = match e with Create_task t => t :: tasks_created o | _ => tasks_created o end.
Proof. by destruct e. Qed.

Lemma listener_calls_cons e o :
  listener_calls (e :: o)
  = match e with
    | Call_listener l cb _ => (l, cb) :: listener_calls o
    | _ => listener_calls o
    end.
Proof. by destruct e. Qed.

(** Read the lists of commands, callbacks, log records and tasks off an
    output that is known up to its tail. *)
Ltac outs :=
  repeat (first [ rewrite wire_cons | rewrite wire_app | rewrite callbacks_cons
                | rewrite callbacks_app | rewrite logged_cons | rewrite logged_app
                | rewrite tasks_created_cons | rewrite tasks_created_app
                | rewrite listener_calls_cons | rewrite listener_calls_app ];
          cbn beta iota).

(** One step of symbolic execution: unfold the monad at the head of the
    goal, then use the equations in the context. *)
Ltac mstep :=
  first
    [ rewrite run_bind | rewrite run_try | rewrite run_ret | rewrite run_raise
    | rewrite run_emit | rewrite run_get | rewrite run_modify
    | rewrite run_of_result | rewrite run_time | rewrite run_send
    | rewrite run_attr | rewrite run_setting | rewrite run_store
    | rewrite run_if ].

Ltac use_context :=
  match goal with
  | H : ?x = Some _ |- context [match ?x with Some _ => _ | None => _ end] => rewrite H
  | H : ?x = None |- context [match ?x with Some _ => _ | None => _ end] => rewrite H
  | H : ?x = true |- context [if ?x then _ else _] => rewrite H
  | H : ?x = false |- context [if ?x then _ else _] => rewrite H
  | H : ?x = Responses _ |- context [match ?x with Responses _ => _ | Fails _ => _ end] => rewrite H
  | H : ?x = Fails _ |- context [match ?x with Responses _ => _ | Fails _ => _ end] => rewrite H
  | |- context [bool_decide (?a = ?a)] => rewrite (bool_decide_eq_true_2 (a = a)) by reflexivity
  | |- context [bool_decide (?a = ?b)] => rewrite (bool_decide_eq_false_2 (a = b)) by discriminate
  | |- context [bool_decide (?a <> ?a)] => rewrite (bool_decide_eq_false_2 (a <> a)) by (intros ?; congruence)
  | |- context [bool_decide (?a <> ?b)] => rewrite (bool_decide_eq_true_2 (a <> b)) by discriminate
  end.

(** Projections of a record that was just updated. *)
Ltac fields :=
  cbn [Controller._system_settings Controller._prior_settings
       Controller._initialised Controller._state Controller._last_response
       Controller._busy_end_time Controller._last_update Controller._closed
       Controller.set_system_settings Controller.set_prior_settings
       Controller.set_initialised Controller.set_state
       Controller.set_last_response Controller.set_busy_end_time
       Controller.set_last_update Controller.set_closed
       output_of object_of state_of result_of fst snd app negb andb orb] in *.

Ltac mrun := repeat (first [ mstep | use_context ]; fields).

(** ** The busy window *)

(** C4. While the state is BUSY and the clock reads a time before
    [_busy_end_time], [_refresh_system] returns at once: it hands nothing to
    the datagram layer, it calls nothing and logs nothing, and it leaves the
    controller, state and live settings included, as it was; only the clock
    has been read. *)
Theorem refresh_in_busy_window_does_nothing
    (msg : MessageModule) (w : World) (c : Controller.t) (k : Cursor)
    (notify : bool) (busy_end : Q) :
  Controller._state c = Some BUSY ->
  Controller._busy_end_time c = Some busy_end ->
  (clock w (reads k) < busy_end)%Q ->
  Controller._refresh_system msg w notify (c, k) = (Ok tt, (c, read k), []).
Proof.
  intros Hs Hb Hlt. apply Qltb_lt in Hlt.
  unfold Controller._refresh_system, Controller._refresh_system_with.
  destruct c; fields. mrun. reflexivity.
Qed.

(** ** The two exchanges with the fireplace *)

Lemma run_request_status msg w c k st :
  Controller._state c = Some st ->
  Controller._request_status msg w (c, k) =
  match net w (sends k) STATUS_PLEASE with
  | Responses l =>
      if valid_response msg STATUS_PLEASE l
      then (Ok (first_response l),
            (Controller.set_last_response (clock w (reads k)) c, read (sent k)),
            [Send STATUS_PLEASE None])
      else (Ok None, (unanswered st c, sent k), [Send STATUS_PLEASE None])
  | Fails connection_error =>
      (Ok None, (unanswered st c, sent k), [Send STATUS_PLEASE None])
  | Fails f => (Raise (exn_of_failure f), (c, sent k), [Send STATUS_PLEASE None])
  end.
Proof.
  intros Hs. unfold Controller._request_status, valid_response, unanswered.
  destruct c; fields.
  mrun. destruct (net w (sends k) STATUS_PLEASE) as [l|f]; cbn beta iota zeta.
  - destruct (first_response l) as [m|]; mrun.
    + case_bool_decide; mrun; [reflexivity|].
      case_bool_decide; mrun; reflexivity.
    + case_bool_decide; mrun; reflexivity.
  - destruct f; cbn; mrun; try reflexivity.
    case_bool_decide; mrun; reflexivity.
Qed.

Lemma run_send_checked msg w cmd v c k uid :
  Controller._system_settings c !! DEVICE_UID = Some uid ->
  Controller.send_checked msg w cmd v (c, k) =
  match net w (sends k) cmd with
  | Responses l =>
      if valid_response msg cmd l
      then (Ok true,
            (Controller.set_last_response (clock w (reads k)) c, read (sent k)),
            [Send cmd (Some v); Log DEBUG])
      else (Ok false, (c, sent k), [Send cmd (Some v)])
  | Fails connection_error => (Ok false, (c, sent k), [Send cmd (Some v)])
  | Fails f => (Raise (exn_of_failure f), (c, sent k), [Send cmd (Some v)])
  end.
Proof.
  intros Hu. unfold Controller.send_checked.
  destruct c; fields.
  mrun. destruct (net w (sends k) cmd) as [l|f]; cbn beta iota zeta.
  - destruct (valid_response msg cmd l); mrun; reflexivity.
  - destruct f; cbn; mrun; reflexivity.
Qed.

(** ** A refresh in READY *)

Lemma notify_update_keeps w c k :
  wire (output_of (Controller.notify_update w (c, k))) = []
  /\ Controller._system_settings (object_of (Controller.notify_update w (c, k)))
     = Controller._system_settings c
  /\ Controller._state (object_of (Controller.notify_update w (c, k)))
     = Controller._state c.
Proof.
  unfold Controller.notify_update. destruct c; fields. mrun.
  destruct (Controller.changes_found _ _); mrun; [done|].
  destruct _last_update; mrun; [|done].
  destruct (Qltb _ _); mrun; done.
Qed.

Lemma no_status_keeps w prior c k :
  wire (output_of (Controller.no_status w prior (c, k))) = []
  /\ Controller._system_settings (object_of (Controller.no_status w prior (c, k)))
     = Controller._system_settings c.
Proof.
  unfold Controller.no_status. destruct c; fields. mrun.
  destruct _last_response; mrun; [|done].
  destruct (Qltb _ _); mrun; [done|].
  case_bool_decide; mrun; done.
Qed.

Lemma refresh_ready msg w notify c k :
  Controller._state c = Some READY ->
  wire (output_of (Controller._refresh_system msg w notify (c, k))) = [STATUS_PLEASE]
  /\ Controller._system_settings (object_of (Controller._refresh_system msg w notify (c, k)))
     = match status_received msg w (sends k) with
       | Some r => status_settings r (Controller._system_settings c)
       | None => Controller._system_settings c
       end.
Proof.
  intros Hs.
  unfold Controller._refresh_system, Controller._refresh_system_with, status_received.
  mrun. rewrite (run_request_status _ _ _ _ _ Hs).
  destruct (net w (sends k) STATUS_PLEASE) as [l|f]; fields.
  - unfold valid_response. destruct (first_response l) as [m|]; fields.
    + case_bool_decide; fields.
      * case_bool_decide; cbn [andb]; mrun.
        -- destruct notify.
           ++ match goal with |- context [Controller.notify_update w (?c, ?k)] =>
                 pose proof (notify_update_keeps w c k) as (Hw & Hl & _);
                 destruct (Controller.notify_update w (c, k)) as [[r s] o] end.
              fields. outs. rewrite Hw. destruct s. fields. rewrite Hl. done.
           ++ mrun. done.
        -- match goal with |- context [Controller.no_status w ?p (?c, ?k)] =>
                 pose proof (no_status_keeps w p c k) as (Hw & Hl);
                 destruct (Controller.no_status w p (c, k)) as [[r s] o] end.
           fields. outs. rewrite Hw. destruct s. fields. rewrite Hl. done.
      * cbn [andb]. 
        match goal with |- context [Controller.no_status w ?p (?c, ?k)] =>
                 pose proof (no_status_keeps w p c k) as (Hw & Hl);
                 destruct (Controller.no_status w p (c, k)) as [[r s] o] end.
        fields. outs. rewrite Hw. destruct s. fields. rewrite Hl.
        unfold unanswered. case_bool_decide; done.
    + match goal with |- context [Controller.no_status w ?p (?c, ?k)] =>
                 pose proof (no_status_keeps w p c k) as (Hw & Hl);
                 destruct (Controller.no_status w p (c, k)) as [[r s] o] end.
        fields. outs. rewrite Hw. destruct s. fields. rewrite Hl.
        unfold unanswered. case_bool_decide; done.
  - destruct f; fields; try done.
    match goal with |- context [Controller.no_status w ?p (?c, ?k)] =>
                 pose proof (no_status_keeps w p c k) as (Hw & Hl);
                 destruct (Controller.no_status w p (c, k)) as [[r s] o] end.
        fields. outs. rewrite Hw. destruct s. fields. rewrite Hl.
        unfold unanswered. case_bool_decide; done.
Qed.

(** ** Changing the fan mode *)

Lemma first_command_fan target :
  Controller.first_command FAN_MODE (VFan target) = Ok (Some (fst (fan_pair target))).
Proof. by destruct target. Qed.

Lemma second_command_fan target :
  Controller.second_command (VFan target) = snd (fan_pair target).
Proof. by destruct target. Qed.

(** C5. A change of fan mode that reaches the wire sends the first command
    of the pair of its target; when that gets the expected reply it sends
    the second command of the pair, whatever the first did at the device,
    and nothing else but the status request of the refresh that follows an
    unforced change; when the first command gets no valid reply the second
    is not sent, and the setter ends there: the new mode is in the live
    settings, nothing was called and no task started, and the setter returns
    normally, unless the datagram layer failed with something other than
    ConnectionError, which the setter lets through. *)
Theorem fan_change_sends_its_pair msg w c k target sync :
  let run := Controller._set_system_state msg w FAN_MODE (VFan target) sync (c, k) in
  let step1 := fst (fan_pair target) in
  let step2 := snd (fan_pair target) in
  wire (output_of run) <> [] ->
  wire (output_of run) =
    step1 :: (if reply_valid msg w (sends k) step1
              then step2 :: (if reply_valid msg w (Datatypes.S (sends k)) step2 && negb sync
                             then [STATUS_PLEASE] else [])
              else [])
  /\ (reply_valid msg w (sends k) step1 = false ->
      state_of run =
        (Controller.set_system_settings
           (<[FAN_MODE := VFan target]> (Controller._system_settings c)) c, sent k)
      /\ callbacks (output_of run) = []
      /\ tasks_created (output_of run) = []
      /\ result_of run
         = match reply_breaks w (sends k) step1 with
           | None => Ok tt
           | Some e => Raise e
           end).
Proof.
  cbv zeta. unfold Controller._set_system_state, Controller._set_system_state_with.
  rewrite first_command_fan, second_command_fan.
  set (step1 := fst (fan_pair target)). set (step2 := snd (fan_pair target)).
  destruct c as [live prior ini st lr be lu cl]. fields.
  destruct sync; cbn [negb]; mrun.
  - destruct (live !! DEVICE_UID) as [uid|] eqn:Hu; mrun; [|done].
    destruct (live !! FAN_MODE) as [cur|] eqn:Hf; mrun; [|done].
    rewrite (run_send_checked msg w step1 (VFan target) _ k uid)
      by (fields; rewrite lookup_insert_ne by done; exact Hu).
    unfold reply_valid, reply_breaks.
    destruct (net w (sends k) step1) as [l1|f1]; fields.
    + destruct (valid_response msg step1 l1); fields; mrun.
      * rewrite (run_send_checked msg w step2 (VFan target) _ _ uid)
          by (fields; rewrite lookup_insert_ne by done; exact Hu).
        cbn [sent read sends reads].
        destruct (net w (Datatypes.S (sends k)) step2) as [l2|f2]; fields.
        -- destruct (valid_response msg step2 l2); fields; mrun; outs; done.
        -- destruct f2; fields; mrun; outs; done.
      * outs. done.
    + destruct f1; fields; mrun; outs; done.
  - destruct (live !! FAN_MODE) as [cur|] eqn:Hf; mrun; [|done].
    destruct (py_eqb cur (VFan target)); mrun; [done|].
    destruct (live !! DEVICE_UID) as [uid|] eqn:Hu; mrun; [|done].
    destruct st as [st|]; mrun; [|done].
    case_bool_decide as Hst; mrun; [done|].
    assert (st = READY) as -> by (destruct st; congruence). clear Hst.
    rewrite (run_send_checked msg w step1 (VFan target) _ k uid)
      by (fields; rewrite lookup_insert_ne by done; exact Hu).
    unfold reply_valid, reply_breaks.
    destruct (net w (sends k) step1) as [l1|f1]; fields.
    + destruct (valid_response msg step1 l1); fields; mrun.
      * rewrite (run_send_checked msg w step2 (VFan target) _ _ uid)
          by (fields; rewrite lookup_insert_ne by done; exact Hu).
        cbn [sent read sends reads].
        destruct (net w (Datatypes.S (sends k)) step2) as [l2|f2]; fields.
        -- destruct (valid_response msg step2 l2); fields; mrun; outs; [|done].
           match goal with |- context [Controller._refresh_system msg w true (?c, ?k)] =>
             destruct (refresh_ready msg w true c k eq_refl) as [Hw _];
             destruct (Controller._refresh_system msg w true (c, k)) as [[r [c' k']] o]
           end.
           fields. destruct r; fields; mrun; outs; rewrite Hw; done.
        -- destruct f2; fields; mrun; outs; done.
      * outs. done.
    + destruct f1; fields; mrun; outs; done.
Qed.

(** ** Setters *)

Lemma uid_after_store (live : gmap DictEntries DictValue) state value uid :
  live !! DEVICE_UID = Some uid ->
  exists uid', <[state := value]> live !! DEVICE_UID = Some uid'.
Proof.
  intros Hu. destruct (decide (state = DEVICE_UID)) as [->|Hne].
  - exists value. by rewrite lookup_insert_eq.
  - exists uid. by rewrite lookup_insert_ne.
Qed.

(** After the refresh of line 509: the live settings are the ones before
    it, or those with a STATUS copied in. *)
Ltac after_refresh msg w :=
  match goal with |- context [Controller._refresh_system msg w true (?c, ?k)] =>
    let Hl := fresh "Hl" in
    destruct (refresh_ready msg w true c k eq_refl) as [_ Hl];
    destruct (Controller._refresh_system msg w true (c, k)) as [[[] [[] ?]] ?];
    fields; repeat (case_bool_decide; mrun); rewrite Hl;
    (destruct (status_received msg w _) eqn:?; [right; eauto | by left])
  end.

(** What an unforced change leaves in the live settings. *)
Lemma unforced_change_live msg w c k state value cached uid :
  Controller._system_settings c !! state = Some cached ->
  Controller._system_settings c !! DEVICE_UID = Some uid ->
  let run := Controller._set_system_state msg w state value false (c, k) in
  let new := <[state := value]> (Controller._system_settings c) in
  (py_eqb cached value = true /\ run = (Ok tt, (c, k), []))
  \/ (py_eqb cached value = false
      /\ (Controller._system_settings (object_of run) = new
          \/ exists n r, status_received msg w n = Some r
               /\ Controller._system_settings (object_of run) = status_settings r new)).
Proof.
  intros Hc Hu. cbv zeta.
  unfold Controller._set_system_state, Controller._set_system_state_with.
  destruct c as [live prior ini st lr be lu cl]. fields.
  destruct (uid_after_store live state value uid Hu) as [uid' Hu'].
  mrun. destruct (py_eqb cached value) eqn:Heq; mrun; [by left|].
  right. split; [done|].
  destruct st as [st|]; mrun; [|by left].
  case_bool_decide as Hst; mrun; [by left|].
  assert (st = READY) as -> by (destruct st; congruence). clear Hst.
  destruct (Controller.first_command state value) as [[cmd|]|e]; mrun; [| |by left].
  - rewrite (run_send_checked msg w cmd value _ k uid') by exact Hu'.
    destruct (net w (sends k) cmd) as [l1|f1]; fields.
    + destruct (valid_response msg cmd l1); fields; mrun; [|by left].
      case_bool_decide as Hfan; mrun.
      * rewrite (run_send_checked msg w _ value _ _ uid') by exact Hu'.
        cbn [sent read sends reads].
        destruct (net w (Datatypes.S (sends k)) _) as [l2|f2]; fields.
        -- destruct (valid_response msg _ l2); fields; mrun; [|by left].
           after_refresh msg w.
        -- destruct f2; fields; mrun; by left.
      * after_refresh msg w.
    + destruct f1; fields; mrun; by left.
  - case_bool_decide as Hfan; mrun.
    + rewrite (run_send_checked msg w _ value _ _ uid') by exact Hu'.
      destruct (net w (sends k) _) as [l2|f2]; fields.
      * destruct (valid_response msg _ l2); fields; mrun; [|by left].
        after_refresh msg w.
      * destruct f2; fields; mrun; by left.
    + after_refresh msg w.
Qed.

Lemma py_round_nearest (x : Q) : (Qabs (x - inject_Z (py_round x)) <= 1 # 2)%Q.
Proof.
  unfold py_round.
  pose proof (Qfloor_le x) as Hlo. pose proof (Qlt_floor x) as Hhi.
  rewrite inject_Z_plus in Hhi. change (inject_Z 1) with 1%Q in Hhi.
  apply Qabs_Qle_condition.
  destruct (Qcompare_spec (x - inject_Z (Qfloor x)) (1 # 2)) as [He|Hl|Hg].
  - destruct (Z.even (Qfloor x));
      [|rewrite inject_Z_plus; change (inject_Z 1) with 1%Q]; split; lra.
  - split; lra.
  - rewrite inject_Z_plus. change (inject_Z 1) with 1%Q. split; lra.
Qed.

(** A tie goes to the even neighbour. *)
Lemma py_round_tie_is_even (x : Q) :
  (Qabs (x - inject_Z (py_round x)) == 1 # 2)%Q -> Z.even (py_round x) = true.
Proof.
  unfold py_round.
  pose proof (Qfloor_le x) as Hlo. pose proof (Qlt_floor x) as Hhi.
  rewrite inject_Z_plus in Hhi. change (inject_Z 1) with 1%Q in Hhi.
  destruct (Qcompare_spec (x - inject_Z (Qfloor x)) (1 # 2)) as [He|Hl|Hg].
  - intros _. destruct (Z.even (Qfloor x)) eqn:E; [exact E|].
    rewrite Z.even_add, E. reflexivity.
  - intros H. rewrite Qabs_pos in H by lra. lra.
  - intros H. rewrite inject_Z_plus in H. change (inject_Z 1) with 1%Q in H.
    rewrite Qabs_neg in H by lra. lra.
Qed.

Lemma py_eqb_int_refl (z : Z) : py_eqb (VInt z) (VInt z) = true.
Proof. unfold py_eqb. cbn. apply Qeq_bool_iff. reflexivity. Qed.

Lemma py_eqb_fan_refl (f : Fan) : py_eqb (VFan f) (VFan f) = true.
Proof. by destruct f. Qed.

Lemma status_settings_desired_temp r m :
  status_settings r m !! DESIRED_TEMP = Some (VInt (desired_temp r)).
Proof.
  unfold status_settings.
  rewrite lookup_insert_ne by done. rewrite lookup_insert_ne by done.
  apply lookup_insert_eq.
Qed.


(** The live desired temperature after an unforced change. *)
Lemma desired_temp_after_change msg w c k degrees cached uid :
  Controller._system_settings c !! DESIRED_TEMP = Some cached ->
  py_eqb cached (VInt degrees) = false ->
  Controller._system_settings c !! DEVICE_UID = Some uid ->
  Controller._system_settings
    (object_of (Controller._set_system_state msg w DESIRED_TEMP (VInt degrees) false
                  (c, k))) !! DESIRED_TEMP
  = Some (VInt
            (if bool_decide (Controller._state c = Some READY)
                && reply_valid msg w (sends k) NEW_SET_TEMP
             then match status_received msg w (Datatypes.S (sends k)) with
                  | Some r => desired_temp r
                  | None => degrees
                  end
             else degrees)).
Proof.
  intros Hc Hne Hu.
  unfold Controller._set_system_state, Controller._set_system_state_with, reply_valid.
  cbn [Controller.first_command].
  destruct c as [live prior ini st lr be lu cl]. fields. mrun.
  destruct st as [st|]; mrun; [|apply lookup_insert_eq].
  destruct (decide (st = READY)) as [->|Hst].
  2: { rewrite (bool_decide_eq_true_2 (st <> READY)) by exact Hst.
       rewrite (bool_decide_eq_false_2 (Some st = Some READY)) by congruence.
       mrun. apply lookup_insert_eq. }
  mrun.
  rewrite (run_send_checked msg w NEW_SET_TEMP (VInt degrees) _ k uid)
    by (fields; rewrite lookup_insert_ne by done; exact Hu).
  destruct (net w (sends k) NEW_SET_TEMP) as [l1|f1]; fields.
  - destruct (valid_response msg NEW_SET_TEMP l1); fields; mrun;
      [|apply lookup_insert_eq].
    match goal with |- context [Controller._refresh_system msg w true (?c1, ?k1)] =>
      destruct (refresh_ready msg w true c1 k1 eq_refl) as [_ Hl];
      destruct (Controller._refresh_system msg w true (c1, k1)) as [[[] [[] ?]] ?]
    end.
    + fields. mrun. fields. rewrite Hl. cbn [sent read sends].
      destruct (status_received msg w (Datatypes.S (sends k))) as [r|];
        [apply status_settings_desired_temp | apply lookup_insert_eq].
    + fields. rewrite Hl. cbn [sent read sends].
      destruct (status_received msg w (Datatypes.S (sends k))) as [r|];
        [apply status_settings_desired_temp | apply lookup_insert_eq].
  - destruct f1; fields; mrun; apply lookup_insert_eq.
Qed.

(** C7, as the code has it.  [set_desired_temp] rounds its input to the
    nearest integer, a tie going to the even one.  A rounded value outside
    [MIN_SET_TEMP, MAX_SET_TEMP] is logged as an error and the setter
    returns: controller unchanged, nothing on the wire, nothing called.  Any
    other rounded value lies within the bounds and goes to
    [_set_system_state].  Without a live desired temperature that raises
    KeyError.  With one (and the serial), a value equal to it changes
    nothing; any other value is the live desired temperature at the return,
    except when the controller is READY, NEW_SET_TEMP gets the expected reply
    and the status request that follows it brings a STATUS: then the live
    desired temperature is the one of that STATUS. *)
Theorem set_desired_temp_rounds_and_checks
    (msg : MessageModule) (w : World) (c : Controller.t) (k : Cursor) (value : Q) :
  let degrees := py_round value in
  let run := Controller.set_desired_temp msg w value (c, k) in
  (Qabs (value - inject_Z degrees) <= 1 # 2)%Q
  /\ ((Qabs (value - inject_Z degrees) == 1 # 2)%Q -> Z.even degrees = true)
  /\ (out_of_range msg degrees = true -> run = (Ok tt, (c, k), [Log ERROR]))
  /\ (out_of_range msg degrees = false ->
      MIN_SET_TEMP msg <= degrees <= MAX_SET_TEMP msg
      /\ run = Controller._set_system_state msg w DESIRED_TEMP (VInt degrees) false (c, k)
      /\ (Controller._system_settings c !! DESIRED_TEMP = None ->
          run = (Raise (KeyError DESIRED_TEMP), (c, k), []))
      /\ forall cached uid,
           Controller._system_settings c !! DESIRED_TEMP = Some cached ->
           Controller._system_settings c !! DEVICE_UID = Some uid ->
           if py_eqb cached (VInt degrees)
           then run = (Ok tt, (c, k), [])
           else Controller._system_settings (object_of run) !! DESIRED_TEMP
                = Some (VInt
                          (if bool_decide (Controller._state c = Some READY)
                              && reply_valid msg w (sends k) NEW_SET_TEMP
                           then match status_received msg w (Datatypes.S (sends k)) with
                                | Some r => desired_temp r
                                | None => degrees
                                end
                           else degrees))).
Proof.
  cbv zeta. split; [apply py_round_nearest|]. split; [apply py_round_tie_is_even|].
  unfold Controller.set_desired_temp, out_of_range.
  split; intros Hr; rewrite Hr; [reflexivity|].
  apply orb_false_iff in Hr as [Hlo Hhi].
  split; [lia|]. split; [reflexivity|].
  split.
  { intros Hnone.
    unfold Controller._set_system_state, Controller._set_system_state_with.
    destruct c. fields. mrun. reflexivity. }
  intros cached uid Hc Hu.
  destruct (py_eqb cached (VInt (py_round value))) eqn:Heq.
  - unfold Controller._set_system_state, Controller._set_system_state_with.
    destruct c. fields. mrun. reflexivity.
  - by apply (desired_temp_after_change msg w c k _ cached uid).
Qed.

(** A fireplace that takes the new temperature and then reports the old one:
    the live desired temperature is the reported 20, not the 22 asked for. *)
Lemma desired_temp_sentence_fails : ~ desired_temp_sentence example_message.
Proof.
  intros H.
  specialize (H (scripted [ack NEW_SET_TEMP; status_reply false true false 20 18]
                          [1000%Q])
                ready_controller start 22%Q).
  vm_compute in H. destruct H as [(cur & Hcur & Heq) _].
  injection Hcur as <-. discriminate.
Qed.

(** [set_desired_temp(40)], out of range; and [set_desired_temp(22.4)] in
    READY, acknowledged, the STATUS after it showing 22 degrees. *)
Lemma set_desired_temp_witness :
  Controller.set_desired_temp example_message (scripted [] [1000%Q]) 40%Q
    (ready_controller, start)
  = (Ok tt, (ready_controller, start), [Log ERROR])
  /\ Controller._system_settings
       (object_of
          (Controller.set_desired_temp example_message
             (scripted [ack NEW_SET_TEMP; status_reply false true false 22 18] [1000%Q])
             (224 # 10) (ready_controller, start))) !! DESIRED_TEMP
     = Some (VInt 22).
Proof.
  pose proof (set_desired_temp_rounds_and_checks example_message
                (scripted [] [1000%Q]) ready_controller start 40%Q) as (_ & _ & Hout & _).
  pose proof (set_desired_temp_rounds_and_checks example_message
                (scripted [ack NEW_SET_TEMP; status_reply false true false 22 18]
                   [1000%Q])
                ready_controller start (224 # 10)%Q)
    as (_ & _ & _ & Hin).
  split.
  - apply Hout. reflexivity.
  - destruct (Hin eq_refl) as (_ & _ & _ & H).
    exact (H (VInt 20) (VStr example_uid) eq_refl eq_refl).
Defined.





(** ** The settings [_set_system_state] is called with *)

Section NeverUnknown.
Context {S : Type}.

Lemma never_unknown_ret {A} (a : A) : never_unknown (S:=S) (ret a).
Proof. intros s state. discriminate. Qed.

Lemma never_unknown_emit e : never_unknown (S:=S) (emit e).
Proof. intros s state. discriminate. Qed.

Lemma never_unknown_get : never_unknown (S:=S) get.
Proof. intros s state. discriminate. Qed.

Lemma never_unknown_modify f : never_unknown (S:=S) (modify f).
Proof. intros s state. discriminate. Qed.

Lemma never_unknown_time w : never_unknown (S:=S) (time w).
Proof. intros s state. discriminate. Qed.

Lemma never_unknown_send w cmd payload : never_unknown (S:=S) (datagram_send w cmd payload).
Proof.
  intros s state. unfold datagram_send.
  destruct (net w _ _) as [l|[]]; discriminate.
Qed.

Lemma never_unknown_bind {A B} (m : M S A) (f : A -> M S B) :
  never_unknown m -> (forall a, never_unknown (f a)) -> never_unknown (bind m f).
Proof.
  intros Hm Hf s state. rewrite run_bind.
  specialize (Hm s state). destruct (m s) as [[[a|e] s1] o1]; cbn in *.
  - specialize (Hf a s1 state). by destruct (f a s1) as [[r s2] o2].
  - intros [= ->]. by apply Hm.
Qed.

Lemma never_unknown_try {A} (m : M S A) handles (h : M S A) :
  never_unknown m -> never_unknown h -> never_unknown (try_except m handles h).
Proof.
  intros Hm Hh s state. rewrite run_try.
  specialize (Hm s state). destruct (m s) as [[[a|e] s1] o1]; cbn in *.
  - discriminate.
  - destruct (handles e); [|exact Hm].
    specialize (Hh s1 state). by destruct (h s1) as [[r s2] o2].
Qed.

Lemma never_unknown_raise {A} e :
  (forall state, e <> TypeError_raise state) -> never_unknown (S:=S) (raise (A:=A) e).
Proof. intros He s state. cbn. intros [= ->]. by apply (He state). Qed.

Lemma never_unknown_ok {A} (a : A) : never_unknown (S:=S) (of_result (Ok a)).
Proof. intros s state. discriminate. Qed.
End NeverUnknown.

Lemma never_unknown_attr {A} name (field : Controller.t -> option A) :
  never_unknown (Controller.attr name field).
Proof.
  intros [c k] state. rewrite run_attr. by destruct (field c).
Qed.

Lemma never_unknown_setting key : never_unknown (Controller.setting key).
Proof.
  intros [c k] state. rewrite run_setting.
  by destruct (Controller._system_settings c !! key).
Qed.

Lemma never_unknown_store key v : never_unknown (Controller.store key v).
Proof. intros [c k] state. discriminate. Qed.

Create HintDb unknown.
#[local] Hint Resolve never_unknown_ret never_unknown_emit never_unknown_get
  never_unknown_modify never_unknown_time never_unknown_send never_unknown_ok
  never_unknown_attr never_unknown_setting never_unknown_store : unknown.

(** Walk through a method body: every bind, branch and handler in turn. *)
Ltac walk :=
  repeat first
    [ solve [auto with unknown]
    | apply never_unknown_bind; [|intros ?]
    | apply never_unknown_try
    | match goal with
      | |- never_unknown (if ?b then _ else _) => destruct b
      | |- never_unknown (match ?x with _ => _ end) => destruct x
      end ].

Lemma first_command_settable state value :
  settable state ->
  exists command, Controller.first_command state value = Ok command.
Proof. intros [-> | [-> | ->]]; cbn; eauto. Qed.

Lemma first_command_unknown state value :
  ~ settable state ->
  Controller.first_command state value = Raise (TypeError_raise state).
Proof.
  unfold settable. intros H. destruct state; try reflexivity; exfalso; apply H; auto.
Qed.

Lemma never_unknown_send_checked msg w cmd v :
  never_unknown (Controller.send_checked msg w cmd v).
Proof. unfold Controller.send_checked. walk. Qed.

Lemma never_unknown_request_status msg w :
  never_unknown (Controller._request_status msg w).
Proof. unfold Controller._request_status. walk. Qed.

Lemma never_unknown_set_with msg w refresh state value sync :
  settable state -> never_unknown refresh ->
  never_unknown (Controller._set_system_state_with msg w refresh state value sync).
Proof.
  intros Hs Hr. unfold Controller._set_system_state_with.
  destruct (first_command_settable state value Hs) as [command ->].
  pose proof (never_unknown_send_checked msg w).
  walk.
Qed.

Lemma never_unknown_refresh_with msg w set_sync notify :
  (forall state value, settable state -> never_unknown (set_sync state value)) ->
  never_unknown (Controller._refresh_system_with msg w set_sync notify).
Proof.
  intros Hset.
  pose proof (never_unknown_request_status msg w).
  pose proof (Hset DESIRED_TEMP) as Ht. pose proof (Hset FAN_MODE) as Hf.
  pose proof (Hset FIRE_IS_ON) as Ho. unfold settable in Ht, Hf, Ho.
  unfold Controller._refresh_system_with, Controller.reconcile,
    Controller.notify_update, Controller.no_status.
  walk.
Qed.

Lemma never_unknown_refresh msg w notify :
  never_unknown (Controller._refresh_system msg w notify).
Proof.
  apply never_unknown_refresh_with. intros state value Hs.
  apply never_unknown_set_with; [exact Hs | apply never_unknown_ret].
Qed.

Section Ext.
Context {S : Type}.
Lemma same_refl {A} (m : M S A) : same m m.
Proof. by intros s. Qed.

Lemma same_bind {A B} (m m' : M S A) (f f' : A -> M S B) :
  same m m' -> (forall a, same (f a) (f' a)) -> same (bind m f) (bind m' f').
Proof.
  intros Hm Hf s. rewrite !run_bind, (Hm s).
  destruct (m' s) as [[[a|e] s1] o1]; [|done]. by rewrite (Hf a s1).
Qed.
End Ext.

(** Walk through two method bodies that differ in a parameter only. *)
Ltac same_walk :=
  repeat first
    [ solve [auto using same_refl]
    | apply same_bind; [|intros ?]
    | match goal with
      | |- same (if ?b then _ else _) (if ?b then _ else _) => destruct b
      | |- same (match ?x with _ => _ end) (match ?x with _ => _ end) => destruct x
      end ].

Lemma refresh_calls_settable msg w set_sync set_sync' notify :
  (forall state value, settable state -> same (set_sync state value) (set_sync' state value)) ->
  same (Controller._refresh_system_with msg w set_sync notify)
       (Controller._refresh_system_with msg w set_sync' notify).
Proof.
  intros H.
  pose proof (H DESIRED_TEMP) as Ht. pose proof (H FAN_MODE) as Hf.
  pose proof (H FIRE_IS_ON) as Ho. unfold settable in Ht, Hf, Ho.
  unfold Controller._refresh_system_with, Controller.reconcile.
  same_walk.
Qed.


(** C9. The raise of line 449 is taken exactly for a setting other than
    FIRE_IS_ON, DESIRED_TEMP and FAN_MODE.  The three public setters call
    [_set_system_state] with one of these three, the refresh depends on
    [_set_system_state] at these three only, and so no setter, no refresh,
    no initialization and no pass of the poll loop ever ends in that
    exception. *)
Theorem unknown_setting_branch_is_unreachable (msg : MessageModule) (w : World) :
  (forall state value,
      (exists e, Controller.first_command state value = Raise e) <-> ~ settable state)
  /\ (forall value,
        Controller.set_on msg w value
        = Controller._set_system_state msg w FIRE_IS_ON (VBool value) false)
  /\ (forall value,
        Controller.set_fan msg w value
        = Controller._set_system_state msg w FAN_MODE (VFan value) false)
  /\ (forall value,
        Controller.set_desired_temp msg w value = emit (Log ERROR)
        \/ Controller.set_desired_temp msg w value
           = Controller._set_system_state msg w DESIRED_TEMP (VInt (py_round value)) false)
  /\ (forall set_sync set_sync' notify,
        (forall state value, settable state ->
           same (set_sync state value) (set_sync' state value)) ->
        same (Controller._refresh_system_with msg w set_sync notify)
             (Controller._refresh_system_with msg w set_sync' notify))
  /\ (forall state value sync, settable state ->
        never_unknown (Controller._set_system_state msg w state value sync))
  /\ (forall value, never_unknown (Controller.set_on msg w value))
  /\ (forall value, never_unknown (Controller.set_fan msg w value))
  /\ (forall value, never_unknown (Controller.set_desired_temp msg w value))
  /\ (forall notify, never_unknown (Controller._refresh_system msg w notify))
  /\ never_unknown (Controller.initialize msg w)
  /\ never_unknown (Controller._poll_loop_pass msg w).
Proof.
  assert (forall state value sync, settable state ->
            never_unknown (Controller._set_system_state msg w state value sync)) as Hset.
  { intros state value sync Hs. unfold Controller._set_system_state.
    apply never_unknown_set_with; [exact Hs|].
    apply never_unknown_refresh. }
  pose proof (never_unknown_refresh msg w) as Hr.
  split.
  { intros state value. split.
    - intros [e He] Hs. destruct (first_command_settable state value Hs) as [c Hc].
      congruence.
    - intros Hn. eexists. by apply first_command_unknown. }
  split; [reflexivity|]. split; [reflexivity|].
  split.
  { intros value. unfold Controller.set_desired_temp. destruct (_ || _); auto. }
  split; [apply refresh_calls_settable|].
  split; [exact Hset|].
  split; [intros value; apply Hset; unfold settable; auto|].
  split; [intros value; apply Hset; unfold settable; auto|].
  split.
  { intros value. unfold Controller.set_desired_temp.
    destruct (_ || _); [apply never_unknown_emit|]. apply Hset. unfold settable. auto. }
  split; [exact Hr|].
  split.
  - unfold Controller.initialize. walk.
  - unfold Controller._poll_loop_pass. walk.
Qed.

(** [set_on(True)] in READY cannot end in the exception of line 449. *)
Lemma unknown_setting_witness :
  result_of (Controller._set_system_state example_message (scripted [] [1000%Q])
               FIRE_IS_ON (VBool true) false (ready_controller, start))
  <> Raise (TypeError_raise FIRE_IS_ON).
Proof.
  pose proof (unknown_setting_branch_is_unreachable example_message
                (scripted [] [1000%Q])) as (_ & _ & _ & _ & _ & Hset & _).
  apply (Hset FIRE_IS_ON (VBool true) false). unfold settable. auto.
Defined.

(** ** Initialization *)

Lemma run_no_status w prior c k last :
  Controller._last_response c = Some last ->
  Controller.no_status w prior (c, k) =
  if Qltb (clock w (reads k) - last)%Q RETRY_TIMEOUT
  then (Ok tt, (Controller.set_state NON_RESPONSIVE c, read k), [])
  else (Ok tt, (Controller.set_state DISCONNECTED c, read k),
        if bool_decide (prior <> DISCONNECTED)
        then [Call_discovery Listener.controller_disconnected] else []).
Proof.
  intros Hl. unfold Controller.no_status. destruct c; fields. mrun.
  destruct (Qltb _ _); mrun; [reflexivity|].
  case_bool_decide; mrun; reflexivity.
Qed.

(** The first half of C1: when the status request of [initialize] brings a
    STATUS, the controller is READY with the seven settings defined, the
    poll loop is started and nothing has been called. *)
Lemma initialize_with_status msg w c k r :
  status_received msg w (sends k) = Some r ->
  Controller.initialize msg w (c, k)
  = (Ok tt,
     (Controller.set_initialised true
        (Controller.set_system_settings
           (status_settings r (Controller._system_settings c))
           (Controller.set_state READY
              (Controller.set_last_response (clock w (reads k))
                 (Controller.set_closed false
                    (Controller.set_last_update 0%Q
                       (Controller.set_busy_end_time 0%Q c)))))),
      read (sent k)),
     [Send STATUS_PLEASE None; Create_task poll_loop_task]).
Proof.
  unfold status_received. intros Hr.
  unfold Controller.initialize, Controller._refresh_system,
    Controller._refresh_system_with.
  destruct c as [live prior ini st lr be lu cl]. fields. mrun.
  erewrite run_request_status by reflexivity.
  destruct (net w (sends k) STATUS_PLEASE) as [l|f]; [|discriminate].
  unfold valid_response. destruct (first_response l) as [m|]; [|discriminate].
  case_bool_decide as He; [|discriminate]. case_bool_decide as Hs; [|discriminate].
  injection Hr as ->. fields. mrun. reflexivity.
Qed.

(** C1, what the code does with a failed fetch.  When the status request of
    [initialize] brings no STATUS (no reply, a reply of another kind, or a
    ConnectionError of the datagram layer), [initialize] still returns
    normally: it marks the controller initialised and starts the poll loop,
    with the state NON_RESPONSIVE or DISCONNECTED and the live settings as
    the constructor left them.  No exception reaches the caller. *)
Theorem initialize_returns_after_a_failed_fetch
    (msg : MessageModule) (w : World) (c : Controller.t) (k : Cursor) :
  status_received msg w (sends k) = None ->
  reply_breaks w (sends k) STATUS_PLEASE = None ->
  let run := Controller.initialize msg w (c, k) in
  result_of run = Ok tt
  /\ Controller._initialised (object_of run) = true
  /\ tasks_created (output_of run) = [poll_loop_task]
  /\ Controller._system_settings (object_of run) = Controller._system_settings c
  /\ (Controller._state (object_of run) = Some NON_RESPONSIVE
      /\ callbacks (output_of run) = []
      \/ Controller._state (object_of run) = Some DISCONNECTED
         /\ callbacks (output_of run) = [Listener.controller_disconnected]).
Proof.
  unfold status_received, reply_breaks. intros Hr Hb. cbv zeta.
  unfold Controller.initialize, Controller._refresh_system,
    Controller._refresh_system_with.
  destruct c as [live prior ini st lr be lu cl]. fields. mrun.
  erewrite run_request_status by reflexivity.
  assert (forall c0 k0 last, Controller._last_response c0 = Some last ->
            Controller._system_settings c0 = live ->
            let run := Controller.no_status w READY (c0, k0) in
            result_of run = Ok tt
            /\ wire (output_of run) = [] /\ tasks_created (output_of run) = []
            /\ Controller._system_settings (object_of run) = live
            /\ (Controller._state (object_of run) = Some NON_RESPONSIVE
                /\ callbacks (output_of run) = []
                \/ Controller._state (object_of run) = Some DISCONNECTED
                   /\ callbacks (output_of run) = [Listener.controller_disconnected]))
    as Hno.
  { intros c0 k0 last Hl Hlive. cbv zeta. rewrite (run_no_status _ _ _ _ _ Hl).
    destruct c0. fields. destruct (Qltb _ _); fields; outs; auto 10. }
  assert (forall c0 k0 last, Controller._last_response c0 = Some last ->
            Controller._system_settings c0 = live ->
            let run :=
              match Controller.no_status w READY (c0, k0) with
              | (Ok _, s1, o1) =>
                  (Ok tt, (Controller.set_initialised true (fst s1), snd s1),
                   Send STATUS_PLEASE None :: o1 ++ [Create_task poll_loop_task])
              | (Raise e, s1, o1) => (Raise e, s1, Send STATUS_PLEASE None :: o1)
              end in
            result_of run = Ok tt
            /\ Controller._initialised (object_of run) = true
            /\ tasks_created (output_of run) = [poll_loop_task]
            /\ Controller._system_settings (object_of run) = live
            /\ (Controller._state (object_of run) = Some NON_RESPONSIVE
                /\ callbacks (output_of run) = []
                \/ Controller._state (object_of run) = Some DISCONNECTED
                   /\ callbacks (output_of run) = [Listener.controller_disconnected]))
    as Hfin.
  { intros c0 k0 last Hl Hlive. cbv zeta.
    destruct (Hno c0 k0 last Hl Hlive) as (Hres & Hw & Ht & Hs & Hst).
    destruct (Controller.no_status w READY (c0, k0)) as [[res [c1 k1]] o1].
    fields. subst res. fields. outs. rewrite Ht.
    change (callbacks []) with (@nil Listener.method). rewrite !app_nil_r.
    destruct c1. fields. auto 10. }
  destruct (net w (sends k) STATUS_PLEASE) as [l|f].
  - unfold valid_response in *. destruct (first_response l) as [m|].
    + case_bool_decide as He; fields.
      * case_bool_decide as Hs; [discriminate|]. mrun.
        match goal with |- context [Controller.no_status w READY (?c0, ?k0)] =>
          specialize (Hfin c0 k0 _ eq_refl eq_refl) end.
        cbv zeta in Hfin.
        destruct (Controller.no_status w READY _) as [[[[]|e] [c1 k1]] o1];
          fields; mrun; fields; apply Hfin.
      * mrun.
        match goal with |- context [Controller.no_status w READY (?c0, ?k0)] =>
          specialize (Hfin c0 k0 _ eq_refl eq_refl) end.
        cbv zeta in Hfin.
        destruct (Controller.no_status w READY _) as [[[[]|e] [c1 k1]] o1];
          fields; mrun; fields; apply Hfin.
    + fields. mrun.
      match goal with |- context [Controller.no_status w READY (?c0, ?k0)] =>
        specialize (Hfin c0 k0 _ eq_refl eq_refl) end.
      cbv zeta in Hfin.
      destruct (Controller.no_status w READY _) as [[[[]|e] [c1 k1]] o1];
        fields; mrun; fields; apply Hfin.
  - destruct f; try discriminate. fields. mrun.
    match goal with |- context [Controller.no_status w READY (?c0, ?k0)] =>
      specialize (Hfin c0 k0 _ eq_refl eq_refl) end.
    cbv zeta in Hfin.
    destruct (Controller.no_status w READY _) as [[[[]|e] [c1 k1]] o1];
      fields; mrun; fields; apply Hfin.
Qed.

Lemma new_controller_is_constructed :
  Controller.__init__ ["loop"; "sending_lock"]%string example_uid example_ip
  = Ok new_controller.
Proof. reflexivity. Qed.

(** [initialize] on a fireplace that does not answer at time 1000. *)
Lemma initialize_failed_fetch_witness :
  result_of (Controller.initialize example_message silent_then_answering
               (new_controller, start)) = Ok tt
  /\ Controller._initialised
       (object_of (Controller.initialize example_message silent_then_answering
                     (new_controller, start))) = true.
Proof.
  pose proof (initialize_returns_after_a_failed_fetch example_message
                silent_then_answering new_controller start eq_refl eq_refl)
    as (Hres & Hini & _).
  split; [exact Hres | exact Hini].
Defined.

(** A refresh at time 1010 in a busy window that ends at 1066. *)
Lemma refresh_in_busy_window_witness :
  Controller._refresh_system example_message (scripted [] [1010%Q]) true
    (busy_controller, start)
  = (Ok tt, (busy_controller, read start), []).
Proof.
  apply (refresh_in_busy_window_does_nothing example_message
           (scripted [] [1010%Q]) busy_controller start true 1066%Q).
  - vm_compute. reflexivity.
  - vm_compute. reflexivity.
  - vm_compute. reflexivity.
Defined.

(** [set_fan(AUTO)] in READY with the fan boost on, both commands
    acknowledged. *)
Lemma fan_change_witness :
  wire (output_of (Controller._set_system_state example_message
                     (scripted [ack FAN_BOOST_OFF; ack FLAME_EFFECT_OFF;
                                status_reply false false false 20 18] [1000%Q])
                     FAN_MODE (VFan AUTO) false (ready_controller, start)))
  = [FAN_BOOST_OFF; FLAME_EFFECT_OFF; STATUS_PLEASE].
Proof.
  apply (fan_change_sends_its_pair example_message
           (scripted [ack FAN_BOOST_OFF; ack FLAME_EFFECT_OFF;
                      status_reply false false false 20 18] [1000%Q])
           ready_controller start AUTO false).
  vm_compute. discriminate.
Defined.

(** ** A controller whose first status request failed *)

(** C6, at the input where the code departs from it.  The fireplace is
    silent during [initialize] and answers the first poll.  [initialize]
    returns with the state DISCONNECTED and one call of
    [controller_disconnected].  The poll receives a STATUS and sets the
    state to READY, and then fails with KeyError on the missing
    desired temperature: [controller_reconnected] is never called, and the
    pass of the poll loop that made the poll closes the controller and
    leaves the loop. *)
Theorem reconnection_is_not_announced :
  let w := silent_then_answering in
  let begun := Controller.initialize example_message w (new_controller, start) in
  let polled := Controller._refresh_system example_message w true (state_of begun) in
  let pass := Controller._poll_loop_pass example_message w (state_of begun) in
  result_of begun = Ok tt
  /\ Controller._state (object_of begun) = Some DISCONNECTED
  /\ callbacks (output_of begun) = [Listener.controller_disconnected]
  /\ (exists r, status_received example_message w 1 = Some r)
  /\ result_of polled = Raise (KeyError DESIRED_TEMP)
  /\ Controller._state (object_of polled) = Some READY
  /\ callbacks (output_of polled) = []
  /\ result_of pass = Ok None
  /\ Controller._closed (object_of pass) = Some true
  /\ callbacks (output_of pass) = [].
Proof.
  cbv zeta. repeat split; try (vm_compute; reflexivity).
  eexists. vm_compute. reflexivity.
Qed.

(** ** A controller that has its settings *)

Lemma link_events_app a b : link_events (a ++ b) = link_events a ++ link_events b.
Proof. unfold link_events. by rewrite callbacks_app, List.filter_app. Qed.

Lemma steady_unchanged {A} b (m : M Controller.t A) :
  (forall c k, exists a k' o,
      m (c, k) = (Ok a, (c, k'), o) /\ link_events o = [] /\ (reads k <= reads k')%nat) ->
  steady b m.
Proof.
  intros H c k Hp Hs. destruct (H c k) as (a & k' & o & -> & Hl & Hk). cbn.
  split; [left; eauto|]. split; [exact Hp|]. split; [exact Hs|].
  split; [exact Hl|]. split; [auto | exact Hk].
Qed.

Lemma steady_ret {A} b (a : A) : steady b (ret a).
Proof. apply steady_unchanged. intros c k. exists a, k, []. auto. Qed.

Lemma steady_get b : steady b get.
Proof. apply steady_unchanged. intros c k. exists c, k, []. auto. Qed.

Lemma steady_time b w : steady b (time w).
Proof.
  apply steady_unchanged. intros c k. eexists _, _, []. rewrite run_time.
  split; [reflexivity|]. split; [reflexivity|]. cbn. lia.
Qed.

Lemma steady_ok {A} b (a : A) : steady b (of_result (Ok a)).
Proof. apply steady_unchanged. intros c k. exists a, k, []. auto. Qed.

Lemma steady_emit b e :
  match e with Call_discovery cb => is_link cb = false | _ => True end ->
  steady b (emit e).
Proof.
  intros He. apply steady_unchanged. intros c k. exists tt, k, [e].
  split; [reflexivity|]. split; [|lia].
  unfold link_events. destruct e as [| cb | | | | | |]; try reflexivity.
  cbn. rewrite He. reflexivity.
Qed.

Lemma steady_send w cmd payload :
  quiet_failures w -> steady true (datagram_send w cmd payload).
Proof.
  intros Hq c k Hp Hs. rewrite run_send. unfold ends_well.
  destruct (net w (sends k) cmd) as [l|f] eqn:Hn; cbn.
  - split; [left; eauto|]. auto 10.
  - rewrite (Hq _ _ _ Hn). cbn. split; [right; auto|]. auto 10.
Qed.

Lemma produces_bind {A B} e1 e2 (m : M Controller.t A) (f : A -> M Controller.t B) :
  produces e1 false m -> (forall a, produces e2 false (f a)) ->
  produces (e1 ++ e2) false (bind m f).
Proof.
  intros Hm Hf c k Hp Hs. rewrite run_bind.
  destruct (Hm c k Hp Hs) as (Hr & Hp1 & Hs1 & Hl1 & Hd1 & Hk1).
  destruct (m (c, k)) as [[r [c1 k1]] o1]. fields.
  destruct Hr as [[a ->] | [? _]]; [|discriminate].
  destruct (Hf a c1 k1 Hp1 Hs1) as (Hr2 & Hp2 & Hs2 & Hl2 & Hd2 & Hk2).
  destruct (f a (c1, k1)) as [[r2 [c2 k2]] o2]. fields.
  rewrite link_events_app, Hl1, Hl2.
  split; [exact Hr2|]. split; [exact Hp2|]. split; [exact Hs2|].
  split; [reflexivity|]. split; [auto | lia].
Qed.

Lemma steady_bind {A B} b (m : M Controller.t A) (f : A -> M Controller.t B) :
  steady b m -> (forall a, steady b (f a)) -> steady b (bind m f).
Proof.
  intros Hm Hf c k Hp Hs. rewrite run_bind.
  destruct (Hm c k Hp Hs) as (Hr & Hp1 & Hs1 & Hl1 & Hd1 & Hk1).
  destruct (m (c, k)) as [[r [c1 k1]] o1]. fields.
  destruct Hr as [[a ->] | [-> ->]].
  - destruct (Hf a c1 k1 Hp1 Hs1) as (Hr2 & Hp2 & Hs2 & Hl2 & Hd2 & Hk2).
    destruct (f a (c1, k1)) as [[r2 [c2 k2]] o2]. fields.
    rewrite link_events_app, Hl1, Hl2.
    split; [exact Hr2|]. split; [exact Hp2|]. split; [exact Hs2|].
    split; [reflexivity|]. split; [auto | lia].
  - fields. split; [right; auto|]. auto 10.
Qed.

Lemma steady_try {A} b (m h : M Controller.t A) :
  steady true m -> steady b h -> steady b (try_except m is_ConnectionError h).
Proof.
  intros Hm Hh c k Hp Hs. rewrite run_try.
  destruct (Hm c k Hp Hs) as (Hr & Hp1 & Hs1 & Hl1 & Hd1 & Hk1).
  destruct (m (c, k)) as [[r [c1 k1]] o1]. fields.
  destruct Hr as [[a ->] | [_ ->]].
  - fields. split; [left; eauto|]. auto 10.
  - cbn [is_ConnectionError]. destruct (Hh c1 k1 Hp1 Hs1) as (Hr2 & Hp2 & Hs2 & Hl2 & Hd2 & Hk2).
    destruct (h (c1, k1)) as [[r2 [c2 k2]] o2]. fields.
    rewrite link_events_app, Hl1, Hl2.
    split; [exact Hr2|]. split; [exact Hp2|]. split; [exact Hs2|].
    split; [reflexivity|]. split; [auto | lia].
Qed.

Lemma steady_attr {A} b name (field : Controller.t -> option A) :
  (forall c, started c -> is_Some (field c)) -> steady b (Controller.attr name field).
Proof.
  intros Hf c k Hp Hs. rewrite run_attr. destruct (Hf c Hs) as [a ->].
  cbn. split; [left; eauto|]. auto 10.
Qed.

Lemma steady_setting b key :
  (forall c, populated c -> is_Some (Controller._system_settings c !! key)) ->
  steady b (Controller.setting key).
Proof.
  intros Hf c k Hp Hs. rewrite run_setting. destruct (Hf c Hp) as [a ->].
  cbn. split; [left; eauto|]. auto 10.
Qed.

Lemma steady_modify b (f : Controller.t -> Controller.t) :
  (forall c, populated c -> populated (f c)) ->
  (forall c, started c -> started (f c)) ->
  (forall c, Controller._state (f c) = Some DISCONNECTED ->
             Controller._state c = Some DISCONNECTED) ->
  steady b (modify f).
Proof.
  intros H1 H2 H3 c k Hp Hs. cbn.
  split; [left; eauto|]. split; [auto|]. split; [auto|].
  split; [reflexivity|]. split; [apply H3 | lia].
Qed.

Lemma steady_store b key v : steady b (Controller.store key v).
Proof.
  apply steady_modify.
  - intros [] (H1 & H2 & H3 & H4 & H5). unfold populated. cbn.
    repeat split; apply lookup_insert_is_Some'; auto.
  - intros [] H. exact H.
  - intros [] H. exact H.
Qed.

Lemma steady_set_state b s : s <> DISCONNECTED -> steady b (modify (Controller.set_state s)).
Proof.
  intros Hne. apply steady_modify.
  - intros [] H. exact H.
  - intros [] (H1 & H2 & H3 & H4 & H5). unfold started. cbn. eauto.
  - intros []. cbn. congruence.
Qed.

Lemma steady_set_last_response b x : steady b (modify (Controller.set_last_response x)).
Proof.
  apply steady_modify.
  - intros [] H. exact H.
  - intros [] (H1 & H2 & H3 & H4 & H5). unfold started. cbn. eauto.
  - intros []. cbn. congruence.
Qed.

Lemma steady_set_busy_end_time b x : steady b (modify (Controller.set_busy_end_time x)).
Proof.
  apply steady_modify.
  - intros [] H. exact H.
  - intros [] (H1 & H2 & H3 & H4 & H5). unfold started. cbn. eauto.
  - intros []. cbn. congruence.
Qed.

Lemma steady_set_last_update b x : steady b (modify (Controller.set_last_update x)).
Proof.
  apply steady_modify.
  - intros [] H. exact H.
  - intros [] (H1 & H2 & H3 & H4 & H5). unfold started. cbn. eauto.
  - intros []. cbn. congruence.
Qed.

Lemma steady_set_prior b : 
  steady b (modify (fun c => Controller.set_prior_settings (Controller._system_settings c) c)).
Proof.
  apply steady_modify.
  - intros [] H. exact H.
  - intros [] H. exact H.
  - intros []. cbn. congruence.
Qed.

Create HintDb steady.
#[local] Hint Resolve steady_ret steady_get steady_time steady_ok steady_store
  steady_set_last_response steady_set_busy_end_time steady_set_last_update
  steady_set_prior : steady.
#[local] Hint Extern 1 (steady _ (modify (Controller.set_state _))) =>
  apply steady_set_state; discriminate : steady.
#[local] Hint Extern 1 (steady _ (emit _)) => apply steady_emit; exact I || reflexivity : steady.
#[local] Hint Extern 1 (steady _ (Controller.attr _ _)) =>
  apply steady_attr; intros ? (?&?&?&?&?); assumption : steady.
#[local] Hint Extern 1 (steady _ (Controller.setting _)) =>
  apply steady_setting; intros ? (?&?&?&?&?); assumption : steady.

Ltac steady_walk :=
  repeat first
    [ solve [auto with steady]
    | apply steady_bind; [|intros ?]
    | apply steady_try
    | match goal with
      | |- steady _ (if ?b then _ else _) => destruct b
      | |- steady _ (match ?x with _ => _ end) => destruct x
      end ].

Section Steady.
Variable msg : MessageModule.
Variable w : World.
Hypothesis Hquiet : quiet_failures w.

Lemma steady_send_checked b cmd v : steady b (Controller.send_checked msg w cmd v).
Proof.
  pose proof (steady_send w) as Hsend.
  unfold Controller.send_checked. steady_walk.
Qed.

Lemma steady_request_status b : steady b (Controller._request_status msg w).
Proof.
  pose proof (steady_send w) as Hsend.
  unfold Controller._request_status. steady_walk.
Qed.

Lemma steady_set_sync b state value :
  settable state ->
  steady b (Controller._set_system_state_sync msg w state value).
Proof.
  intros Hst. pose proof steady_send_checked as Hsc.
  unfold Controller._set_system_state_sync, Controller._set_system_state_with.
  destruct (first_command_settable state value Hst) as [command ->].
  cbn [negb].
  assert (steady b (Controller.setting state)) as Hset.
  { apply steady_setting. intros c (?&?&?&?&?).
    destruct Hst as [-> | [-> | ->]]; assumption. }
  steady_walk.
Qed.
End Steady.

Section Steps.
Variable msg : MessageModule.
Variable w : World.
Hypothesis Hquiet : quiet_failures w.
Hypothesis Hstatus : expected_response msg STATUS_PLEASE = STATUS.
Hypothesis Hclock : monotone w.

Lemma produces_reconcile prior r :
  produces (if bool_decide (prior = DISCONNECTED)
            then [Listener.controller_reconnected] else [])
    false
    (Controller.reconcile (Controller._set_system_state_sync msg w) prior r).
Proof.
  pose proof (fun b s v H => steady_set_sync msg w Hquiet b s v H) as Hset.
  assert (settable DESIRED_TEMP) as Ht by (unfold settable; auto).
  assert (settable FAN_MODE) as Hf by (unfold settable; auto).
  assert (settable FIRE_IS_ON) as Ho by (unfold settable; auto).
  unfold Controller.reconcile.
  repeat (apply (produces_bind [] _); [steady_walk | intros ?]).
  case_bool_decide.
  - intros c k Hp Hs. cbn. split; [left; eauto|]. auto 10.
  - apply steady_ret.
Qed.

Lemma steady_notify_update b : steady b (Controller.notify_update w).
Proof. unfold Controller.notify_update. steady_walk. Qed.

Lemma produces_after_ready prior r (notify : bool) :
  produces (if bool_decide (prior = DISCONNECTED)
            then [Listener.controller_reconnected] else [])
    false
    (Controller.store HAS_NEW_TIMERS (VBool (has_new_timers r)) ;;;
     Controller.store CURRENT_TEMP (VInt (current_temp r)) ;;;
     (if bool_decide (prior = READY)
      then Controller.store DESIRED_TEMP (VInt (desired_temp r)) ;;;
           Controller.store FAN_MODE (VFan (Controller.response_fan r)) ;;;
           Controller.store FIRE_IS_ON (VBool (fire_is_on r))
      else Controller.reconcile (Controller._set_system_state_sync msg w) prior r) ;;;
     if notify then Controller.notify_update w else ret tt).
Proof.
  pose proof steady_notify_update as Hn.
  apply (produces_bind [] _); [steady_walk | intros ?].
  apply (produces_bind [] _); [steady_walk | intros ?].
  rewrite <- (app_nil_r (if bool_decide (prior = DISCONNECTED) then _ else _)).
  apply produces_bind; [|intros ?; steady_walk].
  destruct (decide (prior = READY)) as [->|Hne].
  - rewrite (bool_decide_eq_false_2 (READY = DISCONNECTED)) by discriminate.
    rewrite (bool_decide_eq_true_2 (READY = READY)) by reflexivity.
    steady_walk.
  - rewrite (bool_decide_eq_false_2 (prior = READY)) by exact Hne.
    apply produces_reconcile.
Qed.

Lemma in_silence_later c k k' :
  (reads k <= reads k')%nat -> in_silence w c k -> in_silence w c k'.
Proof.
  intros Hk Hsil Hd. destruct (Hsil Hd) as (last & Hl & Hn).
  exists last. split; [exact Hl|]. intros n Hle. apply Hn. lia.
Qed.

Lemma transition_same s : transition s s = [].
Proof. unfold transition. by destruct (is_disconnected s). Qed.

Lemma ungated_step (notify : bool) c k st :
  populated c -> started c -> in_silence w c k ->
  Controller._state c = Some st ->
  step_ok w c k
    ((let* response := Controller._request_status msg w in
      match response with
      | Some r =>
          if bool_decide (response_id r = STATUS)
          then
            modify (Controller.set_state READY) ;;;
            Controller.store HAS_NEW_TIMERS (VBool (has_new_timers r)) ;;;
            Controller.store CURRENT_TEMP (VInt (current_temp r)) ;;;
            (if bool_decide (st = READY)
             then Controller.store DESIRED_TEMP (VInt (desired_temp r)) ;;;
                  Controller.store FAN_MODE (VFan (Controller.response_fan r)) ;;;
                  Controller.store FIRE_IS_ON (VBool (fire_is_on r))
             else Controller.reconcile (Controller._set_system_state_sync msg w) st r) ;;;
            if notify then Controller.notify_update w else ret tt
          else Controller.no_status w st
      | None => Controller.no_status w st
      end) (c, k)).
Proof.
  intros Hp Hs Hsil Hst.
  pose proof Hs as (_ & [last Hlast] & _).
  assert (step_ok w c k
            (match Controller.no_status w st (unanswered st c, sent k) with
             | (r, s2, o2) => (r, s2, [Send STATUS_PLEASE None] ++ o2)
             end)) as Hquietly.
  { assert (Controller._last_response (unanswered st c) = Some last) as Hl'.
    { unfold unanswered. case_bool_decide; destruct c; exact Hlast. }
    rewrite (run_no_status _ _ _ _ _ Hl').
    assert (populated (unanswered st c) /\ started (unanswered st c)) as [Hp' Hs'].
    { unfold unanswered. case_bool_decide; [|auto]. destruct c.
      destruct Hs as (?&?&?&?&?). unfold populated, started. fields. eauto 10. }
    destruct (Qltb (clock w (reads (sent k)) - last) RETRY_TIMEOUT) eqn:Hq.
    - (* NON_RESPONSIVE *)
      unfold step_ok. fields.
      assert (st <> DISCONNECTED) as Hnd.
      { intros ->. destruct (Hsil Hst) as (last' & Hl2 & Hn).
        rewrite Hlast in Hl2. injection Hl2 as <-.
        apply Qltb_lt in Hq. specialize (Hn (reads k) (le_n _)).
        cbn [sent reads] in Hq. lra. }
      split; [reflexivity|].
      split; [destruct (unanswered st c); exact Hp'|].
      split; [destruct (unanswered st c); destruct Hs' as (?&?&?&?&?);
              unfold started; fields; eauto 10|].
      split; [intros Hd; destruct (unanswered st c); discriminate|].
      split; [|cbn; lia].
      rewrite Hst. destruct (unanswered st c). fields.
      unfold transition. destruct st; try reflexivity. congruence.
    - (* DISCONNECTED *)
      unfold step_ok. fields.
      split; [reflexivity|].
      split; [destruct (unanswered st c); exact Hp'|].
      split; [destruct (unanswered st c); destruct Hs' as (?&?&?&?&?);
              unfold started; fields; eauto 10|].
      split.
      { intros _. exists last. split.
        - destruct (unanswered st c). exact Hl'.
        - intros n Hn. cbn [sent read reads snd] in *.
          assert (~ (clock w (reads k) - last < RETRY_TIMEOUT)%Q) as Hge.
          { intros Hlt. apply Qltb_lt in Hlt. congruence. }
          pose proof (Hclock (reads k) n ltac:(lia)). lra. }
      split; [|cbn; lia].
      rewrite Hst. destruct (unanswered st c). fields.
      unfold transition. destruct st; cbn; try reflexivity. }
  rewrite run_bind, (run_request_status _ _ _ _ _ Hst).
  destruct (net w (sends k) STATUS_PLEASE) as [l|f] eqn:Hnet.
  - unfold valid_response. destruct (first_response l) as [m|]; [|exact Hquietly].
    case_bool_decide as Hid; [|exact Hquietly].
    rewrite Hstatus in Hid. rewrite (bool_decide_eq_true_2 _ Hid).
    rewrite run_bind, run_modify.
    fields.
    match goal with |- context [bind _ _ (?c2, ?k2)] =>
      pose proof (produces_after_ready st m notify c2 k2) as Hrest;
      set (c' := c2) in *; set (k' := k2) in *
    end.
    assert (populated c' /\ started c' /\ Controller._state c' = Some READY)
      as (Hp' & Hs' & Hst').
    { subst c'. destruct c. destruct Hs as (?&?&?&?&?).
      unfold populated, started. fields. eauto 10. }
    destruct (Hrest Hp' Hs') as (Hr & Hp3 & Hs3 & Hl3 & Hd3 & Hk3). clear Hrest.
    match goal with |- context [bind ?a ?b (c', k')] =>
      destruct (bind a b (c', k')) as [[r [c3 k3]] o3]
    end.
    unfold step_ok. fields. outs.
    destruct Hr as [[[] ->] | [? _]]; [|discriminate].
    assert (is_disconnected (Controller._state c3) = false) as Hnd.
    { destruct (Controller._state c3) as [[]|] eqn:E; try reflexivity.
      specialize (Hd3 eq_refl). congruence. }
    split; [reflexivity|]. split; [exact Hp3|]. split; [exact Hs3|].
    split.
    { intros Hd. rewrite Hd in Hnd. discriminate. }
    split.
    { unfold link_events in *. outs. rewrite Hl3, Hst. unfold transition.
      rewrite Hnd. destruct st; reflexivity. }
    subst k'. cbn [sent read reads] in Hk3. lia.
  - rewrite (Hquiet _ _ _ Hnet). exact Hquietly.
Qed.

Lemma refresh_step (notify : bool) c k :
  populated c -> started c -> in_silence w c k ->
  step_ok w c k (Controller._refresh_system msg w notify (c, k)).
Proof.
  intros Hp Hs Hsil.
  unfold Controller._refresh_system, Controller._refresh_system_with.
  pose proof Hs as ([st Hst] & _ & [busy_end Hbe] & _).
  rewrite run_bind, run_attr, Hst. fields.
  rewrite run_bind.
  destruct (decide (st = BUSY)) as [->|Hnb].
  - rewrite (bool_decide_eq_true_2 (BUSY = BUSY)) by reflexivity.
    rewrite run_bind, run_time. fields. rewrite run_bind, run_attr, Hbe. fields.
    rewrite run_ret. fields.
    destruct (Qltb (clock w (reads k)) busy_end).
    + rewrite run_ret. unfold step_ok. fields.
      split; [reflexivity|]. split; [exact Hp|]. split; [exact Hs|].
      split; [apply (in_silence_later c k); [cbn; lia | exact Hsil]|].
      split; [by rewrite transition_same | cbn; lia].
    + pose proof (ungated_step notify c (read k) BUSY Hp Hs
                    (in_silence_later c k (read k) ltac:(cbn; lia) Hsil) Hst) as Hu.
      match goal with |- context [bind ?a ?b (c, read k)] =>
        destruct (bind a b (c, read k)) as [[r [c3 k3]] o3]
      end.
      unfold step_ok in *. fields. cbn [read reads] in Hu.
      destruct Hu as (? & ? & ? & ? & ? & ?). repeat (split; [assumption|]). lia.
  - rewrite (bool_decide_eq_false_2 (st = BUSY)) by exact Hnb.
    rewrite run_ret. fields.
    pose proof (ungated_step notify c k st Hp Hs Hsil Hst) as Hu.
    match goal with |- context [bind ?a ?b (c, k)] =>
      destruct (bind a b (c, k)) as [[r [c3 k3]] o3]
    end.
    unfold step_ok in *. fields. exact Hu.
Qed.

Lemma poll_pass_step c k :
  populated c -> started c -> in_silence w c k ->
  pass_ok w c k (Controller._poll_loop_pass msg w (c, k)).
Proof.
  intros Hp Hs Hsil. unfold Controller._poll_loop_pass.
  pose proof Hs as (_ & _ & _ & _ & [cl Hcl]).
  rewrite run_bind, run_attr, Hcl. fields. destruct cl.
  { rewrite run_ret. unfold pass_ok. fields.
    split; [eauto|]. split; [exact Hp|]. split; [exact Hs|].
    split; [exact Hsil | by rewrite transition_same]. }
  rewrite run_bind, run_try, run_bind.
  pose proof (refresh_step true c k Hp Hs Hsil) as Hstep.
  destruct (Controller._refresh_system msg w true (c, k)) as [[r [c1 k1]] o1].
  unfold step_ok in Hstep. fields.
  destruct Hstep as (-> & Hp1 & Hs1 & Hsil1 & Hl1 & Hk1).
  rewrite run_ret. fields.
  pose proof Hp1 as ([uid Hu] & [ip Hi] & _).
  pose proof Hs1 as ([st Hst] & _ & [busy_end Hbe] & _).
  mrun.
  assert (forall q k2 o, (reads k1 <= reads k2)%nat -> link_events o = [] ->
            pass_ok w c k (Ok (Some q), (c1, k2), (o1 ++ []) ++ o)) as Hfin.
  { intros q k2 o Hk2 Ho. unfold pass_ok. fields.
    split; [eauto|]. split; [exact Hp1|]. split; [exact Hs1|].
    split; [apply (in_silence_later c1 k1); assumption|].
    rewrite link_events_app, Ho, !app_nil_r. exact Hl1. }
  destruct st; mrun; apply Hfin; try reflexivity; cbn; lia.
Qed.

Lemma alternate_transition s s' rest :
  alternate (next_link s') rest -> alternate (next_link s) (transition s s' ++ rest).
Proof.
  unfold next_link, transition.
  destruct (is_disconnected s), (is_disconnected s'); cbn; auto.
Qed.

(** What C6 says, on a controller that did get its settings.  On a
    controller that is populated and started, with a datagram layer that
    fails with ConnectionError only, a table that expects STATUS for
    STATUS_PLEASE and a clock that does not go back, the poll loop calls
    [controller_disconnected] and [controller_reconnected] in turn: each
    refresh calls exactly the one that its change of state asks for
    ([refresh_step]), so the first call after a connected state is
    [controller_disconnected]. *)
Theorem link_events_alternate fuel c k :
  populated c -> started c -> in_silence w c k ->
  alternate (next_link (Controller._state c))
    (link_events (output_of (Controller._poll_loop msg w fuel (c, k)))).
Proof.
  revert c k. induction fuel as [|n IH]; intros c k Hp Hs Hsil.
  - exact I.
  - cbn [Controller._poll_loop]. rewrite run_bind.
    pose proof (poll_pass_step c k Hp Hs Hsil) as Hpass.
    destruct (Controller._poll_loop_pass msg w (c, k)) as [[r [c1 k1]] o1].
    unfold pass_ok in Hpass. fields.
    destruct Hpass as ([slept ->] & Hp1 & Hs1 & Hsil1 & Hl1).
    destruct slept as [q|].
    + specialize (IH c1 k1 Hp1 Hs1 Hsil1).
      destruct (Controller._poll_loop msg w n (c1, k1)) as [[r2 s2] o2]. fields.
      rewrite link_events_app, Hl1. by apply alternate_transition.
    + rewrite run_ret. fields. rewrite link_events_app, Hl1.
      by apply alternate_transition.
Qed.
End Steps.

Lemma scripted_is_quiet replies times :
  (forall o, In o replies -> exists l, o = Responses l) ->
  quiet_failures (scripted replies times).
Proof.
  intros H n cmd f Hn. cbn in Hn.
  destruct (nth_in_or_default n replies (Responses [])) as [Hin | Hd].
  - destruct (H _ Hin) as [l Hl]. congruence.
  - congruence.
Qed.

Lemma standing_clock_is_monotone replies (t : Q) : monotone (scripted replies [t]).
Proof.
  intros n m _. cbn. destruct n as [|[|n]], m as [|[|m]]; cbn; apply Qle_refl.
Qed.

(** The poll loop of [ready_controller], with a fireplace that misses one
    poll and answers the next. *)
Example polls_of_a_ready_controller (fuel : nat) :
  alternate Listener.controller_disconnected
    (link_events
       (output_of
          (Controller._poll_loop example_message
             (scripted [Responses []; status_reply false true false 20 18] [1000%Q])
             fuel (ready_controller, start)))).
Proof.
  assert (Controller._state ready_controller = Some READY) as Hready
    by (vm_compute; reflexivity).
  change Listener.controller_disconnected with (next_link (Some READY)).
  rewrite <- Hready.
  apply (link_events_alternate example_message
           (scripted [Responses []; status_reply false true false 20 18] [1000%Q])).
  - apply scripted_is_quiet. intros o [<- | [<- | []]]; eexists; reflexivity.
  - reflexivity.
  - apply standing_clock_is_monotone.
  - repeat split; eexists; vm_compute; reflexivity.
  - repeat split; eexists; vm_compute; reflexivity.
  - intros Hd. vm_compute in Hd. discriminate.
Qed.

(** ** The settings that are defined *)

Lemma constructed_settings names uid ip c :
  Controller.__init__ names uid ip = Ok c ->
  forall key,
    Controller._system_settings c !! key
    = match key with
      | DEVICE_UID => Some (VStr uid)
      | IP_ADDRESS => Some (VStr ip)
      | _ => None
      end.
Proof.
  unfold Controller.__init__. intros H.
  destruct (negb _); [discriminate|]. destruct (negb _); [discriminate|].
  injection H as <-. fields. intros []; reflexivity.
Qed.

(** The first half of C10: on a controller as constructed the accessors of
    the address and of the serial succeed and the four others fail on the
    missing entry. *)
Lemma accessors_of_a_new_controller msg w names uid ip c k :
  Controller.__init__ names uid ip = Ok c ->
  Controller.device_ip (c, k) = (Ok (VStr ip), (c, k), [])
  /\ Controller.device_uid (c, k) = (Ok (VStr uid), (c, k), [])
  /\ Controller.is_on (c, k) = (Raise (KeyError FIRE_IS_ON), (c, k), [])
  /\ Controller.fan (c, k) = (Raise (KeyError FAN_MODE), (c, k), [])
  /\ Controller.desired_temp w (c, k) = (Raise (KeyError DESIRED_TEMP), (c, k), [])
  /\ Controller.current_temp w (c, k) = (Raise (KeyError CURRENT_TEMP), (c, k), [])
  /\ (forall value, Controller.set_on msg w value (c, k)
                    = (Raise (KeyError FIRE_IS_ON), (c, k), []))
  /\ (forall value, Controller.set_fan msg w value (c, k)
                    = (Raise (KeyError FAN_MODE), (c, k), [])).
Proof.
  intros H. pose proof (constructed_settings _ _ _ _ H) as Hk.
  unfold Controller.device_ip, Controller.device_uid, Controller.is_on,
    Controller.fan, Controller.desired_temp, Controller.current_temp,
    Controller._get_system_state, Controller.set_on, Controller.set_fan,
    Controller._set_system_state, Controller._set_system_state_with.
  repeat split; intros; mrun; rewrite ?Hk; mrun; reflexivity.
Qed.

Lemma status_settings_defined r m key :
  key <> CONTROLLER_STATE ->
  is_Some (m !! DEVICE_UID) -> is_Some (m !! IP_ADDRESS) ->
  is_Some (status_settings r m !! key).
Proof.
  intros Hk Hu Hi. unfold status_settings.
  destruct key; try done;
    repeat (first [ rewrite lookup_insert_eq | rewrite lookup_insert_ne by done ]);
    eauto.
Qed.

(** C10, at the input where the code departs from it.  The fireplace is
    silent during [initialize] and answers the first poll.  After that
    first valid STATUS the live settings hold the room temperature and the
    timer flag, but no power, fan mode or desired temperature: [is_on],
    [fan] and [desired_temp] still fail with KeyError. *)
Theorem first_status_after_a_failed_start :
  let w := silent_then_answering in
  let begun := Controller.initialize example_message w (new_controller, start) in
  let polled := Controller._refresh_system example_message w true (state_of begun) in
  (exists r, status_received example_message w 1 = Some r)
  /\ Controller._system_settings (object_of polled) !! CURRENT_TEMP = Some (VInt 19)
  /\ Controller._system_settings (object_of polled) !! HAS_NEW_TIMERS = Some (VBool false)
  /\ Controller._system_settings (object_of polled) !! FIRE_IS_ON = None
  /\ Controller._system_settings (object_of polled) !! FAN_MODE = None
  /\ Controller._system_settings (object_of polled) !! DESIRED_TEMP = None
  /\ result_of (Controller.is_on (state_of polled)) = Raise (KeyError FIRE_IS_ON)
  /\ result_of (Controller.fan (state_of polled)) = Raise (KeyError FAN_MODE)
  /\ result_of (Controller.desired_temp w (state_of polled))
     = Raise (KeyError DESIRED_TEMP)
  /\ result_of (Controller.current_temp w (state_of polled)) = Ok (inject_Z 19).
Proof.
  cbv zeta. repeat split; try (vm_compute; reflexivity).
  eexists. vm_compute. reflexivity.
Qed.

(** ** Discovery *)

Lemma create_controller_fails uid ip :
  Controller.__init__ DiscoveryService.names uid ip
  = Raise (AttributeError "sending_lock").
Proof. reflexivity. Qed.

Lemma call_initialize_fails bm args controller d k :
  DiscoveryService.call_method bm "_initialize" args controller (d, k)
  = (Raise (AttributeError "_initialize"), (d, k), []).
Proof. reflexivity. Qed.

Lemma call_refresh_address_fails bm args controller d k :
  DiscoveryService.call_method bm "_refresh_address" args controller (d, k)
  = (Raise (AttributeError "_refresh_address"), (d, k), []).
Proof. reflexivity. Qed.

(** Whatever the reply, [_discovery_received] ends in an exception before
    it has changed or started anything. *)
Lemma discovery_received_raises bm data addr d k :
  exists e,
    is_TimeoutError e = false
    /\ DiscoveryService._discovery_received bm data addr (d, k) = (Raise e, (d, k), []).
Proof.
  unfold DiscoveryService._discovery_received, DiscoveryService._create_controller.
  mrun. destruct (DiscoveryService.unpack_addr addr) as [ip|e] eqn:Hip; mrun.
  - destruct (DiscoveryService._controllers d !! serial_number data) as [c|]; mrun.
    + rewrite call_refresh_address_fails. eexists. split; [|reflexivity]. reflexivity.
    + rewrite create_controller_fails. eexists. split; [|reflexivity]. reflexivity.
  - exists e. split; [|reflexivity].
    destruct addr as [s|s p]; [|discriminate].
    destruct s as [|a [|b [|c s]]]; cbn in Hip; by simplify_eq.
Qed.

Lemma run_for_each_listeners cb uid (ls : list Listener.t) d k :
  DiscoveryService.for_each ls (fun l => emit (Call_listener l cb uid)) (d, k)
  = (Ok tt, (d, k), map (fun l => Call_listener l cb uid) ls).
Proof.
  induction ls as [|l ls IH]; [reflexivity|].
  cbn [DiscoveryService.for_each map]. rewrite run_bind, run_emit. fields.
  rewrite IH. reflexivity.
Qed.

(** The end of the coroutine, lines 303-304, does what C2 says: once the
    controller is in the map, [controller_discovered] calls every listener,
    in the order of the list. *)
Lemma controller_discovered_tells_every_listener ctrl uid ip d k :
  Controller._system_settings ctrl !! DEVICE_UID = Some uid ->
  Controller._system_settings ctrl !! IP_ADDRESS = Some ip ->
  DiscoveryService.controller_discovered ctrl (d, k)
  = (Ok tt, (d, k),
     Log INFO
     :: map (fun l => Call_listener l Listener.controller_discovered (Some uid))
          (DiscoveryService._listeners d)).
Proof.
  intros Hu Hi.
  unfold DiscoveryService.controller_discovered, DiscoveryService.call_listeners,
    DiscoveryService.ctrl_setting.
  rewrite Hu, Hi. mrun. rewrite run_for_each_listeners. reflexivity.
Qed.

(** C2, what the code does with a new serial.  A reply with a serial that
    is not in the controllers map ends [_discovery_received] in an exception:
    the constructor of Controller asks the discovery service for a
    [sending_lock], which it does not have.  The map is as before, no task is
    started and no listener is called.  The coroutine that would follow
    fares no better: it calls [_initialize] on the controller, a name class
    Controller does not bind, so nothing is inserted and nobody is told. *)
Theorem new_serial_is_never_registered
    (bm : string -> list DictValue -> Controller.t -> M DiscoveryService.t Controller.t)
    (d : DiscoveryService.t) (k : Cursor) (data : FireplaceMessage)
    (device_ip : string) (port : Z) :
  DiscoveryService._controllers d !! serial_number data = None ->
  DiscoveryService._discovery_received bm data (AddrPair device_ip port) (d, k)
  = (Raise (AttributeError "sending_lock"), (d, k), [])
  /\ forall controller,
       DiscoveryService.initialize_controller bm controller
         (serial_number data) device_ip (d, k)
       = (Raise (AttributeError "_initialize"), (d, k), []).
Proof.
  intros Hnew. split.
  - unfold DiscoveryService._discovery_received, DiscoveryService._create_controller.
    cbn [DiscoveryService.unpack_addr]. mrun. rewrite create_controller_fails.
    reflexivity.
  - intros controller. unfold DiscoveryService.initialize_controller.
    mrun. rewrite call_initialize_fails. reflexivity.
Qed.

(** The reply of fireplace 17 from 192.168.0.111, with no controller known. *)
Lemma new_serial_witness :
  DiscoveryService._discovery_received no_method i_am_a_fire
    (AddrPair example_ip 3300) (example_discovery, start)
  = (Raise (AttributeError "sending_lock"), (example_discovery, start), []).
Proof.
  apply (new_serial_is_never_registered no_method example_discovery start
           i_am_a_fire example_ip 3300).
  reflexivity.
Defined.

(** Every run of [_send_broadcast]: one probe, and the service as it was. *)
Lemma run_send_broadcast w bm d k :
  exists r,
    DiscoveryService._send_broadcast w bm (d, k)
    = (r, (d, sent k), [Log DEBUG; Send SEARCH_FOR_FIRES None]).
Proof.
  unfold DiscoveryService._send_broadcast.
  mrun. destruct (net w (sends k) SEARCH_FOR_FIRES) as [l|f]; fields.
  - destruct l as [|[addr data] rest]; cbn [DiscoveryService.for_each]; mrun.
    + eexists. reflexivity.
    + destruct (discovery_received_raises bm data addr d (sent k)) as (e & He & Hrun).
      cbn [fst snd]. rewrite Hrun. fields. rewrite He. eexists. reflexivity.
  - destruct f; cbn [exn_of_failure is_TimeoutError]; mrun; eexists; reflexivity.
Qed.

(** C3, what the code does.  [start_discovery] makes one broadcast probe
    and returns or raises; the discovery service is as before, its list of
    tasks included, and no task is started, the scan loop no more than any
    other. *)
Theorem start_discovery_only_probes
    (w : World)
    (bm : string -> list DictValue -> Controller.t -> M DiscoveryService.t Controller.t)
    (d : DiscoveryService.t) (k : Cursor) :
  let run := DiscoveryService.start_discovery w bm (d, k) in
  wire (output_of run) = [SEARCH_FOR_FIRES]
  /\ tasks_created (output_of run) = []
  /\ state_of run = (d, sent k).
Proof.
  cbv zeta. unfold DiscoveryService.start_discovery.
  destruct (run_send_broadcast w bm d k) as [r ->]. repeat split.
Qed.

(** The scan loop, had it been started, does not end as long as
    [_close_task] is None. *)
Lemma scan_loop_needs_close_task w bm fuel d k :
  DiscoveryService._close_task d = None ->
  result_of (DiscoveryService._scan_loop w bm fuel (d, k)) <> Ok true.
Proof.
  intros Hc. revert k. induction fuel as [|n IH]; intros k.
  - discriminate.
  - cbn [DiscoveryService._scan_loop]. unfold DiscoveryService._scan_loop_pass.
    destruct (run_send_broadcast w bm d k) as [r Hr].
    mrun. rewrite Hr. destruct r as [[]|e]; fields; [|discriminate].
    mrun. specialize (IH (sent k)).
    destruct (DiscoveryService._scan_loop w bm n (d, sent k)) as [[r1 s1] o1].
    fields. exact IH.
Qed.

(** [close] does not touch the discovery service: [_close_task] stays as it
    is. *)
Lemma close_leaves_close_task d k :
  object_of (DiscoveryService.close (d, k)) = d.
Proof.
  unfold DiscoveryService.close. mrun.
  destruct (DiscoveryService._tasks d); mrun; reflexivity.
Qed.

(** ** Relations that a call respects *)

Section Preserved.
Context (R : relation Controller.t) `{!PreOrder R}.

Lemma preserves_unchanged {A} (m : M Controller.t A) :
  (forall c k, object_of (m (c, k)) = c) -> preserves R m.
Proof. intros H c k. rewrite H. reflexivity. Qed.

Lemma preserves_ret {A} (a : A) : preserves R (ret a).
Proof. by apply preserves_unchanged. Qed.

Lemma preserves_raise {A} e : preserves R (raise (A:=A) e).
Proof. by apply preserves_unchanged. Qed.

Lemma preserves_emit e : preserves R (emit e).
Proof. by apply preserves_unchanged. Qed.

Lemma preserves_get : preserves R get.
Proof. by apply preserves_unchanged. Qed.

Lemma preserves_time w : preserves R (time w).
Proof. by apply preserves_unchanged. Qed.

Lemma preserves_of_result {A} (r : result A) : preserves R (of_result r).
Proof. by apply preserves_unchanged. Qed.

Lemma preserves_send w cmd payload : preserves R (datagram_send w cmd payload).
Proof.
  apply preserves_unchanged. intros c k. rewrite run_send.
  by destruct (net w (sends k) cmd).
Qed.

Lemma preserves_attr {A} name (field : Controller.t -> option A) :
  preserves R (Controller.attr name field).
Proof.
  apply preserves_unchanged. intros c k. rewrite run_attr. by destruct (field c).
Qed.

Lemma preserves_setting key : preserves R (Controller.setting key).
Proof.
  apply preserves_unchanged. intros c k. rewrite run_setting.
  by destruct (Controller._system_settings c !! key).
Qed.

Lemma preserves_modify f : (forall c, R c (f c)) -> preserves R (modify f).
Proof. intros H c k. apply H. Qed.

Lemma preserves_bind {A B} (m : M Controller.t A) (f : A -> M Controller.t B) :
  preserves R m -> (forall a, preserves R (f a)) -> preserves R (bind m f).
Proof.
  intros Hm Hf c k. rewrite run_bind. specialize (Hm c k).
  destruct (m (c, k)) as [[[a|e] [c1 k1]] o1]; [|exact Hm].
  specialize (Hf a c1 k1). destruct (f a (c1, k1)) as [[r [c2 k2]] o2].
  fields. by etrans.
Qed.

Lemma preserves_try {A} (m h : M Controller.t A) handles :
  preserves R m -> preserves R h -> preserves R (try_except m handles h).
Proof.
  intros Hm Hh c k. rewrite run_try. specialize (Hm c k).
  destruct (m (c, k)) as [[[a|e] [c1 k1]] o1]; [exact Hm|].
  destruct (handles e); [|exact Hm].
  specialize (Hh c1 k1). destruct (h (c1, k1)) as [[r [c2 k2]] o2].
  fields. by etrans.
Qed.
End Preserved.

Create HintDb kept.
#[local] Hint Extern 1 (preserves _ _) =>
  first [ apply preserves_ret | apply preserves_raise | apply preserves_emit
        | apply preserves_get | apply preserves_time | apply preserves_of_result
        | apply preserves_send | apply preserves_attr | apply preserves_setting ];
  apply _ : kept.
#[local] Hint Extern 1 (preserves _ (modify (Controller.set_state _))) =>
  apply preserves_modify; intros ?; apply bookkeeping_state : kept.
#[local] Hint Extern 1 (preserves _ (modify (Controller.set_last_response _))) =>
  apply preserves_modify; intros ?; apply bookkeeping_last_response : kept.
#[local] Hint Extern 1 (preserves _ (modify (Controller.set_busy_end_time _))) =>
  apply preserves_modify; intros ?; apply bookkeeping_busy_end_time : kept.
#[local] Hint Extern 1 (preserves _ (modify (Controller.set_last_update _))) =>
  apply preserves_modify; intros ?; apply bookkeeping_last_update : kept.
#[local] Hint Extern 1 (preserves _ (modify (fun c => Controller.set_prior_settings _ c))) =>
  apply preserves_modify; intros ?; apply bookkeeping_prior : kept.
#[local] Hint Extern 1 (preserves _ (Controller.store _ _)) =>
  apply preserves_modify; intros ?; apply storable; discriminate : kept.

Ltac kept_walk :=
  repeat first
    [ solve [auto with kept]
    | apply preserves_bind; [apply _ | | intros ?]
    | apply preserves_try; [apply _ | | ]
    | match goal with
      | |- preserves _ (if ?b then _ else _) => destruct b
      | |- preserves _ (match ?x with _ => _ end) => destruct x
      end ].

Section Kept.
Context (R : relation Controller.t) `{!Bookkeeping R}.
Variable msg : MessageModule.
Variable w : World.

Lemma preserves_send_checked cmd v : preserves R (Controller.send_checked msg w cmd v).
Proof. unfold Controller.send_checked. kept_walk. Qed.

Lemma preserves_request_status : preserves R (Controller._request_status msg w).
Proof. unfold Controller._request_status. kept_walk. Qed.

Lemma preserves_no_status prior : preserves R (Controller.no_status w prior).
Proof. unfold Controller.no_status. kept_walk. Qed.

Lemma preserves_notify_update : preserves R (Controller.notify_update w).
Proof. unfold Controller.notify_update. kept_walk. Qed.

Context `{!Storable R}.

Lemma preserves_set_with refresh state value sync :
  settable state -> preserves R refresh ->
  preserves R (Controller._set_system_state_with msg w refresh state value sync).
Proof.
  intros Hs Hr. pose proof preserves_send_checked as Hsc.
  unfold Controller._set_system_state_with.
  assert (preserves R (Controller.store state value)) as Hstore.
  { apply preserves_modify. intros c.
    apply storable; destruct Hs as [-> | [-> | ->]]; discriminate. }
  kept_walk.
Qed.

Lemma preserves_refresh notify : preserves R (Controller._refresh_system msg w notify).
Proof.
  pose proof preserves_request_status as Hrs.
  pose proof preserves_no_status as Hno.
  pose proof preserves_notify_update as Hnu.
  assert (forall state value, settable state ->
            preserves R (Controller._set_system_state_sync msg w state value)) as Hset.
  { intros state value Hs. apply preserves_set_with; [exact Hs | apply preserves_ret; apply _]. }
  pose proof (Hset DESIRED_TEMP) as Ht. pose proof (Hset FAN_MODE) as Hf.
  pose proof (Hset FIRE_IS_ON) as Ho. unfold settable in Ht, Hf, Ho.
  unfold Controller._refresh_system, Controller._refresh_system_with,
    Controller.reconcile.
  kept_walk.
Qed.

Lemma preserves_set_system_state state value sync :
  settable state -> preserves R (Controller._set_system_state msg w state value sync).
Proof.
  intros Hs. unfold Controller._set_system_state.
  apply preserves_set_with; [exact Hs | apply preserves_refresh].
Qed.
End Kept.

(** ** The identity of a controller *)

#[global] Instance same_identity_preorder : PreOrder same_identity.
Proof.
  split.
  - intros c. unfold same_identity. auto.
  - intros a b c (Hu & Hi & Hk) (Hu' & Hi' & Hk'). unfold same_identity.
    split; [congruence|]. split; [congruence | auto].
Qed.

#[global] Instance same_identity_bookkeeping : Bookkeeping same_identity.
Proof. split; [apply _ | ..]; intros ? []; unfold same_identity; fields; auto. Qed.

#[global] Instance same_identity_storable : Storable same_identity.
Proof.
  intros key v [] Hu Hi. unfold same_identity. fields.
  split; [by apply lookup_insert_ne|]. split; [by apply lookup_insert_ne|].
  intros key' H. apply lookup_insert_is_Some'. auto.
Qed.

#[global] Instance same_lifecycle_preorder : PreOrder same_lifecycle.
Proof.
  split.
  - intros c. unfold same_lifecycle. auto.
  - intros a b c (Hs & Hc & Hi) (Hs' & Hc' & Hi'). unfold same_lifecycle.
    split; [auto|]. split; congruence.
Qed.

#[global] Instance same_lifecycle_bookkeeping : Bookkeeping same_lifecycle.
Proof.
  split; [apply _ | ..]; intros ? []; unfold same_lifecycle, started; fields;
    (split; [intros (?&?&?&?&?); eauto 10 | auto]).
Qed.

#[global] Instance same_lifecycle_storable : Storable same_lifecycle.
Proof. intros key v [] _ _. unfold same_lifecycle, started. fields. auto. Qed.

#[global] Instance same_live_preorder : PreOrder same_live.
Proof.
  split.
  - by intros c.
  - intros a b c. unfold same_live. congruence.
Qed.

#[global] Instance same_live_bookkeeping : Bookkeeping same_live.
Proof. split; [apply _ | ..]; by intros ? []. Qed.

Lemma preserves_initialize R `{!Bookkeeping R} `{!Storable R} msg w :
  (forall b c, R c (Controller.set_closed b c)) ->
  (forall b c, R c (Controller.set_initialised b c)) ->
  preserves R (Controller.initialize msg w).
Proof.
  intros Hc Hi. pose proof (preserves_refresh R msg w) as Hr.
  assert (forall b, preserves R (modify (Controller.set_closed b))) as Hmc
    by (intros b; apply preserves_modify, Hc).
  assert (forall b, preserves R (modify (Controller.set_initialised b))) as Hmi
    by (intros b; apply preserves_modify, Hi).
  unfold Controller.initialize. kept_walk.
Qed.

Lemma preserves_poll_loop_pass R `{!Bookkeeping R} `{!Storable R} msg w :
  (forall b c, R c (Controller.set_closed b c)) ->
  preserves R (Controller._poll_loop_pass msg w).
Proof.
  intros Hc. pose proof (preserves_refresh R msg w) as Hr.
  assert (forall b, preserves R (modify (Controller.set_closed b))) as Hmc
    by (intros b; apply preserves_modify, Hc).
  unfold Controller._poll_loop_pass. kept_walk.
Qed.

Lemma preserves_poll_loop R `{!Bookkeeping R} `{!Storable R} msg w fuel :
  (forall b c, R c (Controller.set_closed b c)) ->
  preserves R (Controller._poll_loop msg w fuel).
Proof.
  intros Hc. pose proof (preserves_poll_loop_pass R msg w Hc) as Hp.
  induction fuel as [|n IH]; cbn [Controller._poll_loop]; kept_walk.
Qed.

(** X1. No setter, no refresh, no initialization, no [close] and no run of
    the poll loop changes the serial or the address in the live settings, and
    none takes an entry out of the live settings, however the call ends. *)
Theorem serial_and_address_are_kept (msg : MessageModule) (w : World) :
  (forall value, preserves same_identity (Controller.set_on msg w value))
  /\ (forall value, preserves same_identity (Controller.set_fan msg w value))
  /\ (forall value, preserves same_identity (Controller.set_desired_temp msg w value))
  /\ (forall notify, preserves same_identity (Controller._refresh_system msg w notify))
  /\ preserves same_identity (Controller.initialize msg w)
  /\ preserves same_identity Controller.close
  /\ (forall fuel, preserves same_identity (Controller._poll_loop msg w fuel)).
Proof.
  assert (forall b c, same_identity c (Controller.set_closed b c)) as Hc
    by (by intros b []).
  assert (forall b c, same_identity c (Controller.set_initialised b c)) as Hi
    by (by intros b []).
  split; [intros value; apply preserves_set_system_state; try apply _; unfold settable; auto|].
  split; [intros value; apply preserves_set_system_state; try apply _; unfold settable; auto|].
  split.
  { intros value. unfold Controller.set_desired_temp.
    destruct (_ || _); [apply preserves_emit; apply _|].
    apply preserves_set_system_state; try apply _. unfold settable. auto. }
  split; [intros notify; apply preserves_refresh; apply _|].
  split; [apply preserves_initialize; try apply _; assumption|].
  split; [apply preserves_modify; apply Hc|].
  intros fuel. apply preserves_poll_loop; try apply _. exact Hc.
Qed.

(** ** The poll loop *)

Lemma poll_pass_returns msg w c k :
  started c ->
  is_Some (Controller._system_settings c !! DEVICE_UID) ->
  is_Some (Controller._system_settings c !! IP_ADDRESS) ->
  let run := Controller._poll_loop_pass msg w (c, k) in
  exists slept,
    result_of run = Ok slept
    /\ started (object_of run)
    /\ (slept = None -> Controller._closed (object_of run) = Some true).
Proof.
  intros Hs Hu Hi. cbv zeta. unfold Controller._poll_loop_pass.
  pose proof Hs as (_ & _ & _ & _ & [cl Hcl]).
  rewrite run_bind, run_attr, Hcl. fields. destruct cl.
  { rewrite run_ret. fields. exists None. auto. }
  rewrite run_bind, run_try, run_bind.
  pose proof (preserves_refresh same_identity msg w true c k) as (Hu1 & Hi1 & _).
  pose proof (preserves_refresh same_lifecycle msg w true c k) as (Hs1 & _).
  specialize (Hs1 Hs).
  destruct (Controller._refresh_system msg w true (c, k)) as [[r [c1 k1]] o1].
  fields. rewrite <- Hu1 in Hu. rewrite <- Hi1 in Hi.
  destruct Hu as [uid Hu], Hi as [ip Hi].
  pose proof Hs1 as ([st Hst] & _ & [busy_end Hbe] & _).
  destruct r as [[]|e].
  - rewrite run_ret. fields. mrun.
    destruct st; mrun; eexists; (split; [reflexivity|]); (split; [exact Hs1 | discriminate]).
  - fields. mrun. exists None. split; [reflexivity|].
    split; [|reflexivity]. destruct c1. destruct Hs1 as (?&?&?&?&?).
    unfold started. fields. eauto 10.
Qed.

(** X2. On a controller that [initialize] has started and that has its
    serial and its address, the poll loop raises nothing, whatever the
    network and the clock do: it is still running after [fuel] passes or it
    has ended, and when it has ended [_closed] is true. *)
Theorem poll_loop_never_raises msg w fuel c k :
  started c ->
  is_Some (Controller._system_settings c !! DEVICE_UID) ->
  is_Some (Controller._system_settings c !! IP_ADDRESS) ->
  let run := Controller._poll_loop msg w fuel (c, k) in
  exists ended,
    result_of run = Ok ended
    /\ (ended = true -> Controller._closed (object_of run) = Some true).
Proof.
  cbv zeta. revert c k. induction fuel as [|n IH]; intros c k Hs Hu Hi.
  - exists false. split; [reflexivity | discriminate].
  - cbn [Controller._poll_loop]. rewrite run_bind.
    destruct (poll_pass_returns msg w c k Hs Hu Hi) as (slept & Hr & Hs1 & Hcl).
    assert (same_identity c (object_of (Controller._poll_loop_pass msg w (c, k))))
      as (Hu1 & Hi1 & _).
    { apply preserves_poll_loop_pass; try apply _. by intros b []. }
    destruct (Controller._poll_loop_pass msg w (c, k)) as [[r [c1 k1]] o1].
    fields. subst r. rewrite <- Hu1 in Hu. rewrite <- Hi1 in Hi.
    destruct slept as [q|].
    + destruct (IH c1 k1 Hs1 Hu Hi) as (ended & Hr & Hend).
      destruct (Controller._poll_loop msg w n (c1, k1)) as [[r2 [c2 k2]] o2].
      fields. exists ended. auto.
    + rewrite run_ret. fields. exists true. auto.
Qed.

(** Three passes over [ready_controller] with a datagram layer that fails
    with an OSError. *)
Lemma poll_loop_never_raises_witness :
  exists ended,
    result_of (Controller._poll_loop example_message
                 (scripted [Fails (other_error "OSError")] [1000%Q]) 3
                 (ready_controller, start)) = Ok ended
    /\ (ended = true ->
        Controller._closed
          (object_of (Controller._poll_loop example_message
                        (scripted [Fails (other_error "OSError")] [1000%Q]) 3
                        (ready_controller, start))) = Some true).
Proof.
  apply (poll_loop_never_raises example_message
           (scripted [Fails (other_error "OSError")] [1000%Q]) 3
           ready_controller start).
  - repeat split; eexists; vm_compute; reflexivity.
  - eexists; vm_compute; reflexivity.
  - eexists; vm_compute; reflexivity.
Defined.

(** X3. After [close] the poll loop ends at its next test of [_closed]:
    it sends nothing, sleeps no more and leaves the controller as [close]
    left it. *)
Theorem close_ends_the_poll_loop msg w fuel c k :
  let closed := state_of (Controller.close (c, k)) in
  Controller._poll_loop msg w (S fuel) closed = (Ok true, closed, []).
Proof.
  cbv zeta. unfold Controller.close. rewrite run_modify. fields.
  cbn [Controller._poll_loop]. unfold Controller._poll_loop_pass.
  destruct c. fields. mrun. reflexivity.
Qed.

(** X4. Outside READY an unforced [_set_system_state] with a new value
    stores the value in the live settings and returns: it logs one record,
    sends nothing, and the getter then returns the value. *)
(** ** Setters outside READY *)

Theorem setter_outside_ready_is_buffered msg w c k state value cached uid st :
  Controller._system_settings c !! state = Some cached ->
  py_eqb cached value = false ->
  Controller._system_settings c !! DEVICE_UID = Some uid ->
  Controller._state c = Some st ->
  st <> READY ->
  let run := Controller._set_system_state msg w state value false (c, k) in
  run = (Ok tt,
         (Controller.set_system_settings
            (<[state := value]> (Controller._system_settings c)) c, k),
         [Log DEBUG])
  /\ Controller._get_system_state state (state_of run) = (Ok value, state_of run, []).
Proof.
  intros Hc Hne Hu Hs Hst. cbv zeta.
  assert (Controller._set_system_state msg w state value false (c, k)
          = (Ok tt,
             (Controller.set_system_settings
                (<[state := value]> (Controller._system_settings c)) c, k),
             [Log DEBUG])) as ->.
  { unfold Controller._set_system_state, Controller._set_system_state_with.
    destruct c. fields. mrun.
    rewrite (bool_decide_eq_true_2 (st <> READY)) by exact Hst. mrun. reflexivity. }
  split; [reflexivity|].
  unfold Controller._get_system_state. destruct c. fields.
  rewrite run_setting. fields. by rewrite lookup_insert_eq.
Qed.

(** [_set_system_state(DESIRED_TEMP, 25)] in the busy window. *)
Lemma setter_outside_ready_witness :
  Controller._set_system_state example_message (scripted [] [1010%Q])
    DESIRED_TEMP (VInt 25) false (busy_controller, start)
  = (Ok tt,
     (Controller.set_system_settings
        (<[DESIRED_TEMP := VInt 25]> (Controller._system_settings busy_controller))
        busy_controller, start),
     [Log DEBUG]).
Proof.
  apply (setter_outside_ready_is_buffered example_message (scripted [] [1010%Q])
           busy_controller start DESIRED_TEMP (VInt 25) (VInt 20) (VStr example_uid) BUSY).
  - vm_compute. reflexivity.
  - vm_compute. reflexivity.
  - vm_compute. reflexivity.
  - vm_compute. reflexivity.
  - discriminate.
Defined.

(** ** Polls in READY *)

Lemma run_notify_update w c k last :
  Controller._last_update c = Some last ->
  Controller.notify_update w (c, k) =
  let live := Controller._system_settings c in
  if Controller.changes_found live (Controller._prior_settings c)
  then (Ok tt,
        (Controller.set_prior_settings live
           (Controller.set_last_update (clock w (reads k)) c), read k),
        [Call_discovery Listener.controller_update])
  else if Qltb NOTIFY_REFRESH_INTERVAL (clock w (reads k) - last)%Q
  then (Ok tt,
        (Controller.set_prior_settings live
           (Controller.set_last_update (clock w (Datatypes.S (reads k))) c),
         read (read k)),
        [Call_discovery Listener.controller_update])
  else (Ok tt, (c, read k), []).
Proof.
  intros Hl. unfold Controller.notify_update. destruct c; fields. cbv zeta. mrun.
  destruct (Controller.changes_found _ _); mrun; [reflexivity|].
  destruct (Qltb _ _); mrun; reflexivity.
Qed.

(** The run of [_refresh_system] in READY, after the status exchange. *)
Lemma run_refresh_ready msg w (notify : bool) c k :
  Controller._state c = Some READY ->
  Controller._refresh_system msg w notify (c, k) =
  match Controller._request_status msg w (c, k) with
  | (Ok (Some r), (c1, k1), o1) =>
      if bool_decide (response_id r = STATUS)
      then
        let c2 :=
          Controller.set_system_settings
            (status_settings r (Controller._system_settings c1))
            (Controller.set_state READY c1) in
        if notify
        then match Controller.notify_update w (c2, k1) with
             | (res, s3, o3) => (res, s3, o1 ++ o3)
             end
        else (Ok tt, (c2, k1), o1)
      else match Controller.no_status w READY (c1, k1) with
           | (res, s3, o3) => (res, s3, o1 ++ o3)
           end
  | (Ok None, (c1, k1), o1) =>
      match Controller.no_status w READY (c1, k1) with
      | (res, s3, o3) => (res, s3, o1 ++ o3)
      end
  | (Raise e, s1, o1) => (Raise e, s1, o1)
  end.
Proof.
  intros Hs. unfold Controller._refresh_system, Controller._refresh_system_with.
  mrun. destruct (Controller._request_status msg w (c, k)) as [[[[r|]|e] [c1 k1]] o1];
    fields; try reflexivity.
  - case_bool_decide; fields; mrun.
    + destruct c1. cbv zeta. unfold status_settings.
      cbv [Controller.set_system_settings Controller.set_state]. fields.
      destruct notify; mrun.
      * match goal with |- context [Controller.notify_update w ?s] =>
          destruct (Controller.notify_update w s) as [[res s3] o3] end.
        rewrite ?app_nil_r. reflexivity.
      * rewrite ?app_nil_r. reflexivity.
    + match goal with |- context [Controller.no_status w READY ?s] =>
        destruct (Controller.no_status w READY s) as [[res s3] o3] end.
      reflexivity.
  - match goal with |- context [Controller.no_status w READY ?s] =>
      destruct (Controller.no_status w READY s) as [[res s3] o3] end.
    reflexivity.
Qed.

Lemma py_eqb_refl v : py_eqb v v = true.
Proof.
  destruct v as [s|z|q|b|f]; unfold py_eqb; cbn.
  - apply String.eqb_refl.
  - apply Qeq_bool_iff. reflexivity.
  - apply Qeq_bool_iff. reflexivity.
  - apply Qeq_bool_iff. reflexivity.
  - by apply bool_decide_eq_true_2.
Qed.

Lemma changes_found_same (m : gmap DictEntries DictValue) :
  Controller.changes_found m m = false.
Proof.
  unfold Controller.changes_found. apply not_true_iff_false. intros H.
  apply existsb_exists in H as [[key v] [Hin Hv]].
  apply list_elem_of_In, elem_of_map_to_list in Hin. cbn [fst snd] in Hv.
  rewrite Hin, py_eqb_refl in Hv. discriminate.
Qed.

Lemma status_received_request msg w c k r st :
  Controller._state c = Some st ->
  status_received msg w (sends k) = Some r ->
  response_id r = STATUS
  /\ Controller._request_status msg w (c, k)
     = (Ok (Some r),
        (Controller.set_last_response (clock w (reads k)) c, read (sent k)),
        [Send STATUS_PLEASE None]).
Proof.
  intros Hs Hr. rewrite (run_request_status _ _ _ _ _ Hs).
  unfold status_received, valid_response in *.
  destruct (net w (sends k) STATUS_PLEASE) as [l|f]; [|discriminate].
  destruct (first_response l) as [m|]; [|discriminate].
  case_bool_decide; [|discriminate]. case_bool_decide; [|discriminate].
  injection Hr as ->. auto.
Qed.

(** [changes_found]: some live entry is missing from the prior settings or
    has another value there. *)
Lemma changes_found_spec (live prior : gmap DictEntries DictValue) :
  Controller.changes_found live prior = true <->
  exists key v,
    live !! key = Some v
    /\ (prior !! key = None \/ exists p, prior !! key = Some p /\ py_eqb p v = false).
Proof.
  unfold Controller.changes_found. rewrite existsb_exists. split.
  - intros [[key v] [Hin Hv]].
    apply list_elem_of_In, elem_of_map_to_list in Hin. cbn [fst snd] in Hv.
    exists key, v. split; [exact Hin|].
    destruct (prior !! key) as [p|]; [|by left].
    right. exists p. split; [reflexivity|]. by apply negb_true_iff.
  - intros (key & v & Hl & Hp). exists (key, v). split.
    + by apply list_elem_of_In, elem_of_map_to_list.
    + cbn [fst snd]. destruct Hp as [-> | (p & -> & Hne)]; [reflexivity|].
      by rewrite Hne.
Qed.

(** X5. A refresh in READY that receives a STATUS copies it into the live
    settings and calls [controller_update] exactly when the live settings
    then hold an entry that the prior settings lack or hold with another
    value, or more than NOTIFY_REFRESH_INTERVAL has passed since the last
    update; after a call the prior settings are the live ones, and prior
    settings equal to the live ones are no change. *)
Theorem status_in_ready_is_reported_on_change msg w c k r last :
  Controller._state c = Some READY ->
  status_received msg w (sends k) = Some r ->
  Controller._last_update c = Some last ->
  let run := Controller._refresh_system msg w true (c, k) in
  let live := status_settings r (Controller._system_settings c) in
  let prior := Controller._prior_settings c in
  let changed := Controller.changes_found live prior in
  let overdue :=
    Qltb NOTIFY_REFRESH_INTERVAL (clock w (Datatypes.S (reads k)) - last)%Q in
  result_of run = Ok tt
  /\ Controller._system_settings (object_of run) = live
  /\ callbacks (output_of run)
     = (if changed || overdue then [Listener.controller_update] else [])
  /\ Controller._prior_settings (object_of run)
     = (if changed || overdue then live else prior)
  /\ (changed = true <->
      exists key v,
        live !! key = Some v
        /\ (prior !! key = None
            \/ exists p, prior !! key = Some p /\ py_eqb p v = false))
  /\ (overdue = true <->
      (NOTIFY_REFRESH_INTERVAL < clock w (Datatypes.S (reads k)) - last)%Q)
  /\ (prior = live -> changed = false).
Proof.
  intros Hs Hr Hl. cbv zeta.
  destruct (status_received_request msg w c k r READY Hs Hr) as [Hid Hreq].
  rewrite (run_refresh_ready _ _ _ _ _ Hs), Hreq.
  rewrite (bool_decide_eq_true_2 _ Hid). cbv zeta.
  erewrite run_notify_update by (destruct c; exact Hl).
  destruct c as [live prior ini st lr be lu cl]. fields. cbv zeta. fields.
  cbn [read sent reads sends].
  split.
  { destruct (Controller.changes_found _ _); [reflexivity|].
    destruct (Qltb _ _); reflexivity. }
  split.
  { destruct (Controller.changes_found _ _); [reflexivity|].
    destruct (Qltb _ _); reflexivity. }
  split.
  { destruct (Controller.changes_found _ _); [reflexivity|].
    destruct (Qltb _ _); reflexivity. }
  split.
  { destruct (Controller.changes_found _ _); [reflexivity|].
    destruct (Qltb _ _); reflexivity. }
  split; [apply changes_found_spec|].
  split; [apply Qltb_lt|].
  intros ->. apply changes_found_same.
Qed.

(** A STATUS that shows 21 degrees wanted, where the live settings have 20. *)
Lemma status_in_ready_witness :
  callbacks
    (output_of
       (Controller._refresh_system example_message
          (scripted [status_reply false true false 21 18] [1000%Q]) true
          (ready_controller, start)))
  = [Listener.controller_update].
Proof.
  pose proof (status_in_ready_is_reported_on_change example_message
                (scripted [status_reply false true false 21 18] [1000%Q])
                ready_controller start
                {| response_id := STATUS; serial_number := example_uid;
                   has_new_timers := false; fire_is_on := false;
                   fan_boost_is_on := true; flame_effect := false;
                   desired_temp := 21; current_temp := 18 |}
                0%Q eq_refl eq_refl eq_refl) as (_ & _ & H & _).
  exact H.
Defined.

(** X6. A refresh outside BUSY whose status request gets no valid reply
    returns normally; the new state is NON_RESPONSIVE while the last valid
    reply is less than RETRY_TIMEOUT behind the clock and DISCONNECTED
    otherwise, and [controller_disconnected] is called exactly on entering
    DISCONNECTED from another state. *)
Theorem failed_poll_sets_the_state_by_the_silence msg w notify c k st last :
  Controller._state c = Some st ->
  st <> BUSY ->
  Controller._last_response c = Some last ->
  reply_valid msg w (sends k) STATUS_PLEASE = false ->
  reply_breaks w (sends k) STATUS_PLEASE = None ->
  let silence := (clock w (reads k) - last)%Q in
  Controller._refresh_system msg w notify (c, k)
  = (Ok tt,
     (Controller.set_state
        (if Qltb silence RETRY_TIMEOUT then NON_RESPONSIVE else DISCONNECTED) c,
      read (sent k)),
     Send STATUS_PLEASE None
     :: (if Qltb silence RETRY_TIMEOUT then []
         else if bool_decide (st <> DISCONNECTED)
              then [Call_discovery Listener.controller_disconnected]
              else [])).
Proof.
  intros Hs Hnb Hl Hv Hb. cbv zeta.
  unfold reply_valid, reply_breaks in *.
  unfold Controller._refresh_system, Controller._refresh_system_with.
  rewrite run_bind, run_attr, Hs. fields.
  rewrite (bool_decide_eq_false_2 (st = BUSY)) by exact Hnb.
  mrun. rewrite (run_request_status _ _ _ _ _ Hs).
  assert (Controller._last_response (unanswered st c) = Some last) as Hl'.
  { unfold unanswered. case_bool_decide; destruct c; exact Hl. }
  assert (forall s, Controller.set_state s (unanswered st c) = Controller.set_state s c)
    as Hset.
  { intros s. unfold unanswered. case_bool_decide; destruct c; reflexivity. }
  destruct (net w (sends k) STATUS_PLEASE) as [l|f].
  - rewrite Hv. fields. rewrite (run_no_status _ _ _ _ _ Hl'). rewrite !Hset.
    cbn [sent reads]. destruct (Qltb _ _); reflexivity.
  - destruct f; try discriminate. fields.
    rewrite (run_no_status _ _ _ _ _ Hl'). rewrite !Hset.
    cbn [sent reads]. destruct (Qltb _ _); reflexivity.
Qed.

(** A poll without a reply, 70 seconds after the last valid one. *)
Lemma failed_poll_witness :
  Controller._state
    (object_of (Controller._refresh_system example_message
                  (scripted [Responses []] [1070%Q]) true (ready_controller, start)))
  = Some DISCONNECTED.
Proof.
  pose proof (failed_poll_sets_the_state_by_the_silence example_message
                (scripted [Responses []] [1070%Q]) true ready_controller start
                READY 1000%Q) as H.
  cbv zeta in H. rewrite H.
  - reflexivity.
  - vm_compute. reflexivity.
  - discriminate.
  - vm_compute. reflexivity.
  - vm_compute. reflexivity.
  - vm_compute. reflexivity.
Defined.

(** ** The power command *)

Lemma refresh_ready_returns msg w (notify : bool) c k last updated :
  Controller._state c = Some READY ->
  Controller._last_response c = Some last ->
  Controller._last_update c = Some updated ->
  reply_breaks w (sends k) STATUS_PLEASE = None ->
  result_of (Controller._refresh_system msg w notify (c, k)) = Ok tt.
Proof.
  intros Hs Hl Hu Hb. unfold reply_breaks in Hb.
  rewrite (run_refresh_ready _ _ _ _ _ Hs), (run_request_status _ _ _ _ _ Hs).
  assert (forall c0 k0, Controller._last_response c0 <> None ->
            result_of (match Controller.no_status w READY (c0, k0) with
                       | (res, s3, o3) => (res, s3, [Send STATUS_PLEASE None] ++ o3)
                       end) = Ok tt) as Hno.
  { intros c0 k0 H0. destruct (Controller._last_response c0) as [l0|] eqn:E; [|done].
    rewrite (run_no_status _ _ _ _ _ E). by destruct (Qltb _ _). }
  assert (Controller._last_response (unanswered READY c) <> None) as Hl'.
  { unfold unanswered. case_bool_decide; destruct c; fields; congruence. }
  destruct (net w (sends k) STATUS_PLEASE) as [l|f].
  - unfold valid_response. destruct (first_response l) as [m|]; [|by apply Hno].
    case_bool_decide; [|by apply Hno].
    case_bool_decide; [|apply Hno; by destruct c].
    cbv zeta. destruct notify; [|reflexivity].
    erewrite run_notify_update by (destruct c; exact Hu).
    cbv zeta. destruct (Controller.changes_found _ _); [reflexivity|].
    by destruct (Qltb _ _).
  - destruct f; try discriminate. by apply Hno.
Qed.

(** A status request in READY that ends in another exception. *)
Lemma refresh_ready_breaks msg w (notify : bool) c k e :
  Controller._state c = Some READY ->
  reply_breaks w (sends k) STATUS_PLEASE = Some e ->
  Controller._refresh_system msg w notify (c, k)
  = (Raise e, (c, sent k), [Send STATUS_PLEASE None]).
Proof.
  intros Hs Hb. unfold reply_breaks in Hb.
  rewrite (run_refresh_ready _ _ _ _ _ Hs), (run_request_status _ _ _ _ _ Hs).
  destruct (net w (sends k) STATUS_PLEASE) as [l|f]; [discriminate|].
  destruct f; try discriminate; injection Hb as <-; reflexivity.
Qed.

(** X7. [set_on] in READY with a new value, acknowledged by the fireplace,
    sends the power command and one status request.  When that request does
    not end in an exception other than ConnectionError, the setter returns in
    BUSY, with the busy window ending ON_OFF_BUSY_WAIT_TIME after the last
    reading of the clock.  When it does, the setter raises that exception:
    the state is still READY and no busy window has started. *)
Theorem acknowledged_power_command_starts_the_busy_window
    msg w c k (value : bool) cached uid updated :
  Controller._state c = Some READY ->
  Controller._system_settings c !! FIRE_IS_ON = Some cached ->
  py_eqb cached (VBool value) = false ->
  Controller._system_settings c !! DEVICE_UID = Some uid ->
  Controller._last_update c = Some updated ->
  let command := if value then POWER_ON else POWER_OFF in
  reply_valid msg w (sends k) command = true ->
  let run := Controller.set_on msg w value (c, k) in
  wire (output_of run) = [command; STATUS_PLEASE]
  /\ match reply_breaks w (Datatypes.S (sends k)) STATUS_PLEASE with
     | None =>
         result_of run = Ok tt
         /\ Controller._state (object_of run) = Some BUSY
         /\ exists n,
              reads (snd (state_of run)) = Datatypes.S n
              /\ Controller._busy_end_time (object_of run)
                 = Some (clock w n + ON_OFF_BUSY_WAIT_TIME)%Q
     | Some e =>
         result_of run = Raise e
         /\ Controller._state (object_of run) = Some READY
         /\ Controller._busy_end_time (object_of run) = Controller._busy_end_time c
     end.
Proof.
  intros Hs Hc Hne Hu Hup. cbv zeta. intros Hv. unfold reply_valid in Hv.
  unfold Controller.set_on, Controller._set_system_state,
    Controller._set_system_state_with.
  cbn [Controller.first_command py_truth].
  destruct c as [live prior ini st lr be lu cl]. fields. subst st lu. mrun.
  rewrite (run_send_checked msg w _ (VBool value) _ k uid)
    by (fields; rewrite lookup_insert_ne by done; exact Hu).
  destruct (net w (sends k) (if value then POWER_ON else POWER_OFF)) as [l|f];
    [|discriminate].
  rewrite Hv. fields. mrun.
  destruct (reply_breaks w (Datatypes.S (sends k)) STATUS_PLEASE) as [e|] eqn:Hb.
  - match goal with |- context [Controller._refresh_system msg w true (?c1, ?k1)] =>
      rewrite (refresh_ready_breaks msg w true c1 k1 e eq_refl Hb)
    end.
    fields. outs. auto.
  - match goal with |- context [Controller._refresh_system msg w true (?c1, ?k1)] =>
      pose proof (refresh_ready_returns msg w true c1 k1 _ updated
                    eq_refl eq_refl eq_refl Hb) as Hret;
      destruct (refresh_ready msg w true c1 k1 eq_refl) as [Hw _];
      destruct (Controller._refresh_system msg w true (c1, k1)) as [[r [c2 k2]] o2]
    end.
    fields. subst r. fields. mrun. outs. rewrite Hw.
    destruct c2. fields.
    split; [reflexivity|]. split; [reflexivity|]. split; [reflexivity|].
    exists (reads k2). split; reflexivity.
Qed.

(** [set_on(True)] on [ready_controller], acknowledged. *)
Lemma acknowledged_power_command_witness :
  Controller._state
    (object_of (Controller.set_on example_message
                  (scripted [ack POWER_ON; status_reply true true false 20 18] [1000%Q])
                  true (ready_controller, start)))
  = Some BUSY.
Proof.
  pose proof (acknowledged_power_command_starts_the_busy_window example_message
                (scripted [ack POWER_ON; status_reply true true false 20 18] [1000%Q])
                ready_controller start true (VBool false) (VStr example_uid) 0%Q
                eq_refl eq_refl eq_refl eq_refl eq_refl eq_refl)
    as (_ & H).
  exact (proj1 (proj2 H)).
Defined.

(** ** What the user set *)

#[global] Instance same_user_settings_preorder : PreOrder same_user_settings.
Proof.
  split.
  - by intros c key _ _.
  - intros a b c Hab Hbc key H1 H2. rewrite (Hbc key H1 H2). by apply Hab.
Qed.

#[global] Instance same_user_settings_bookkeeping : Bookkeeping same_user_settings.
Proof. split; [apply _ | ..]; by intros ? [] key _ _. Qed.

Lemma preserves_weaken {A} (R R' : relation Controller.t) (m : M Controller.t A) :
  (forall c c', R c c' -> R' c c') -> preserves R m -> preserves R' m.
Proof. intros H Hm c k. apply H, Hm. Qed.

Lemma status_settings_forgets r state v (m : gmap DictEntries DictValue) :
  settable state -> status_settings r (<[state := v]> m) = status_settings r m.
Proof.
  intros Hs. apply map_eq. intros key. unfold status_settings.
  destruct Hs as [-> | [-> | ->]]; destruct key;
    repeat (first [ rewrite lookup_insert_eq | rewrite lookup_insert_ne by done ]);
    reflexivity.
Qed.

(** X8. In READY a setter whose first command gets no valid reply stores
    the value and returns with the state unchanged.  The next refresh sends
    the status request only, and a STATUS it receives leaves the live
    settings as if the setter had not been called. *)
Theorem unanswered_command_is_not_retried msg w c k state value cached uid command :
  Controller._state c = Some READY ->
  Controller._system_settings c !! state = Some cached ->
  py_eqb cached value = false ->
  Controller._system_settings c !! DEVICE_UID = Some uid ->
  Controller.first_command state value = Ok (Some command) ->
  reply_valid msg w (sends k) command = false ->
  reply_breaks w (sends k) command = None ->
  let run := Controller._set_system_state msg w state value false (c, k) in
  let new := <[state := value]> (Controller._system_settings c) in
  let poll := Controller._refresh_system msg w true (state_of run) in
  run = (Ok tt, (Controller.set_system_settings new c, sent k),
         [Log DEBUG; Send command (Some value)])
  /\ wire (output_of poll) = [STATUS_PLEASE]
  /\ forall r, status_received msg w (Datatypes.S (sends k)) = Some r ->
       Controller._system_settings (object_of poll)
       = status_settings r (Controller._system_settings c).
Proof.
  intros Hs Hc Hne Hu Hcmd Hv Hb. cbv zeta.
  assert (settable state) as Hset.
  { unfold settable. destruct state; try discriminate; auto. }
  assert (Controller._set_system_state msg w state value false (c, k)
          = (Ok tt,
             (Controller.set_system_settings
                (<[state := value]> (Controller._system_settings c)) c, sent k),
             [Log DEBUG; Send command (Some value)])) as ->.
  { unfold Controller._set_system_state, Controller._set_system_state_with.
    unfold reply_valid, reply_breaks in *.
    destruct (uid_after_store (Controller._system_settings c) state value uid Hu)
      as [uid' Hu'].
    destruct c as [live prior ini st lr be lu cl]. fields. subst st. mrun.
    rewrite Hcmd. mrun.
    rewrite (run_send_checked msg w command value _ k uid') by exact Hu'.
    destruct (net w (sends k) command) as [l|f].
    - rewrite Hv. fields. mrun. reflexivity.
    - destruct f; try discriminate. fields. mrun. reflexivity. }
  fields.
  match goal with |- context [Controller._refresh_system msg w true (?c1, ?k1)] =>
    assert (Controller._state c1 = Some READY) as Hs1 by (destruct c; exact Hs);
    destruct (refresh_ready msg w true c1 k1 Hs1) as [Hw Hl]
  end.
  split; [reflexivity|]. split; [exact Hw|].
  intros r Hr. rewrite Hl. cbn [sent sends]. rewrite Hr.
  destruct c. fields. by apply status_settings_forgets.
Qed.

(** [set_desired_temp(25)] without a reply, then a poll that is answered. *)
Lemma unanswered_command_witness :
  wire (output_of
          (Controller._refresh_system example_message
             (scripted [Responses []; status_reply false true false 20 18] [1000%Q])
             true
             (state_of
                (Controller._set_system_state example_message
                   (scripted [Responses []; status_reply false true false 20 18]
                      [1000%Q])
                   DESIRED_TEMP (VInt 25) false (ready_controller, start)))))
  = [STATUS_PLEASE].
Proof.
  pose proof (unanswered_command_is_not_retried example_message
                (scripted [Responses []; status_reply false true false 20 18] [1000%Q])
                ready_controller start DESIRED_TEMP (VInt 25) (VInt 20)
                (VStr example_uid) NEW_SET_TEMP
                eq_refl eq_refl eq_refl eq_refl eq_refl eq_refl eq_refl)
    as (_ & H & _).
  exact H.
Defined.

Ltac after_send_checked msg w :=
  match goal with |- context [Controller.send_checked msg w ?cmd ?v (?c1, ?k1)] =>
    let H := fresh "Hsent" in
    pose proof (preserves_send_checked same_live msg w cmd v c1 k1) as H;
    destruct (Controller.send_checked msg w cmd v (c1, k1)) as [[[[]|?] [[] ?]] ?];
    unfold same_live in H; fields; mrun
  end.

(** Sending a setting as it stands leaves the live settings as they are. *)
Lemma resend_keeps_live msg w key :
  preserves same_live
    (let* v := Controller.setting key in
     Controller._set_system_state_sync msg w key v).
Proof.
  intros c k. unfold same_live. rewrite run_bind, run_setting.
  destruct (Controller._system_settings c !! key) as [v|] eqn:Hk; [|reflexivity].
  unfold Controller._set_system_state_sync, Controller._set_system_state_with.
  cbn [negb]. destruct c as [live prior ini st lr be lu cl]. fields. mrun.
  destruct (live !! DEVICE_UID); mrun; [|reflexivity].
  rewrite (insert_id live key v Hk).
  destruct (Controller.first_command key v) as [[cmd|]|e]; mrun; [| |reflexivity].
  - after_send_checked msg w; try congruence.
    case_bool_decide; mrun.
    + after_send_checked msg w; try congruence.
      case_bool_decide; mrun; fields; congruence.
    + case_bool_decide; mrun; fields; congruence.
  - case_bool_decide; mrun.
    + after_send_checked msg w; try congruence.
      case_bool_decide; mrun; fields; congruence.
    + case_bool_decide; mrun; fields; congruence.
Qed.

Lemma reconcile_keeps_live msg w prior r :
  preserves same_live
    (Controller.reconcile (Controller._set_system_state_sync msg w) prior r).
Proof.
  pose proof (resend_keeps_live msg w) as Hre.
  unfold Controller.reconcile. kept_walk.
Qed.

(** ** What a controller does to the outside *)

Section Emits.
Context {S : Type} (P : effect -> Prop).

Lemma emits_nothing {A} (m : M S A) :
  (forall s, output_of (m s) = []) -> emits_only P m.
Proof. intros H s. rewrite H. constructor. Qed.

Lemma emits_ret {A} (a : A) : emits_only P (ret (S:=S) a).
Proof. by apply emits_nothing. Qed.

Lemma emits_raise {A} e : emits_only P (raise (S:=S) (A:=A) e).
Proof. by apply emits_nothing. Qed.

Lemma emits_get : emits_only P (get (S:=S)).
Proof. by apply emits_nothing. Qed.

Lemma emits_modify f : emits_only P (modify (S:=S) f).
Proof. by apply emits_nothing. Qed.

Lemma emits_time w : emits_only P (time (S:=S) w).
Proof. by apply emits_nothing. Qed.

Lemma emits_of_result {A} (r : result A) : emits_only P (of_result (S:=S) r).
Proof. by apply emits_nothing. Qed.

Lemma emits_emit e : P e -> emits_only P (emit (S:=S) e).
Proof. intros He s. cbn. by repeat constructor. Qed.

Lemma emits_send w cmd payload :
  P (Send cmd payload) -> emits_only P (datagram_send (S:=S) w cmd payload).
Proof.
  intros He [x k]. rewrite run_send.
  destruct (net w (sends k) cmd); cbn; by repeat constructor.
Qed.

Lemma emits_bind {A B} (m : M S A) (f : A -> M S B) :
  emits_only P m -> (forall a, emits_only P (f a)) -> emits_only P (bind m f).
Proof.
  intros Hm Hf s. rewrite run_bind. specialize (Hm s).
  destruct (m s) as [[[a|e] s1] o1]; [|exact Hm].
  specialize (Hf a s1). destruct (f a s1) as [[r s2] o2].
  cbn in *. apply Forall_app. auto.
Qed.

Lemma emits_bind_value {A B} (m : M S A) (f : A -> M S B) :
  emits_only P m ->
  (forall a s, result_of (m s) = Ok a -> emits_only P (f a)) ->
  emits_only P (bind m f).
Proof.
  intros Hm Hf s. rewrite run_bind. specialize (Hm s).
  pose proof (fun a => Hf a s) as Hf'.
  destruct (m s) as [[[a|e] s1] o1]; [|exact Hm].
  specialize (Hf' a eq_refl s1). destruct (f a s1) as [[r s2] o2].
  cbn in *. apply Forall_app. auto.
Qed.

Lemma emits_bind_of_result {A B} (r : result A) (f : A -> M S B) :
  (forall a, r = Ok a -> emits_only P (f a)) -> emits_only P (bind (of_result r) f).
Proof.
  intros Hf. apply emits_bind_value; [apply emits_of_result|].
  intros a s Ha. by apply Hf.
Qed.

Lemma emits_try {A} (m h : M S A) handles :
  emits_only P m -> emits_only P h -> emits_only P (try_except m handles h).
Proof.
  intros Hm Hh s. rewrite run_try. specialize (Hm s).
  destruct (m s) as [[[a|e] s1] o1]; [exact Hm|].
  destruct (handles e); [|exact Hm].
  specialize (Hh s1). destruct (h s1) as [[r s2] o2].
  cbn in *. apply Forall_app. auto.
Qed.
End Emits.

Lemma emits_attr {A} P name (field : Controller.t -> option A) :
  emits_only P (Controller.attr name field).
Proof.
  apply emits_nothing. intros [c k]. rewrite run_attr. by destruct (field c).
Qed.

Lemma emits_setting P key : emits_only P (Controller.setting key).
Proof.
  apply emits_nothing. intros [c k]. rewrite run_setting.
  by destruct (Controller._system_settings c !! key).
Qed.

Lemma emits_store P key v : emits_only P (Controller.store key v).
Proof. by apply emits_nothing. Qed.

Create HintDb emitted.
#[local] Hint Resolve emits_ret emits_raise emits_get emits_modify emits_time
  emits_of_result emits_attr emits_setting emits_store : emitted.
#[local] Hint Extern 1 (emits_only controller_effect (emit _)) =>
  apply emits_emit; cbn; first [exact I | discriminate | apply Qle_refl] : emitted.

Ltac emits_walk :=
  repeat first
    [ solve [auto with emitted]
    | apply emits_bind; [|intros ?]
    | apply emits_try
    | match goal with
      | |- emits_only _ (if ?b then _ else _) => destruct b
      | |- emits_only _ (match ?x with _ => _ end) => destruct x
      end ].

Section Vocabulary.
Variable msg : MessageModule.
Variable w : World.

Lemma emits_send_checked cmd v :
  cmd <> SEARCH_FOR_FIRES -> cmd <> STATUS_PLEASE ->
  emits_only controller_effect (Controller.send_checked msg w cmd v).
Proof.
  intros H1 H2.
  assert (emits_only controller_effect (datagram_send (S:=Controller.t) w cmd (Some v)))
    as Hsend.
  { apply emits_send. cbn. split; [exact H1|]. split; [discriminate | done]. }
  unfold Controller.send_checked. emits_walk.
Qed.

Lemma emits_request_status :
  emits_only controller_effect (Controller._request_status msg w).
Proof.
  assert (emits_only controller_effect
            (datagram_send (S:=Controller.t) w STATUS_PLEASE None)) as Hsend.
  { apply emits_send. cbn. split; [discriminate|]. split; reflexivity. }
  unfold Controller._request_status. emits_walk.
Qed.

Lemma first_command_is_a_setter_command state value command :
  Controller.first_command state value = Ok (Some command) ->
  command <> SEARCH_FOR_FIRES /\ command <> STATUS_PLEASE.
Proof.
  destruct state; cbn; try discriminate.
  - destruct (py_truth value); intros [= <-]; split; discriminate.
  - repeat (destruct (py_eqb _ _)); intros [= <-]; split; discriminate.
  - intros [= <-]; split; discriminate.
Qed.

Lemma second_command_is_a_setter_command value :
  Controller.second_command value <> SEARCH_FOR_FIRES
  /\ Controller.second_command value <> STATUS_PLEASE.
Proof.
  unfold Controller.second_command.
  repeat (destruct (py_eqb _ _)); split; discriminate.
Qed.

Lemma emits_set_with refresh state value sync :
  emits_only controller_effect refresh ->
  emits_only controller_effect
    (Controller._set_system_state_with msg w refresh state value sync).
Proof.
  intros Hr.
  assert (emits_only controller_effect
            (Controller.send_checked msg w (Controller.second_command value) value))
    as Hsecond.
  { apply emits_send_checked; apply second_command_is_a_setter_command. }
  assert (forall command,
            Controller.first_command state value = Ok command ->
            emits_only controller_effect
              match command with
              | Some c => Controller.send_checked msg w c value
              | None => ret true
              end) as Hfirst.
  { intros [command|] Hcmd; [|apply emits_ret].
    apply first_command_is_a_setter_command in Hcmd as [H1 H2].
    by apply emits_send_checked. }
  unfold Controller._set_system_state_with.
  repeat first
    [ solve [auto with emitted]
    | apply emits_bind_of_result; intros ? Hcmd; specialize (Hfirst _ Hcmd)
    | apply emits_bind; [|intros ?]
    | match goal with
      | |- emits_only _ (if ?b then _ else _) => destruct b
      end ].
Qed.

Lemma emits_refresh notify :
  emits_only controller_effect (Controller._refresh_system msg w notify).
Proof.
  pose proof emits_request_status as Hrs.
  assert (forall state value,
            emits_only controller_effect
              (Controller._set_system_state_sync msg w state value)) as Hset.
  { intros state value. apply emits_set_with, emits_ret. }
  unfold Controller._refresh_system, Controller._refresh_system_with,
    Controller.reconcile, Controller.notify_update, Controller.no_status.
  emits_walk.
Qed.

Lemma emits_poll_loop_pass :
  emits_only controller_effect (Controller._poll_loop_pass msg w).
Proof.
  pose proof (emits_refresh true) as Hr.
  unfold Controller._poll_loop_pass.
  apply emits_bind; [emits_walk | intros closed]. destruct closed; [emits_walk|].
  apply emits_bind; [emits_walk | intros refreshed].
  destruct (negb refreshed); [emits_walk|].
  do 4 (apply emits_bind; [emits_walk | intros ?]).
  apply emits_bind_value; [emits_walk | intros q [c k] Hq].
  assert (0 <= q)%Q as Hpos.
  { destruct a1; try (injection Hq as <-; discriminate).
    rewrite run_bind, run_attr in Hq.
    destruct (Controller._busy_end_time c) as [busy_end|]; [|discriminate].
    fields. rewrite run_bind, run_time in Hq. fields. rewrite run_ret in Hq.
    fields. injection Hq as <-.
    destruct (Qltb _ _) eqn:E; [apply Qle_refl|].
    unfold Qltb in E. apply negb_false_iff, Qle_bool_iff in E. exact E. }
  apply emits_bind; [by apply emits_emit | intros ?; apply emits_ret].
Qed.

Lemma emits_poll_loop fuel :
  emits_only controller_effect (Controller._poll_loop msg w fuel).
Proof.
  pose proof emits_poll_loop_pass as Hp.
  induction fuel as [|n IH]; cbn [Controller._poll_loop]; emits_walk.
Qed.
End Vocabulary.

(** X10. The setters, a refresh and the poll loop send no discovery probe,
    send the status request without a payload and every other command with
    one, never call [controller_discovered], start no task, do not move the
    datagram layer to another address, and never sleep a negative time. *)
Theorem controller_keeps_to_its_effects (msg : MessageModule) (w : World) :
  (forall value, emits_only controller_effect (Controller.set_on msg w value))
  /\ (forall value, emits_only controller_effect (Controller.set_fan msg w value))
  /\ (forall value, emits_only controller_effect (Controller.set_desired_temp msg w value))
  /\ (forall notify, emits_only controller_effect (Controller._refresh_system msg w notify))
  /\ (forall fuel, emits_only controller_effect (Controller._poll_loop msg w fuel)).
Proof.
  assert (forall state value sync,
            emits_only controller_effect
              (Controller._set_system_state msg w state value sync)) as Hset.
  { intros state value sync. unfold Controller._set_system_state.
    apply emits_set_with. apply emits_refresh. }
  split; [intros value; apply Hset|]. split; [intros value; apply Hset|].
  split.
  { intros value. unfold Controller.set_desired_temp.
    destruct (_ || _); [by apply emits_emit | apply Hset]. }
  split; [apply emits_refresh | apply emits_poll_loop].
Qed.

(** ** What a reconnection sends *)

Lemma sent_with_app a b : sent_with (a ++ b) = sent_with a ++ sent_with b.
Proof. apply omap_app. Qed.

Lemma sent_with_cons e o :
  sent_with (e :: o)
  = match e with Send c p => (c, p) :: sent_with o | _ => sent_with o end.
Proof. by destruct e. Qed.

Ltac sends :=
  repeat (first [rewrite sent_with_cons | rewrite sent_with_app]; cbn beta iota).

Lemma py_eqb_int a b : py_eqb (VInt a) (VInt b) = (a =? b).
Proof.
  unfold py_eqb. cbn [py_number].
  destruct (Z.eqb_spec a b) as [->|Hne].
  - apply Qeq_bool_iff. reflexivity.
  - apply not_true_iff_false. intros H. apply Qeq_bool_iff in H.
    exact (Hne (proj1 (inject_Z_injective a b) H)).
Qed.

Lemma py_eqb_bool a b : py_eqb (VBool a) (VBool b) = Bool.eqb a b.
Proof. by destruct a, b. Qed.

Lemma py_eqb_fan a b : py_eqb (VFan a) (VFan b) = bool_decide (a = b).
Proof. reflexivity. Qed.

Lemma acknowledged_send msg w cmd v c k uid :
  acknowledging msg w -> cmd <> STATUS_PLEASE ->
  Controller._system_settings c !! DEVICE_UID = Some uid ->
  Controller.send_checked msg w cmd v (c, k)
  = (Ok true,
     (Controller.set_last_response (clock w (reads k)) c, read (sent k)),
     [Send cmd (Some v); Log DEBUG]).
Proof.
  intros Hack Hc Hu. rewrite (run_send_checked msg w cmd v c k uid Hu).
  specialize (Hack (sends k) cmd Hc). unfold reply_valid in Hack.
  destruct (net w (sends k) cmd) as [l|f]; [|discriminate]. by rewrite Hack.
Qed.

(** One setting of the reconciliation, sent again or not. *)
Lemma maybe_resend msg w state v (differs : bool) c k uid c1 :
  acknowledging msg w ->
  Controller._system_settings c !! DEVICE_UID = Some uid ->
  Controller._system_settings c !! state = Some v ->
  Controller.first_command state v = Ok (Some c1) ->
  exists c' k' o,
    (if differs
     then let* x := Controller.setting state in
          Controller._set_system_state_sync msg w state x
     else ret tt) (c, k) = (Ok tt, (c', k'), o)
    /\ Controller._system_settings c' = Controller._system_settings c
    /\ Controller._last_update c' = Controller._last_update c
    /\ Controller._prior_settings c' = Controller._prior_settings c
    /\ Controller._state c'
       = (if differs && bool_decide (state = FIRE_IS_ON)
          then Some BUSY else Controller._state c)
    /\ sent_with o
       = (if differs
          then (c1, Some v)
               :: (if bool_decide (state = FAN_MODE)
                   then [(Controller.second_command v, Some v)] else [])
          else [])
    /\ callbacks o = [].
Proof.
  intros Hack Hu Hs Hcmd. destruct differs.
  2: { exists c, k, []. cbn. auto 10. }
  pose proof (first_command_is_a_setter_command _ _ _ Hcmd) as [_ Hc1].
  pose proof (second_command_is_a_setter_command v) as [_ Hc2].
  rewrite run_bind, run_setting, Hs.
  unfold Controller._set_system_state_sync, Controller._set_system_state_with.
  cbn [negb]. rewrite Hcmd.
  destruct c as [live prior ini st lr be lu cl]. fields. mrun.
  rewrite (insert_id live state v Hs).
  rewrite (acknowledged_send msg w c1 v _ k uid Hack Hc1) by exact Hu.
  fields. mrun.
  case_bool_decide as Hfan; mrun.
  - subst state.
    rewrite (acknowledged_send msg w _ v _ _ uid Hack Hc2) by exact Hu.
    fields. mrun. eexists _, _, _. split; [reflexivity|]. fields. sends. outs.
    auto 10.
  - case_bool_decide as Hon; mrun.
    + eexists _, _, _. split; [reflexivity|]. fields. sends. outs. auto 10.
    + eexists _, _, _. split; [reflexivity|]. fields. sends. outs. auto 10.
Qed.

Lemma reconcile_acknowledged msg w prior r c k uid t f b :
  acknowledging msg w ->
  Controller._system_settings c !! DEVICE_UID = Some uid ->
  Controller._system_settings c !! DESIRED_TEMP = Some (VInt t) ->
  Controller._system_settings c !! FAN_MODE = Some (VFan f) ->
  Controller._system_settings c !! FIRE_IS_ON = Some (VBool b) ->
  exists c' k' o,
    Controller.reconcile (Controller._set_system_state_sync msg w) prior r (c, k)
    = (Ok tt, (c', k'), o)
    /\ Controller._system_settings c' = Controller._system_settings c
    /\ Controller._last_update c' = Controller._last_update c
    /\ Controller._prior_settings c' = Controller._prior_settings c
    /\ Controller._state c'
       = (if Bool.eqb (fire_is_on r) b then Controller._state c else Some BUSY)
    /\ sent_with o
       = (if desired_temp r =? t then [] else [(NEW_SET_TEMP, Some (VInt t))])
         ++ (if bool_decide (Controller.response_fan r = f) then []
             else [(fst (fan_pair f), Some (VFan f)); (snd (fan_pair f), Some (VFan f))])
         ++ (if Bool.eqb (fire_is_on r) b then []
             else [(if b then POWER_ON else POWER_OFF, Some (VBool b))])
    /\ callbacks o
       = (if bool_decide (prior = DISCONNECTED)
          then [Listener.controller_reconnected] else []).
Proof.
  intros Hack Hu Ht Hf Ho. unfold Controller.reconcile.
  rewrite run_bind, run_setting, Ht. fields. rewrite run_bind, py_eqb_int.
  destruct (maybe_resend msg w DESIRED_TEMP (VInt t) (negb (desired_temp r =? t))
              c k uid NEW_SET_TEMP Hack Hu Ht eq_refl)
    as (c1 & k1 & o1 & Hrun1 & Hl1 & Hlu1 & Hp1 & Hs1 & Hw1 & Hc1).
  rewrite Hrun1. fields.
  rewrite <- Hl1 in Hu, Hf, Ho.
  rewrite run_bind, run_setting, Hf. fields. rewrite run_bind, py_eqb_fan.
  destruct (maybe_resend msg w FAN_MODE (VFan f)
              (negb (bool_decide (Controller.response_fan r = f)))
              c1 k1 uid (fst (fan_pair f)) Hack Hu Hf (first_command_fan f))
    as (c2 & k2 & o2 & Hrun2 & Hl2 & Hlu2 & Hp2 & Hs2 & Hw2 & Hc2).
  rewrite Hrun2. fields.
  rewrite <- Hl2 in Hu, Ho.
  rewrite run_bind, run_setting, Ho. fields. rewrite run_bind, py_eqb_bool.
  destruct (maybe_resend msg w FIRE_IS_ON (VBool b) (negb (Bool.eqb (fire_is_on r) b))
              c2 k2 uid (if b then POWER_ON else POWER_OFF) Hack Hu Ho eq_refl)
    as (c3 & k3 & o3 & Hrun3 & Hl3 & Hlu3 & Hp3 & Hs3 & Hw3 & Hc3).
  rewrite Hrun3. fields.
  rewrite second_command_fan in Hw2.
  rewrite (bool_decide_eq_false_2 (DESIRED_TEMP = FIRE_IS_ON)), andb_false_r in Hs1
    by discriminate.
  rewrite (bool_decide_eq_false_2 (FAN_MODE = FIRE_IS_ON)), andb_false_r in Hs2
    by discriminate.
  rewrite (bool_decide_eq_true_2 (FIRE_IS_ON = FIRE_IS_ON)), andb_true_r in Hs3
    by reflexivity.
  rewrite (bool_decide_eq_false_2 (DESIRED_TEMP = FAN_MODE)) in Hw1 by discriminate.
  rewrite (bool_decide_eq_true_2 (FAN_MODE = FAN_MODE)) in Hw2 by reflexivity.
  rewrite (bool_decide_eq_false_2 (FIRE_IS_ON = FAN_MODE)) in Hw3 by discriminate.
  destruct (bool_decide (prior = DISCONNECTED)); mrun;
    (eexists _, _, _; split; [reflexivity|];
     split; [congruence|]; split; [congruence|]; split; [congruence|];
     split; [rewrite Hs3, Hs2, Hs1; by destruct (Bool.eqb _ _)|];
     split;
     [ rewrite ?sent_with_app, ?sent_with_cons, Hw1, Hw2, Hw3;
       destruct (desired_temp r =? t), (bool_decide (Controller.response_fan r = f)),
         (Bool.eqb (fire_is_on r) b); reflexivity
     | rewrite ?callbacks_app, ?callbacks_cons, Hc1, Hc2, Hc3; reflexivity ]).
Qed.

Lemma sent_with_notify_update w c k :
  sent_with (output_of (Controller.notify_update w (c, k))) = []
  /\ link_events (output_of (Controller.notify_update w (c, k))) = []
  /\ Controller._state (object_of (Controller.notify_update w (c, k)))
     = Controller._state c
  /\ (is_Some (Controller._last_update c) ->
      result_of (Controller.notify_update w (c, k)) = Ok tt).
Proof.
  unfold Controller.notify_update. destruct c; fields. mrun.
  destruct (Controller.changes_found _ _); mrun; [by auto|].
  destruct _last_update; mrun.
  - destruct (Qltb _ _); mrun; by auto.
  - repeat split; try reflexivity. by intros [? ?].
Qed.

(** X9. A refresh that starts in a state other than READY leaves every
    live setting but the timer flag and the room temperature as it was,
    however it ends.  When it receives a STATUS from a fireplace that
    acknowledges every command, it returns normally after sending, behind the
    status request and in this order, NEW_SET_TEMP if the STATUS shows
    another desired temperature than the live one, the pair of the live fan
    mode if the STATUS shows another mode, and the power command of the live
    power setting if the STATUS shows the other one, each with the live value
    as its payload; it ends in BUSY when it sent the power command and in
    READY otherwise, and calls [controller_reconnected] exactly when it
    started in DISCONNECTED. *)
Theorem refresh_outside_ready_keeps_the_user_settings msg w notify c k st :
  Controller._state c = Some st ->
  st <> READY ->
  let run := Controller._refresh_system msg w notify (c, k) in
  (forall key, key <> HAS_NEW_TIMERS -> key <> CURRENT_TEMP ->
     Controller._system_settings (object_of run) !! key
     = Controller._system_settings c !! key)
  /\ forall r t f b uid updated busy_end,
       acknowledging msg w ->
       status_received msg w (sends k) = Some r ->
       Controller._system_settings c !! DEVICE_UID = Some uid ->
       Controller._system_settings c !! DESIRED_TEMP = Some (VInt t) ->
       Controller._system_settings c !! FAN_MODE = Some (VFan f) ->
       Controller._system_settings c !! FIRE_IS_ON = Some (VBool b) ->
       Controller._last_update c = Some updated ->
       Controller._busy_end_time c = Some busy_end ->
       (st = BUSY -> (busy_end <= clock w (reads k))%Q) ->
       result_of run = Ok tt
       /\ sent_with (output_of run)
          = (STATUS_PLEASE, None)
            :: (if desired_temp r =? t then [] else [(NEW_SET_TEMP, Some (VInt t))])
            ++ (if bool_decide (Controller.response_fan r = f) then []
                else [(fst (fan_pair f), Some (VFan f));
                      (snd (fan_pair f), Some (VFan f))])
            ++ (if Bool.eqb (fire_is_on r) b then []
                else [(if b then POWER_ON else POWER_OFF, Some (VBool b))])
       /\ Controller._state (object_of run)
          = Some (if Bool.eqb (fire_is_on r) b then READY else BUSY)
       /\ link_events (output_of run)
          = (if bool_decide (st = DISCONNECTED)
             then [Listener.controller_reconnected] else []).
Proof.
  intros Hs Hst. cbv zeta. split.
  { unfold Controller._refresh_system, Controller._refresh_system_with.
    rewrite run_bind, run_attr, Hs. fields.
    rewrite (bool_decide_eq_false_2 (st = READY)) by exact Hst.
    assert (forall A (m : M Controller.t A),
              preserves same_live m -> preserves same_user_settings m) as Hweak.
    { intros A m. apply preserves_weaken. intros a b0 Hab key _ _. by rewrite Hab. }
    pose proof (fun r => Hweak _ _ (reconcile_keeps_live msg w st r)) as Hre.
    pose proof (preserves_request_status same_user_settings msg w) as Hrs.
    pose proof (preserves_no_status same_user_settings w) as Hno.
    pose proof (preserves_notify_update same_user_settings w) as Hnu.
    assert (forall v, preserves same_user_settings (Controller.store HAS_NEW_TIMERS v))
      as Hnew.
    { intros v [] k0 key H1 H2. fields. by apply lookup_insert_ne. }
    assert (forall v, preserves same_user_settings (Controller.store CURRENT_TEMP v))
      as Hcur.
    { intros v [] k0 key H1 H2. fields. by apply lookup_insert_ne. }
    match goal with |- context [bind ?m ?f (c, k)] =>
      assert (preserves same_user_settings (bind m f)) as Hrest by kept_walk;
      specialize (Hrest c k);
      destruct (bind m f (c, k)) as [[res [c1 k1]] o1]
    end.
    fields. exact Hrest. }
  intros r t f b uid updated busy_end Hack Hr Hu Ht Hf Ho Hup Hbe Hgate.
  assert (forall k0, sends k0 = sends k ->
    let run :=
      (let* response := Controller._request_status msg w in
       match response with
       | Some r =>
           if bool_decide (response_id r = STATUS)
           then
             modify (Controller.set_state READY) ;;;
             Controller.store HAS_NEW_TIMERS (VBool (has_new_timers r)) ;;;
             Controller.store CURRENT_TEMP (VInt (current_temp r)) ;;;
             (if bool_decide (st = READY)
              then Controller.store DESIRED_TEMP (VInt (desired_temp r)) ;;;
                   Controller.store FAN_MODE (VFan (Controller.response_fan r)) ;;;
                   Controller.store FIRE_IS_ON (VBool (fire_is_on r))
              else Controller.reconcile (Controller._set_system_state_sync msg w) st r) ;;;
             if notify then Controller.notify_update w else ret tt
           else Controller.no_status w st
       | None => Controller.no_status w st
       end) (c, k0) in
    result_of run = Ok tt
    /\ sent_with (output_of run)
       = (STATUS_PLEASE, None)
         :: (if desired_temp r =? t then [] else [(NEW_SET_TEMP, Some (VInt t))])
         ++ (if bool_decide (Controller.response_fan r = f) then []
             else [(fst (fan_pair f), Some (VFan f));
                   (snd (fan_pair f), Some (VFan f))])
         ++ (if Bool.eqb (fire_is_on r) b then []
             else [(if b then POWER_ON else POWER_OFF, Some (VBool b))])
    /\ Controller._state (object_of run)
       = Some (if Bool.eqb (fire_is_on r) b then READY else BUSY)
    /\ link_events (output_of run)
       = (if bool_decide (st = DISCONNECTED)
          then [Listener.controller_reconnected] else [])) as Hungated.
  { intros k0 Hk0. cbv zeta. rewrite <- Hk0 in Hr.
    destruct (status_received_request msg w c k0 r st Hs Hr) as [Hid Hreq].
    rewrite run_bind, Hreq. fields.
    rewrite (bool_decide_eq_true_2 _ Hid).
    rewrite (bool_decide_eq_false_2 (st = READY)) by exact Hst.
    destruct c as [live prior ini st0 lr be lu cl]. fields. mrun.
    match goal with
    | |- context [Controller.reconcile _ st r (?c2, ?k2)] =>
        destruct (reconcile_acknowledged msg w st r c2 k2 uid t f b Hack)
          as (c3 & k3 & o3 & Hrun & Hl3 & Hlu3 & Hp3 & Hs3 & Hw3 & Hc3);
        [ idtac .. | rewrite Hrun ]
    end.
    all: try (fields; rewrite !lookup_insert_ne by done; assumption).
    fields.
    assert (link_events o3
            = (if bool_decide (st = DISCONNECTED)
               then [Listener.controller_reconnected] else [])) as Hlink.
    { unfold link_events. rewrite Hc3. case_bool_decide; reflexivity. }
    assert (Controller._state c3
            = Some (if Bool.eqb (fire_is_on r) b then READY else BUSY)) as Hstate.
    { rewrite Hs3. by destruct (Bool.eqb _ _). }
    destruct notify; mrun.
    - destruct (sent_with_notify_update w c3 k3) as (Hw4 & Hl4 & Hs4 & Hr4).
      rewrite Hlu3 in Hr4. specialize (Hr4 (mk_is_Some _ _ Hup)).
      destruct (Controller.notify_update w (c3, k3)) as [[res [c4 k4]] o4].
      fields. subst res.
      split; [reflexivity|].
      split; [rewrite !sent_with_cons, !sent_with_app, Hw3, Hw4, app_nil_r;
              reflexivity|].
      split; [congruence|].
      change (Send STATUS_PLEASE None :: o3 ++ o4)
        with ([Send STATUS_PLEASE None] ++ o3 ++ o4).
      rewrite !link_events_app, Hlink, Hl4, app_nil_r. reflexivity.
    - split; [reflexivity|].
      split; [rewrite !sent_with_cons, !sent_with_app, Hw3, app_nil_r;
              reflexivity|].
      split; [exact Hstate|].
      change (Send STATUS_PLEASE None :: o3 ++ [])
        with ([Send STATUS_PLEASE None] ++ o3 ++ []).
      rewrite !link_events_app, Hlink, app_nil_r. reflexivity. }
  unfold Controller._refresh_system, Controller._refresh_system_with.
  rewrite run_bind, run_attr, Hs. fields. rewrite run_bind.
  destruct (decide (st = BUSY)) as [->|Hnb].
  - rewrite (bool_decide_eq_true_2 (BUSY = BUSY)) by reflexivity.
    rewrite run_bind, run_time. fields. rewrite run_bind, run_attr, Hbe. fields.
    rewrite run_ret. fields.
    assert (Qltb (clock w (reads k)) busy_end = false) as ->.
    { apply not_true_iff_false. intros Hlt. apply Qltb_lt in Hlt.
      specialize (Hgate eq_refl). lra. }
    specialize (Hungated (read k) eq_refl). cbv zeta in Hungated.
    match goal with |- context [bind ?a ?g (c, read k)] =>
      destruct (bind a g (c, read k)) as [[res [c3 k3]] o3]
    end.
    fields. exact Hungated.
  - rewrite (bool_decide_eq_false_2 (st = BUSY)) by exact Hnb.
    rewrite run_ret. fields.
    specialize (Hungated k eq_refl). cbv zeta in Hungated.
    match goal with |- context [bind ?a ?g (c, k)] =>
      destruct (bind a g (c, k)) as [[res [c3 k3]] o3]
    end.
    fields. exact Hungated.
Qed.

Lemma obliging_is_acknowledging status now :
  acknowledging example_message (obliging status now).
Proof. intros n cmd Hc. destruct cmd; first [contradiction | reflexivity]. Qed.

(** The poll after the busy window: the fireplace shows the fan in auto, the
    live mode is FAN_BOOST. *)
Lemma refresh_outside_ready_witness :
  sent_with
    (output_of (Controller._refresh_system example_message
                  (obliging (status_reply true false false 20 19) 1070%Q) true
                  (busy_controller, start)))
  = [(STATUS_PLEASE, None); (FLAME_EFFECT_OFF, Some (VFan FAN_BOOST));
     (FAN_BOOST_ON, Some (VFan FAN_BOOST))].
Proof.
  destruct (refresh_outside_ready_keeps_the_user_settings example_message
              (obliging (status_reply true false false 20 19) 1070%Q) true
              busy_controller start BUSY) as [_ H].
  - vm_compute. reflexivity.
  - discriminate.
  - destruct (H {| response_id := STATUS; serial_number := example_uid;
                   has_new_timers := false; fire_is_on := true;
                   fan_boost_is_on := false; flame_effect := false;
                   desired_temp := 20; current_temp := 19 |}
                20 FAN_BOOST true (VStr example_uid) 1000%Q 1066%Q)
      as (_ & Hw & _).
    + apply obliging_is_acknowledging.
    + reflexivity.
    + reflexivity.
    + reflexivity.
    + reflexivity.
    + reflexivity.
    + reflexivity.
    + reflexivity.
    + intros _. vm_compute. discriminate.
    + exact Hw.
Defined.


(** ** A new address *)

(** X11. [refresh_address] returns at once for the address the controller
    has; for another it moves the datagram layer, stores the address and
    starts the task that wakes the poll loop.  Either way the live address
    then equals the argument, every other live setting is as it was, and a
    second call with the same address does nothing. *)
Theorem refresh_address_moves_the_address_only c k cur address :
  Controller._system_settings c !! IP_ADDRESS = Some cur ->
  let run := Controller.refresh_address address (c, k) in
  run = (if py_eqb cur address
         then (Ok tt, (c, k), [])
         else (Ok tt,
               (Controller.set_system_settings
                  (<[IP_ADDRESS := address]> (Controller._system_settings c)) c, k),
               [Set_ip address; Create_task signal_loop_task]))
  /\ live_equals (object_of run) IP_ADDRESS address
  /\ (forall key, key <> IP_ADDRESS ->
        Controller._system_settings (object_of run) !! key
        = Controller._system_settings c !! key)
  /\ Controller.refresh_address address (state_of run) = (Ok tt, state_of run, []).
Proof.
  intros Hc. cbv zeta.
  assert (forall c0 k0 cur0,
            Controller._system_settings c0 !! IP_ADDRESS = Some cur0 ->
            Controller.refresh_address address (c0, k0)
            = (if py_eqb cur0 address
               then (Ok tt, (c0, k0), [])
               else (Ok tt,
                     (Controller.set_system_settings
                        (<[IP_ADDRESS := address]> (Controller._system_settings c0)) c0,
                      k0),
                     [Set_ip address; Create_task signal_loop_task]))) as Hrun.
  { intros c0 k0 cur0 H0. unfold Controller.refresh_address.
    destruct c0. fields. mrun. destruct (py_eqb cur0 address); mrun; reflexivity. }
  rewrite (Hrun c k cur Hc). split; [reflexivity|].
  destruct (py_eqb cur address) eqn:Heq; fields.
  - split; [exists cur; auto|]. split; [reflexivity|].
    rewrite (Hrun c k cur Hc), Heq. reflexivity.
  - destruct c as [live prior ini st lr be lu cl]. fields.
    split; [exists address; split; [apply lookup_insert_eq | apply py_eqb_refl]|].
    split; [intros key Hk; by apply lookup_insert_ne|].
    erewrite Hrun by (fields; apply lookup_insert_eq).
    rewrite py_eqb_refl. reflexivity.
Qed.

(** [ready_controller] is told of the address 192.168.0.112. *)
Lemma refresh_address_witness :
  output_of (Controller.refresh_address (VStr "192.168.0.112")
               (ready_controller, start))
  = [Set_ip (VStr "192.168.0.112"); Create_task signal_loop_task].
Proof.
  pose proof (refresh_address_moves_the_address_only ready_controller start
                (VStr example_ip) (VStr "192.168.0.112") eq_refl) as [H _].
  cbv zeta in H. rewrite H. reflexivity.
Defined.

(** ** One refresh *)

(** X12. On a controller that has its settings and is started, with a
    datagram layer that fails with ConnectionError only, STATUS expected for
    a status request and a clock that does not go back, a refresh returns
    normally and calls [controller_disconnected] or [controller_reconnected]
    exactly when it enters or leaves DISCONNECTED. *)
Theorem refresh_calls_the_callback_of_its_step msg w (notify : bool) c k :
  quiet_failures w ->
  expected_response msg STATUS_PLEASE = STATUS ->
  monotone w ->
  populated c -> started c -> in_silence w c k ->
  let run := Controller._refresh_system msg w notify (c, k) in
  result_of run = Ok tt
  /\ link_events (output_of run)
     = transition (Controller._state c) (Controller._state (object_of run))
  /\ populated (object_of run) /\ started (object_of run)
  /\ in_silence w (object_of run) (snd (state_of run)).
Proof.
  intros Hq Hst Hm Hp Hs Hsil. cbv zeta.
  destruct (refresh_step msg w Hq Hst Hm notify c k Hp Hs Hsil)
    as (Hr & Hp1 & Hs1 & Hsil1 & Hl & _).
  auto.
Qed.

(** A poll of [ready_controller] without a reply, 70 seconds after the
    last valid one. *)
Lemma refresh_step_witness :
  link_events
    (output_of (Controller._refresh_system example_message
                  (scripted [Responses []] [1070%Q]) true (ready_controller, start)))
  = [Listener.controller_disconnected].
Proof.
  destruct (refresh_calls_the_callback_of_its_step example_message
              (scripted [Responses []] [1070%Q]) true ready_controller start)
    as (_ & H & _).
  - apply scripted_is_quiet. intros o [<- | []]. eexists. reflexivity.
  - reflexivity.
  - apply standing_clock_is_monotone.
  - repeat split; eexists; vm_compute; reflexivity.
  - repeat split; eexists; vm_compute; reflexivity.
  - intros Hd. vm_compute in Hd. discriminate.
  - rewrite H. vm_compute. reflexivity.
Defined.

(** ** Listeners *)

Lemma list_remove_last l (ls : list Listener.t) :
  l ∉ ls -> DiscoveryService.list_remove l (ls ++ [l]) = Some ls.
Proof.
  induction ls as [|y ls IH]; intros Hl; cbn.
  - by rewrite bool_decide_eq_true_2.
  - apply not_elem_of_cons in Hl as [Hne Hl].
    rewrite bool_decide_eq_false_2 by congruence. by rewrite (IH Hl).
Qed.

Lemma list_remove_absent l (ls : list Listener.t) :
  l ∉ ls -> DiscoveryService.list_remove l ls = None.
Proof.
  induction ls as [|y ls IH]; intros Hl; cbn; [reflexivity|].
  apply not_elem_of_cons in Hl as [Hne Hl].
  rewrite bool_decide_eq_false_2 by congruence. by rewrite (IH Hl).
Qed.

(** X13. [remove_listener] of a listener that is not registered raises
    ValueError and changes nothing; [add_listener] puts the listener at the
    end of the list and schedules the replay of the known controllers, and
    [remove_listener] after it gives the service back as it was. *)
Theorem remove_listener_undoes_add_listener d k listener :
  listener ∉ DiscoveryService._listeners d ->
  let added := DiscoveryService.add_listener listener (d, k) in
  DiscoveryService.remove_listener listener (d, k) = (Raise ValueError, (d, k), [])
  /\ DiscoveryService._listeners (object_of added)
     = DiscoveryService._listeners d ++ [listener]
  /\ tasks_created (output_of added) = [replay_discovered_task listener]
  /\ DiscoveryService.remove_listener listener (state_of added) = (Ok tt, (d, k), []).
Proof.
  intros Hl. cbv zeta.
  unfold DiscoveryService.add_listener, DiscoveryService.remove_listener.
  destruct d as [cs disc ls ct ip ts]. cbn in Hl. mrun. cbn.
  rewrite (list_remove_absent _ _ Hl), (list_remove_last _ _ Hl). auto.
Qed.

(** Listener 3 is not one of the two listeners of [example_discovery]. *)
Lemma remove_listener_witness :
  DiscoveryService.remove_listener 3%nat (example_discovery, start)
  = (Raise ValueError, (example_discovery, start), []).
Proof.
  apply (remove_listener_undoes_add_listener example_discovery start 3%nat).
  cbn. intros H.
  repeat (apply elem_of_cons in H as [H|H]; [discriminate|]).
  by apply elem_of_nil in H.
Defined.

(** ** A lost and a found controller *)

Lemma filter_out_absent uid (s : list DictValue) :
  DiscoveryService.member uid s = false ->
  List.filter (fun v => negb (py_eqb uid v)) s = s.
Proof.
  unfold DiscoveryService.member. induction s as [|v s IH]; [reflexivity|].
  cbn. intros H. apply orb_false_iff in H as [Hv Hs]. rewrite Hv. cbn.
  by rewrite (IH Hs).
Qed.

Lemma member_filter_out uid (s : list DictValue) :
  DiscoveryService.member uid (List.filter (fun v => negb (py_eqb uid v)) s) = false.
Proof.
  unfold DiscoveryService.member. induction s as [|v s IH]; [reflexivity|].
  cbn. destruct (py_eqb uid v) eqn:E; cbn; [exact IH|]. by rewrite E, IH.
Qed.

Lemma member_app uid (s t : list DictValue) :
  DiscoveryService.member uid (s ++ t)
  = DiscoveryService.member uid s || DiscoveryService.member uid t.
Proof. apply existsb_app. Qed.

Lemma run_call_listeners cb ctrl d k :
  DiscoveryService.call_listeners cb ctrl (d, k)
  = (Ok tt, (d, k),
     map (fun l => Call_listener l cb (Controller._system_settings ctrl !! DEVICE_UID))
       (DiscoveryService._listeners d)).
Proof.
  unfold DiscoveryService.call_listeners. rewrite run_bind, run_get. fields.
  rewrite run_for_each_listeners. reflexivity.
Qed.

Lemma listener_calls_map cb uid (ls : list Listener.t) :
  listener_calls (map (fun l => Call_listener l cb uid) ls) = map (fun l => (l, cb)) ls.
Proof. induction ls as [|l ls IH]; [reflexivity|]. cbn. by rewrite <- IH. Qed.

Lemma tasks_created_map cb uid (ls : list Listener.t) :
  tasks_created (map (fun l => Call_listener l cb uid) ls) = [].
Proof. induction ls as [|l ls IH]; [reflexivity|]. exact IH. Qed.

Lemma run_controller_disconnected ctrl uid ip d k :
  Controller._system_settings ctrl !! DEVICE_UID = Some uid ->
  Controller._system_settings ctrl !! IP_ADDRESS = Some ip ->
  DiscoveryService.controller_disconnected ctrl (d, k)
  = (Ok tt,
     ((if DiscoveryService.member uid (DiscoveryService._disconnected d) then d
       else DiscoveryService.set_disconnected
              (DiscoveryService._disconnected d ++ [uid]) d), k),
     Log WARNING :: Create_task rescan_task
     :: map (fun l => Call_listener l Listener.controller_disconnected (Some uid))
          (DiscoveryService._listeners d)).
Proof.
  intros Hu Hi.
  unfold DiscoveryService.controller_disconnected, DiscoveryService.ctrl_setting.
  rewrite Hu, Hi. mrun. rewrite run_call_listeners, Hu.
  destruct (DiscoveryService.member uid _); destruct d; reflexivity.
Qed.

Lemma run_controller_reconnected ctrl uid ip d k :
  Controller._system_settings ctrl !! DEVICE_UID = Some uid ->
  Controller._system_settings ctrl !! IP_ADDRESS = Some ip ->
  DiscoveryService.controller_reconnected ctrl (d, k)
  = if DiscoveryService.member uid (DiscoveryService._disconnected d)
    then (Ok tt,
          (DiscoveryService.set_disconnected
             (List.filter (fun v => negb (py_eqb uid v))
                (DiscoveryService._disconnected d)) d, k),
          Log WARNING
          :: map (fun l => Call_listener l Listener.controller_reconnected (Some uid))
               (DiscoveryService._listeners d))
    else (Raise (KeyError_member uid), (d, k), [Log WARNING]).
Proof.
  intros Hu Hi.
  unfold DiscoveryService.controller_reconnected, DiscoveryService.ctrl_setting.
  rewrite Hu, Hi. mrun.
  destruct (DiscoveryService.member uid _); mrun; [|reflexivity].
  rewrite run_call_listeners, Hu. destruct d; reflexivity.
Qed.

(** X14. [controller_disconnected] for a controller whose serial is not
    in the set records the serial, starts a rescan task and calls every
    listener in the order of registration; a second call records nothing
    more; [controller_reconnected] then calls every listener and leaves the
    service as it was before the loss. *)
Theorem reconnected_undoes_disconnected ctrl uid ip d k :
  Controller._system_settings ctrl !! DEVICE_UID = Some uid ->
  Controller._system_settings ctrl !! IP_ADDRESS = Some ip ->
  DiscoveryService.member uid (DiscoveryService._disconnected d) = false ->
  let lost := DiscoveryService.controller_disconnected ctrl (d, k) in
  let again := DiscoveryService.controller_disconnected ctrl (state_of lost) in
  let back := DiscoveryService.controller_reconnected ctrl (state_of lost) in
  result_of lost = Ok tt
  /\ DiscoveryService._disconnected (object_of lost)
     = DiscoveryService._disconnected d ++ [uid]
  /\ tasks_created (output_of lost) = [rescan_task]
  /\ listener_calls (output_of lost)
     = map (fun l => (l, Listener.controller_disconnected)) (DiscoveryService._listeners d)
  /\ state_of again = state_of lost
  /\ result_of back = Ok tt
  /\ state_of back = (d, k)
  /\ listener_calls (output_of back)
     = map (fun l => (l, Listener.controller_reconnected)) (DiscoveryService._listeners d).
Proof.
  intros Hu Hi Hm. cbv zeta.
  rewrite (run_controller_disconnected ctrl uid ip d k Hu Hi), Hm.
  fields.
  rewrite (run_controller_disconnected ctrl uid ip _ k Hu Hi).
  rewrite (run_controller_reconnected ctrl uid ip _ k Hu Hi).
  destruct d as [cs disc ls ct bip ts].
  cbn [DiscoveryService._disconnected DiscoveryService._listeners
       DiscoveryService.set_disconnected state_of object_of result_of output_of
       fst snd] in *.
  assert (DiscoveryService.member uid (disc ++ [uid]) = true) as Hin.
  { rewrite member_app, Hm. cbn. by rewrite py_eqb_refl. }
  rewrite Hin.
  cbn [DiscoveryService._disconnected DiscoveryService._listeners
       DiscoveryService.set_disconnected state_of object_of result_of output_of
       fst snd].
  outs. rewrite !listener_calls_map, tasks_created_map.
  rewrite List.filter_app, (filter_out_absent _ _ Hm). cbn [List.filter].
  rewrite py_eqb_refl. cbn [negb]. rewrite app_nil_r. auto 10.
Qed.

(** Fireplace 17 is lost and found again. *)
Lemma reconnected_undoes_disconnected_witness :
  state_of
    (DiscoveryService.controller_reconnected ready_controller
       (state_of (DiscoveryService.controller_disconnected ready_controller
                    (example_discovery, start))))
  = (example_discovery, start).
Proof.
  pose proof (reconnected_undoes_disconnected ready_controller (VStr example_uid)
                (VStr example_ip) example_discovery start eq_refl eq_refl eq_refl)
    as (_ & _ & _ & _ & _ & _ & H & _).
  exact H.
Defined.

(** X15. [controller_reconnected] for a controller whose serial is not in
    the set of disconnected serials raises KeyError after the log record: no
    listener is called. *)
Theorem reconnected_needs_a_recorded_loss ctrl uid ip d k :
  Controller._system_settings ctrl !! DEVICE_UID = Some uid ->
  Controller._system_settings ctrl !! IP_ADDRESS = Some ip ->
  DiscoveryService.member uid (DiscoveryService._disconnected d) = false ->
  DiscoveryService.controller_reconnected ctrl (d, k)
  = (Raise (KeyError_member uid), (d, k), [Log WARNING]).
Proof.
  intros Hu Hi Hm. by rewrite (run_controller_reconnected ctrl uid ip d k Hu Hi), Hm.
Qed.

(** Fireplace 17 is reported found without having been reported lost. *)
Lemma reconnected_needs_a_recorded_loss_witness :
  DiscoveryService.controller_reconnected ready_controller (example_discovery, start)
  = (Raise (KeyError_member (VStr example_uid)), (example_discovery, start),
     [Log WARNING]).
Proof.
  apply (reconnected_needs_a_recorded_loss ready_controller (VStr example_uid)
           (VStr example_ip) example_discovery start); reflexivity.
Defined.

(** ** Replies to the probe *)

(** X16. A reply with a serial that is in the controllers map always ends
    [_discovery_received] in an exception, with the service unchanged and the
    address of the controller not refreshed: ValueError when the key is a
    string of other than two characters, and else AttributeError, because
    [_refresh_address] is not a name class Controller binds. *)
Theorem known_serial_is_not_refreshed
    (bm : string -> list DictValue -> Controller.t -> M DiscoveryService.t Controller.t)
    (d : DiscoveryService.t) (k : Cursor) (data : FireplaceMessage)
    (addr : Addr) (controller : Controller.t) :
  DiscoveryService._controllers d !! serial_number data = Some controller ->
  DiscoveryService._discovery_received bm data addr (d, k)
  = (Raise match addr with
           | AddrPair _ _ => AttributeError "_refresh_address"
           | AddrStr ip =>
               if (String.length ip =? 2)%nat
               then AttributeError "_refresh_address"
               else ValueError
           end,
     (d, k), []).
Proof.
  intros Hknown. unfold DiscoveryService._discovery_received.
  destruct addr as [ip|ip port].
  - destruct ip as [|a [|b [|c ip]]]; cbn [DiscoveryService.unpack_addr]; mrun;
      reflexivity.
  - cbn [DiscoveryService.unpack_addr]. mrun. rewrite call_refresh_address_fails.
    reflexivity.
Qed.

(** Fireplace 17, known at 192.168.0.111, answers from 192.168.0.112: the
    key a pair, and the key a string. *)
Lemma known_serial_witness :
  DiscoveryService._discovery_received no_method i_am_a_fire
    (AddrPair "192.168.0.112" 3300) (known_discovery, start)
  = (Raise (AttributeError "_refresh_address"), (known_discovery, start), [])
  /\ DiscoveryService._discovery_received no_method i_am_a_fire
       (AddrStr "192.168.0.112") (known_discovery, start)
     = (Raise ValueError, (known_discovery, start), []).
Proof.
  split.
  - apply (known_serial_is_not_refreshed no_method known_discovery start
             i_am_a_fire (AddrPair "192.168.0.112" 3300) ready_controller).
    reflexivity.
  - apply (known_serial_is_not_refreshed no_method known_discovery start
             i_am_a_fire (AddrStr "192.168.0.112") ready_controller).
    reflexivity.
Defined.

(** X17. A reply keyed by a string of other than two characters, as an IP
    address is, ends [_discovery_received] in ValueError at the unpacking of
    the key. *)
Theorem string_key_is_not_unpacked
    (bm : string -> list DictValue -> Controller.t -> M DiscoveryService.t Controller.t)
    (d : DiscoveryService.t) (k : Cursor) (data : FireplaceMessage) (ip : string) :
  String.length ip <> 2%nat ->
  DiscoveryService._discovery_received bm data (AddrStr ip) (d, k)
  = (Raise ValueError, (d, k), []).
Proof.
  intros Hlen. unfold DiscoveryService._discovery_received.
  assert (DiscoveryService.unpack_addr (AddrStr ip) = Raise ValueError) as ->.
  { destruct ip as [|a [|b [|c ip]]]; try reflexivity. by destruct Hlen. }
  mrun. reflexivity.
Qed.

(** The reply of fireplace 17, keyed by its IP address. *)
Lemma string_key_witness :
  DiscoveryService._discovery_received no_method i_am_a_fire
    (AddrStr example_ip) (example_discovery, start)
  = (Raise ValueError, (example_discovery, start), []).
Proof.
  apply (string_key_is_not_unpacked no_method example_discovery start i_am_a_fire
           example_ip).
  vm_compute. discriminate.
Defined.

(** X18. [start_discovery] returns normally only when the probe brings no
    reply at all.  A first reply makes it raise ValueError or one of the two
    AttributeErrors, a TimeoutError of the datagram layer comes out as
    ConnectionError, and any other failure as it is. *)
Theorem start_discovery_returns_only_without_replies
    (w : World)
    (bm : string -> list DictValue -> Controller.t -> M DiscoveryService.t Controller.t)
    (d : DiscoveryService.t) (k : Cursor) :
  let run := DiscoveryService.start_discovery w bm (d, k) in
  match net w (sends k) SEARCH_FOR_FIRES with
  | Responses [] => result_of run = Ok tt
  | Responses (_ :: _) =>
      result_of run = Raise ValueError
      \/ result_of run = Raise (AttributeError "sending_lock")
      \/ result_of run = Raise (AttributeError "_refresh_address")
  | Fails timeout_error => result_of run = Raise ConnectionError
  | Fails f => result_of run = Raise (exn_of_failure f)
  end.
Proof.
  cbv zeta. unfold DiscoveryService.start_discovery, DiscoveryService._send_broadcast.
  mrun. destruct (net w (sends k) SEARCH_FOR_FIRES) as [l|f]; fields.
  - destruct l as [|[addr data] rest]; cbn [DiscoveryService.for_each]; mrun;
      [reflexivity|].
    cbn [fst snd].
    unfold DiscoveryService._discovery_received, DiscoveryService._create_controller.
    mrun. destruct (DiscoveryService.unpack_addr addr) as [ip|e] eqn:Hip; mrun.
    + destruct (DiscoveryService._controllers d !! serial_number data) as [c|]; mrun.
      * rewrite call_refresh_address_fails. fields. auto.
      * rewrite create_controller_fails. fields. auto.
    + assert (e = ValueError) as ->.
      { destruct addr as [s|s p]; [|discriminate].
        destruct s as [|a [|b [|c s]]]; cbn in Hip; by simplify_eq. }
      fields. auto.
  - destruct f; cbn [exn_of_failure is_TimeoutError]; mrun; reflexivity.
Qed.
